(** * git-gui-python: the operation engine of [tool.py]

    A shallow embedding of the parts of [tool.py] that decide how Git
    operations are executed and reported:

    - [GitProgressHandler.update]  (progress throttling),
    - [GitWorker.run]              (one operation against the backend),
    - [GitManager]                 (submission guards, branch switching,
                                    error dialogs).

    Conventions.
    - A Python [str] is a Rocq [string] holding the bytes of its UTF-8
      encoding, so the Chinese literals of the source stand here as they
      are written.  Operations that count characters ([s[:n]], [s[n:]],
      [strip]) count encoded characters, not bytes.
    - Wall-clock readings ([time.time()], seconds) and progress counts are
      rationals; the threshold [0.5] is [1#2].
    - GitPython and Qt are opaque: every backend call is a transition of an
      abstract world that returns a value or raises. *)

From Stdlib Require Import Ascii String QArith Lqa Sorted.
From stdpp Require Import gmap strings list pretty.

Open Scope string_scope.
Open Scope list_scope.

(* ===================================================================== *)
(** * Part I: definitions                                                  *)
(* ===================================================================== *)

(** ** Python string primitives used by the source

    Strings are UTF-8 bytes.  No encoded character occurs inside another
    one or across two neighbours, so comparing, searching, splitting and
    replacing by bytes give what Python gives by characters.  Slicing and
    stripping are written by characters: a character is a byte that is
    not a continuation byte, together with the continuation bytes that
    follow it. *)
Module PyStr.

(** [bool(s)]: a string is truthy when it is not empty. *)
Definition truthy (s : string) : bool :=
  match s with EmptyString => false | String _ _ => true end.

(** [s.startswith(p)] *)
Definition startswith (s p : string) : bool := String.prefix p s.

(** [needle in hay] *)
Fixpoint contains (needle hay : string) : bool :=
  String.prefix needle hay ||
  match hay with
  | EmptyString => false
  | String _ rest => contains needle rest
  end.

(** [hay] has [needle] as a contiguous part. *)
Definition has_substring (needle hay : string) : Prop :=
  exists before after, hay = before +:+ needle +:+ after.

(** A continuation byte, [10xxxxxx]: every byte of an encoded character
    but its first. *)
Definition continuation (c : ascii) : bool :=
  let n := nat_of_ascii c in (128 <=? n)%nat && (n <? 192)%nat.

(** The continuation bytes [s] starts with, and what comes after them. *)
Fixpoint head_continuation (s : string) : string :=
  match s with
  | EmptyString => EmptyString
  | String c rest =>
      if continuation c then String c (head_continuation rest) else EmptyString
  end.

Fixpoint skip_continuation (s : string) : string :=
  match s with
  | EmptyString => EmptyString
  | String c rest => if continuation c then skip_continuation rest else s
  end.

(** [s[n:]]: [n] characters are left out. *)
Fixpoint drop (n : nat) (s : string) : string :=
  match n, s with
  | O, _ => s
  | S _, EmptyString => EmptyString
  | S m, String _ rest => drop m (skip_continuation rest)
  end.

(** [s[:n]]: the first [n] characters. *)
Fixpoint take (n : nat) (s : string) : string :=
  match n, s with
  | O, _ => EmptyString
  | S _, EmptyString => EmptyString
  | S m, String c rest =>
      String c (head_continuation rest +:+ take m (skip_continuation rest))
  end.

(** [len(s)]: the number of characters. *)
Fixpoint len (s : string) : nat :=
  match s with
  | EmptyString => O
  | String c rest => if continuation c then len rest else S (len rest)
  end.

(** The same cuts counted in bytes, as [endswith] below uses them. *)
Fixpoint drop_bytes (n : nat) (s : string) : string :=
  match n, s with
  | O, _ => s
  | S _, EmptyString => EmptyString
  | S m, String _ rest => drop_bytes m rest
  end.

Fixpoint take_bytes (n : nat) (s : string) : string :=
  match n, s with
  | O, _ => EmptyString
  | S _, EmptyString => EmptyString
  | S m, String c rest => String c (take_bytes m rest)
  end.

(** [s.split(sep)] for a one-character separator: never the empty list. *)
Fixpoint split (sep : ascii) (s : string) : list string :=
  match s with
  | EmptyString => [EmptyString]
  | String c rest =>
      if Ascii.eqb c sep then EmptyString :: split sep rest
      else match split sep rest with
           | [] => [String c EmptyString]
           | field :: fields => String c field :: fields
           end
  end.

(** [sep.join(parts)] *)
Fixpoint join (sep : string) (parts : list string) : string :=
  match parts with
  | [] => EmptyString
  | [p] => p
  | p :: rest => p +:+ sep +:+ join sep rest
  end.

(** [ch.isspace()] for one character, given by its bytes.  It holds of
    U+0009..U+000D, U+001C..U+0020, U+0085, U+00A0, U+1680,
    U+2000..U+200A, U+2028, U+2029, U+202F, U+205F and U+3000. *)
Definition isspace (ch : string) : bool :=
  match map nat_of_ascii (list_ascii_of_string ch) with
  | [n] => ((9 <=? n) && (n <=? 13)) || ((28 <=? n) && (n <=? 32))
  | [194; n] => (n =? 133) || (n =? 160)
  | [225; 154; 128] => true
  | [226; 128; n] => ((128 <=? n) && (n <=? 138)) || (n =? 168) || (n =? 169) || (n =? 175)
  | [226; 129; 159] => true
  | [227; 128; 128] => true
  | _ => false
  end%nat.

(** [s.lstrip()]: the whitespace characters at the front go, whether they
    take one, two or three bytes. *)
Fixpoint lstrip (s : string) : string :=
  match s with
  | EmptyString => EmptyString
  | String c1 rest1 =>
      if isspace (String c1 EmptyString) then lstrip rest1
      else
        match rest1 with
        | EmptyString => s
        | String c2 rest2 =>
            if isspace (String c1 (String c2 EmptyString)) then lstrip rest2
            else
              match rest2 with
              | EmptyString => s
              | String c3 rest3 =>
                  if isspace (String c1 (String c2 (String c3 EmptyString)))
                  then lstrip rest3 else s
              end
        end
  end.

(** [s.rstrip()]: the string is cut where nothing but whitespace follows. *)
Fixpoint rstrip (s : string) : string :=
  match s with
  | EmptyString => EmptyString
  | String c rest =>
      if truthy (lstrip s) then String c (rstrip rest) else EmptyString
  end.

(** [s.strip()] *)
Definition strip (s : string) : string := rstrip (lstrip s).

Definition LF : ascii := ascii_of_nat 10.
Definition SLASH : ascii := ascii_of_nat 47.

End PyStr.

(** ** [class GitProgressHandler(RemoteProgress)] *)
Module Progress.

(** The only field the handler reads back: [self.last_update]. *)
Record Handler := { last_update : Q }.

(** [__init__]: [self.last_update = 0]. *)
Definition init : Handler := {| last_update := 0%Q |}.

(** One invocation of [update] by the backend.  [cb_time] is what
    [time.time()] returns on entry; [max_count] defaults to [None] and
    [message] to the empty string. *)
Record Callback := {
  cb_time   : Q;
  op_code   : Z;
  cur_count : Q;
  max_count : option Q;
  message   : string
}.

Section Update.
(** [f"{x:.1f}"] on a float.  IEEE arithmetic and its decimal printing
    are outside the model: the formatter is a parameter, applied to
    the exact quotient. *)
Variable format_1f : Q -> string.

(** [current_time - self.last_update > 0.5 or message] *)
Definition due (h : Handler) (c : Callback) : bool :=
  negb (Qle_bool (cb_time c - last_update h)%Q (1#2)%Q)
  || PyStr.truthy (message c).

(** [max_count and max_count > 0] for a [max_count] that is a number:
    truthy, that is not zero, and positive. *)
Definition positive_total (m : Q) : bool :=
  negb (Qeq_bool m 0%Q) && negb (Qle_bool m 0%Q).

(** The text handed to [self.signals.progress.emit]. *)
Definition progress_text (c : Callback) : string :=
  if PyStr.truthy (message c) then message c
  else match max_count c with
       | Some m =>
           if positive_total m
           then "进度: " +:+ format_1f ((cur_count c / m) * 100)%Q +:+ "%"
           else "处理中..."
       | None => "处理中..."
       end.

(** [update]: the emitted text, if any, and the handler afterwards. *)
Definition update (h : Handler) (c : Callback) : option string * Handler :=
  if due h c
  then (Some (progress_text c), {| last_update := cb_time c |})
  else (None, h).

(** A stream of callbacks on one handler: what each of them emitted. *)
Fixpoint updates (h : Handler) (cs : list Callback) : list (option string) * Handler :=
  match cs with
  | [] => ([], h)
  | c :: rest =>
      let '(e, h1) := update h c in
      let '(es, h2) := updates h1 rest in
      (e :: es, h2)
  end.

Definition emissions (h : Handler) (cs : list Callback) : list (option string) :=
  fst (updates h cs).

Definition handler_after (h : Handler) (cs : list Callback) : Handler :=
  snd (updates h cs).
End Update.

(** The formatter of the sample runs: the nearest tenth of an exact
    rational, ties to even.  This is what [f"{x:.1f}"] prints when the
    float holds [x] exactly, as it does for the percentages of the samples
    (25.0, 50.0, 75.0 and 100.0).  Where the float quotient is only near
    the rational, as for 1/2000, Python can print another last digit; the
    properties are stated for an arbitrary formatter. *)
Definition tenths (x : Q) : Z :=
  let n := (Qnum x * 10)%Z in
  let d := Z.pos (Qden x) in
  let q := (n / d)%Z in
  let r := (n mod d)%Z in
  if (2 * r <? d)%Z then q
  else if (d <? 2 * r)%Z then (q + 1)%Z
  else if Z.even q then q else (q + 1)%Z.

Definition digits (n : Z) : string := pretty (Z.to_N n).

Definition format_1f_exact (x : Q) : string :=
  let t := tenths x in
  (if (t <? 0)%Z then "-" else "")
  +:+ digits (Z.abs t / 10)%Z +:+ "." +:+ digits (Z.abs t mod 10)%Z.

(** Callbacks arrive in the order of their clock readings. *)
Definition chronological (cs : list Callback) : Prop :=
  forall i j ci cj,
    (i <= j)%nat -> cs !! i = Some ci -> cs !! j = Some cj ->
    (cb_time ci <= cb_time cj)%Q.

End Progress.


(** ** Python values and exceptions that reach [GitWorker.run] *)
Module Py.

(** What travels in [self.args] and through GitPython's dynamic
    arguments: strings, booleans and [None]. *)
Inductive value :=
| VStr (s : string)
| VBool (b : bool)
| VNone.

(** [bool(v)] *)
Definition truthy (v : value) : bool :=
  match v with
  | VStr s => PyStr.truthy s
  | VBool b => b
  | VNone => false
  end.

(** [str(v)], which is also how an f-string renders [v]. *)
Definition str (v : value) : string :=
  match v with
  | VStr s => s
  | VBool true => "True"
  | VBool false => "False"
  | VNone => "None"
  end.

(** [x or y] *)
Definition or_ (x y : value) : value := if truthy x then x else y.

Definition of_option (o : option string) : value :=
  match o with Some s => VStr s | None => VNone end.

(** Exceptions below [Exception]; each carries the text [str(e)] gives. *)
Inductive exn :=
| GitCommandError (text : string)
| IndexError (text : string)
| TypeError (text : string)
| OtherException (text : string).

Definition str_exn (e : exn) : string :=
  match e with
  | GitCommandError t | IndexError t | TypeError t | OtherException t => t
  end.

Definition is_GitCommandError (e : exn) : bool :=
  match e with GitCommandError _ => true | _ => false end.

(** A call returns or raises. *)
Inductive outcome (A : Type) :=
| Ok (a : A)
| Raise (e : exn).
Arguments Ok {A} a.
Arguments Raise {A} e.

(** [args[i]] on a tuple. *)
Definition index (args : list value) (i : nat) : outcome value :=
  match args !! i with
  | Some v => Ok v
  | None => Raise (IndexError "tuple index out of range")
  end.

(** [v[:n]]: only strings can be sliced. *)
Definition slice_to (n : nat) (v : value) : outcome string :=
  match v with
  | VStr s => Ok (PyStr.take n s)
  | VBool _ => Raise (TypeError "'bool' object is not subscriptable")
  | VNone => Raise (TypeError "'NoneType' object is not subscriptable")
  end.

(** [v == "literal"] *)
Definition eq_str (v : value) (lit : string) : bool :=
  match v with VStr s => String.eqb s lit | _ => false end.

End Py.

(** ** The GitPython surface that [GitWorker.run] touches *)
Module Git.
Import Py.

(** A commit object as the source reads it. *)
Record Commit := {
  hexsha : string;
  summary : string;
  author_name : string;
  committed_date : string;      (* committed_datetime.strftime("%Y-%m-%d %H:%M") *)
  parents : list string         (* hexsha of each parent, first parent first *)
}.

(** One element of [commit.diff(...)]. *)
Record DiffItem := {
  a_path : option string;
  b_path : option string;
  change_type : string
}.

(** Keyword arguments of [origin.push] and [origin.pull] (the progress
    handler apart). *)
Record PushArgs := { refspec : option string; set_upstream : bool }.
Record PullArgs := { kw_rebase : value; kw_prune : option value }.

(** Every call is a transition of the world [W].  [push] and [pull] also
    report the progress callbacks they made before they returned or
    raised; [remote_refs] gives the names of [remote.refs] over all
    [repo.remotes] that were enumerated before the iteration ended. *)
Record Backend (W : Type) := {
  Repo : option string -> W -> outcome unit * W;
  git : string -> list value -> W -> outcome string * W;
  iter_commits : nat -> W -> outcome (list Commit) * W;
  branches : W -> outcome (list string) * W;
  active_branch_name : W -> outcome string * W;
  remote_refs : W -> list string * W;
  remote : string -> W -> outcome unit * W;
  push : PushArgs -> W -> (list Progress.Callback * outcome unit) * W;
  pull : PullArgs -> W -> (list Progress.Callback * outcome unit) * W;
  commit : value -> W -> outcome Commit * W;
  commit_diff : Commit -> option string -> W -> outcome (list DiffItem) * W;
  create_remote : value -> value -> W -> outcome unit * W
}.
Arguments Repo {W}. Arguments git {W}. Arguments iter_commits {W}.
Arguments branches {W}. Arguments active_branch_name {W}.
Arguments remote_refs {W}. Arguments remote {W}. Arguments push {W}.
Arguments pull {W}. Arguments commit {W}. Arguments commit_diff {W}.
Arguments create_remote {W}.

End Git.

(** ** [class GitWorker(QRunnable)] *)
Module Worker.
Import Py Git.

(** Entries of the dictionaries the worker emits. *)
Record CommitInfo := {
  ci_hash : string; ci_message : string; ci_author : string;
  ci_date : string; ci_full_hash : string
}.
Record BranchInfo := {
  local_branches : list string;
  remote_branches : list string;
  active_branch : string
}.
Record FileInfo := {
  fi_path : value; fi_change_type : string; fi_diff : string
}.

(** The object carried by [signals.result]. *)
Inductive Payload :=
| PText (text : string)
| PStatus (rows : list (string * string * string))
| PLog (commits : list CommitInfo)
| PBranches (info : BranchInfo)
| PCommitDetail (c : CommitInfo) (files_changed : list FileInfo).

(** [GitWorkerSignals]: [result], [error], [progress]. *)
Inductive Signal :=
| Result (p : Payload)
| Error (msg : string)
| ProgressSignal (text : string).

Definition is_terminal (s : Signal) : bool :=
  match s with Result _ | Error _ => true | ProgressSignal _ => false end.
Definition is_result (s : Signal) : bool :=
  match s with Result _ => true | _ => false end.
Definition is_error (s : Signal) : bool :=
  match s with Error _ => true | _ => false end.

(** *** Status lines *)
Definition UNTRACKED : string := "未跟踪".
Definition STAGED    : string := "已暂存".
Definition MODIFIED  : string := "修改".
Definition DELETED   : string := "删除".
Definition UNSTAGED  : string := "未暂存".

(** The body of the loop for a line that passed [line.strip()].
    [line[0]] is in range there, [take 1] is that character. *)
Definition status_row (line : string) : string * string * string :=
  if PyStr.startswith line "??" then (UNTRACKED, PyStr.drop 3 line, "➕")
  else
    let code := PyStr.take 1 line in
    let file_path := PyStr.drop 3 line in
    if String.eqb code "A" then (STAGED, file_path, "✅")
    else if String.eqb code "M" then (MODIFIED, file_path, "📝")
    else if String.eqb code "D" then (DELETED, file_path, "❌")
    else (UNSTAGED, file_path, "📝").

Definition status_line (line : string) : list (string * string * string) :=
  if PyStr.truthy (PyStr.strip line) then [status_row line] else [].

Definition parse_status (git_status : string) : list (string * string * string) :=
  flat_map status_line (PyStr.split PyStr.LF git_status).

(** *** Smaller pieces of [run] *)
Definition commit_info (c : Commit) : CommitInfo :=
  {| ci_hash := PyStr.take 7 (hexsha c); ci_message := summary c;
     ci_author := author_name c; ci_date := committed_date c;
     ci_full_hash := hexsha c |}.

(** [s.endswith(suffix)] *)
Definition endswith (s suffix : string) : bool :=
  String.eqb (PyStr.drop_bytes (String.length s - String.length suffix) s) suffix
  && (String.length suffix <=? String.length s)%nat.

(** Which remote refs the "branches" operation keeps. *)
Definition keep_remote_ref (name : string) : bool :=
  negb (endswith name "/HEAD")
  && (PyStr.contains "/" name && negb (PyStr.startswith name "origin/HEAD")).

(** [message = self.args[0] if self.args else "Update"] *)
Definition commit_message (args : list value) : value :=
  match args with
  | [] => VStr "Update"
  | m :: _ => m
  end.

(** [rebase = self.args[0] if len(self.args) > 0 else True] and
    [prune = self.args[1] if len(self.args) > 1 else True] *)
Definition pull_rebase (args : list value) : value :=
  default (VBool true) (args !! 0%nat).
Definition pull_prune (args : list value) : value :=
  default (VBool true) (args !! 1%nat).

(** [pull_kwargs], without the progress handler. *)
Definition pull_kwargs (args : list value) : PullArgs :=
  {| kw_rebase := pull_rebase args;
     kw_prune := if truthy (pull_prune args) then Some (pull_prune args) else None |}.

(** [force = self.args[1] if len(self.args) > 1 else False] *)
Definition delete_force (args : list value) : value :=
  default (VBool false) (args !! 1%nat).

(** [diff_item.b_path or diff_item.a_path] *)
Definition item_path (d : DiffItem) : value :=
  or_ (of_option (b_path d)) (of_option (a_path d)).

Definition no_upstream_message (current_branch : string) : string :=
  "分支 '" +:+ current_branch +:+ "' 没有设置上游分支。" +:+ String PyStr.LF "" +:+
  "请使用 'git push --set-upstream origin " +:+ current_branch +:+ "' " +:+
  "命令设置上游分支，或者在界面中选择相应选项。".

Definition NO_UPSTREAM : string := "has no upstream branch".

(** The operation names [run] has a branch for. *)
Definition supported : list string :=
  ["status"; "log"; "branches"; "add"; "commit"; "push";
   "push_with_upstream"; "pull"; "checkout"; "create_branch"; "merge";
   "cherry_pick"; "show_commit"; "diff"; "checkout_file"; "add_remote";
   "delete_branch"].

(** *** The execution monad: world and emitted signals, with exceptions.
    State changes made before a raise stay, as in Python. *)
Record RunState (W : Type) := { world : W; emitted : list Signal }.
Arguments world {W}. Arguments emitted {W}.

Definition M (W A : Type) : Type := RunState W -> outcome A * RunState W.

Section Monad.
Context {W : Type}.

Definition ret {A} (a : A) : M W A := fun st => (Ok a, st).

Definition bind {A B} (m : M W A) (k : A -> M W B) : M W B :=
  fun st =>
    match m st with
    | (Ok a, st1) => k a st1
    | (Raise e, st1) => (Raise e, st1)
    end.

Definition raise {A} (e : exn) : M W A := fun st => (Raise e, st).

(** A value computed without the backend, which may raise. *)
Definition lift {A} (o : outcome A) : M W A := fun st => (o, st).

(** A backend call. *)
Definition call {A} (f : W -> outcome A * W) : M W A :=
  fun st =>
    let '(o, w) := f (world st) in
    (o, {| world := w; emitted := emitted st |}).

(** [self.signals.<signal>.emit(...)] *)
Definition emit (s : Signal) : M W unit :=
  fun st => (Ok tt, {| world := world st; emitted := emitted st ++ [s] |}).

(** [try: body  except <those e with catches e>: handler e] *)
Definition try_except {A} (catches : exn -> bool)
           (body : M W A) (handler : exn -> M W A) : M W A :=
  fun st =>
    match body st with
    | (Ok a, st1) => (Ok a, st1)
    | (Raise e, st1) => if catches e then handler e st1 else (Raise e, st1)
    end.

(** [except Exception] *)
Definition any_exception (e : exn) : bool := true.
End Monad.

(** stdpp's monad notations ([x ← m; k] and [m;; k]) for [M W]. *)
#[export] Instance M_ret {W} : MRet (M W) := fun A => @ret W A.
#[export] Instance M_bind {W} : MBind (M W) := fun A B k m => @bind W A B m k.

(** *** [GitWorker.run]
    The [print] and [time.time()] bookkeeping of [run] has no effect on
    signals or on the backend and is left out. *)
Section Run.
Context {W : Type}.
Variable B : Backend W.
Variable format_1f : Q -> string.

(** A network call with [progress=GitProgressHandler(self.signals)]:
    a fresh handler sees the callbacks, what it lets through is
    emitted on [signals.progress], then the call returns or raises. *)
Definition with_progress
    (f : W -> (list Progress.Callback * outcome unit) * W) : M W unit :=
  fun st =>
    let '((callbacks, o), w) := f (world st) in
    let texts := omap id (Progress.emissions format_1f Progress.init callbacks) in
    (o, {| world := w; emitted := emitted st ++ map ProgressSignal texts |}).

Definition set_transport_limits : M W unit :=
  call (git B "config" [VStr "http.lowSpeedLimit"; VStr "1000"]);;
  call (git B "config" [VStr "http.lowSpeedTime"; VStr "30"]);;
  mret tt.

(** What "show_commit" asks the backend for one path: the diff between
    the first parent and the commit, or, for a commit without parents,
    the content of the path as of the commit. *)
Definition path_content (c : Commit) (d : DiffItem) : W -> outcome string * W :=
  match parents c with
  | parent0 :: _ =>
      git B "diff" [VStr parent0; VStr (hexsha c); VStr "--"; item_path d]
  | [] =>
      git B "show" [VStr (hexsha c +:+ ":" +:+ str (item_path d))]
  end.

Definition DIFF_UNAVAILABLE : string := "无法获取差异信息: ".

(** One iteration of the loop over [diff] in "show_commit". *)
Definition file_entry (c : Commit) (d : DiffItem) : M W FileInfo :=
  try_except any_exception
    (diff_content ← call (path_content c d);
     mret {| fi_path := item_path d; fi_change_type := change_type d;
             fi_diff := diff_content |})
    (fun e =>
       mret {| fi_path := item_path d; fi_change_type := change_type d;
               fi_diff := DIFF_UNAVAILABLE +:+ str_exn e |}).

Fixpoint files_changed (c : Commit) (diff : list DiffItem) : M W (list FileInfo) :=
  match diff with
  | [] => mret []
  | d :: rest =>
      entry ← file_entry c d;
      entries ← files_changed c rest;
      mret (entry :: entries)
  end.

(** The [if]/[elif] chain on [self.operation]. *)
Definition operation_body (operation : string) (args : list value) : M W unit :=
  if String.eqb operation "status" then
    git_status ← call (git B "status" [VStr "--porcelain"]);
    emit (Result (PStatus (parse_status git_status)))
  else if String.eqb operation "log" then
    commits ← call (iter_commits B 20);
    emit (Result (PLog (map commit_info commits)))
  else if String.eqb operation "branches" then
    locals ← call (branches B);
    active ← call (active_branch_name B);
    refs ← call (fun w => let '(names, w1) := remote_refs B w in (Ok names, w1));
    emit (Result (PBranches
      {| local_branches := locals;
         remote_branches := List.filter keep_remote_ref refs;
         active_branch := active |}))
  else if String.eqb operation "add" then
    call (git B "add" [VStr "."]);;
    emit (Result (PText "所有文件已暂存"))
  else if String.eqb operation "commit" then
    let message := commit_message args in
    call (git B "commit" [VStr "-m"; message]);;
    emit (Result (PText ("提交成功: " +:+ str message)))
  else if String.eqb operation "push" then
    set_transport_limits;;
    call (remote B "origin");;
    try_except is_GitCommandError
      (with_progress (push B {| refspec := None; set_upstream := false |});;
       emit (Result (PText "推送成功")))
      (fun e =>
         if PyStr.contains NO_UPSTREAM (str_exn e) then
           current_branch ← call (active_branch_name B);
           emit (Error (no_upstream_message current_branch))
         else emit (Error (str_exn e)))
  else if String.eqb operation "push_with_upstream" then
    set_transport_limits;;
    call (remote B "origin");;
    current_branch ← call (active_branch_name B);
    try_except is_GitCommandError
      (with_progress
         (push B {| refspec := Some (current_branch +:+ ":" +:+ current_branch);
                    set_upstream := true |});;
       emit (Result (PText
         ("推送成功，并已设置上游分支为 origin/" +:+ current_branch))))
      (fun e => emit (Error (str_exn e)))
  else if String.eqb operation "pull" then
    set_transport_limits;;
    call (remote B "origin");;
    with_progress (pull B (pull_kwargs args));;
    emit (Result (PText "拉取成功"))
  else if String.eqb operation "checkout" then
    if (length args =? 3)%nat && eq_str (default VNone (args !! 0%nat)) "-b" then
      let branch_name := default VNone (args !! 1%nat) in
      let remote_branch := default VNone (args !! 2%nat) in
      call (git B "checkout" [VStr "-b"; branch_name; remote_branch]);;
      emit (Result (PText ("创建并切换到新分支: " +:+ str branch_name +:+
                           " (跟踪 " +:+ str remote_branch +:+ ")")))
    else
      branch_name ← lift (index args 0);
      call (git B "checkout" [branch_name]);;
      emit (Result (PText ("切换到分支: " +:+ str branch_name)))
  else if String.eqb operation "create_branch" then
    branch_name ← lift (index args 0);
    call (git B "checkout" [VStr "-b"; branch_name]);;
    emit (Result (PText ("创建并切换到新分支: " +:+ str branch_name)))
  else if String.eqb operation "merge" then
    branch_name ← lift (index args 0);
    call (git B "merge" [branch_name]);;
    emit (Result (PText ("成功合并分支: " +:+ str branch_name)))
  else if String.eqb operation "cherry_pick" then
    commit_hash ← lift (index args 0);
    call (git B "cherry_pick" [commit_hash]);;
    short ← lift (slice_to 7 commit_hash);
    emit (Result (PText ("成功cherry-pick提交: " +:+ short)))
  else if String.eqb operation "show_commit" then
    commit_hash ← lift (index args 0);
    c ← call (commit B commit_hash);
    diff ← call (commit_diff B c (head (parents c)));
    files ← files_changed c diff;
    emit (Result (PCommitDetail (commit_info c) files))
  else if String.eqb operation "diff" then
    file_path ← lift (index args 0);
    diff_content ← call (git B "diff" [VStr "HEAD"; VStr "--"; file_path]);
    emit (Result (PText diff_content))
  else if String.eqb operation "checkout_file" then
    file_path ← lift (index args 0);
    call (git B "checkout" [VStr "--"; file_path]);;
    emit (Result (PText ("已取消变更: " +:+ str file_path)))
  else if String.eqb operation "add_remote" then
    remote_name ← lift (index args 0);
    remote_url ← lift (index args 1);
    call (create_remote B remote_name remote_url);;
    emit (Result (PText ("远程仓库 '" +:+ str remote_name +:+
                         "' 已添加，URL: " +:+ str remote_url)))
  else if String.eqb operation "delete_branch" then
    branch_name ← lift (index args 0);
    if truthy (delete_force args) then
      call (git B "branch" [VStr "-D"; branch_name]);;
      emit (Result (PText ("分支 '" +:+ str branch_name +:+ "' 已强制删除")))
    else
      call (git B "branch" [VStr "-d"; branch_name]);;
      emit (Result (PText ("分支 '" +:+ str branch_name +:+ "' 已删除")))
  else mret tt.

(** [run]: open the repository, dispatch, and report whatever
    exception escapes as one [error] signal. *)
Definition run (repo_path : option string) (operation : string)
           (args : list value) : M W unit :=
  try_except any_exception
    (call (Repo B repo_path);;
     operation_body operation args)
    (fun e => emit (Error (str_exn e))).

(** The signals of one execution started in world [w]. *)
Definition signals_of (repo_path : option string) (operation : string)
           (args : list value) (w : W) : list Signal :=
  emitted (snd (run repo_path operation args {| world := w; emitted := [] |})).

End Run.

(** *** Counting terminal notifications *)
Section Terminal.
Context {W : Type}.

(** The terminal signals among those emitted so far. *)
Definition terminals (signals : list Signal) : list Signal :=
  List.filter is_terminal signals.

(** [quiet m]: [m] emits no terminal signal, whether it returns or raises. *)
Definition quiet {A : Type} (m : M W A) : Prop :=
  forall st, terminals (emitted (snd (m st))) = terminals (emitted st).

(** [delivers m]: [m] emits exactly one terminal signal when it returns and
    none when it raises. *)
Definition delivers {A : Type} (m : M W A) : Prop :=
  forall st,
    match m st with
    | (Ok _, st1) =>
        exists s, is_terminal s = true
                  /\ terminals (emitted st1) = terminals (emitted st) ++ [s]
    | (Raise _, st1) => terminals (emitted st1) = terminals (emitted st)
    end.
End Terminal.

End Worker.

(** ** [class GitManager(QWidget)]
    Widgets are reduced to what the methods read from them; those readings
    and the answers of modal dialogs are arguments of the methods.  Button
    and combo-box "loading" states are presentation and are left out.  A
    method runs to its end on the GUI thread; the slots connected to a
    worker's signals run later, as steps of their own. *)
Module Manager.
Import Py.

(** Which slot a worker's [error] signal is connected to. *)
Inductive ErrorSlot :=
| to_handle_git_error          (* [execute_git_task] *)
| to_switch_error              (* [on_checkout_error] of [switch_branch] *)
| to_commit_detail_error       (* [on_error] of [show_commit_detail] *)
| to_diff_error                (* [on_diff_error] *)
| to_cancel_error              (* [on_checkout_error] of [cancel_file_changes] *)
| to_delete_branch_error.      (* [on_delete_branch_error] *)

(** A [GitWorker] as constructed by the manager. *)
Record GitWorker := {
  repo_path : option string;
  operation : string;
  args : list value;
  error_slot : ErrorSlot
}.

(** An entry of [self.branch_combo]: [itemText] and [itemData]. *)
Record ComboItem := { item_text : string; item_data : option string }.

Record State := {
  current_repo : bool;                  (* [self.current_repo] is a [Repo] *)
  current_repo_path : option string;
  active_operations : gset string;
  branch_combo : list ComboItem;
  threadpool : list GitWorker;          (* handed to [threadpool.start], oldest first *)
  log : list string                     (* lines written by [log_message] *)
}.

(** [__init__], before any repository is chosen. *)
Definition initial : State :=
  {| current_repo := false; current_repo_path := None;
     active_operations := ∅; branch_combo := [];
     threadpool := []; log := [] |}.

Definition set_active (f : gset string -> gset string) (st : State) : State :=
  {| current_repo := current_repo st; current_repo_path := current_repo_path st;
     active_operations := f (active_operations st);
     branch_combo := branch_combo st; threadpool := threadpool st; log := log st |}.

(** [self.active_operations.add(key)], [.discard(key)] *)
Definition add_operation (key : string) : State -> State :=
  set_active (fun s => s ∪ {[key]}).
Definition discard_operation (key : string) : State -> State :=
  set_active (fun s => s ∖ {[key]}).

(** [self.log_message(message)] *)
Definition log_message (message : string) (st : State) : State :=
  {| current_repo := current_repo st; current_repo_path := current_repo_path st;
     active_operations := active_operations st;
     branch_combo := branch_combo st; threadpool := threadpool st;
     log := log st ++ [message] |}.

(** [self.threadpool.start(worker)] *)
Definition start (worker : GitWorker) (st : State) : State :=
  {| current_repo := current_repo st; current_repo_path := current_repo_path st;
     active_operations := active_operations st;
     branch_combo := branch_combo st; threadpool := threadpool st ++ [worker];
     log := log st |}.

Definition set_branch_combo (items : list ComboItem) (st : State) : State :=
  {| current_repo := current_repo st; current_repo_path := current_repo_path st;
     active_operations := active_operations st;
     branch_combo := items; threadpool := threadpool st; log := log st |}.

(** [bool(self.current_repo_path)] *)
Definition has_repo_path (st : State) : bool :=
  match current_repo_path st with
  | Some p => PyStr.truthy p
  | None => false
  end.

Definition NO_REPO_SELECTED : string := "请先选择一个仓库".

(** [execute_git_task(operation, *args, callback=...)] *)
Definition execute_git_task (operation : string) (args : list value)
           (st : State) : State :=
  if negb (has_repo_path st) then log_message NO_REPO_SELECTED st
  else
    start {| repo_path := current_repo_path st; operation := operation;
             args := args; error_slot := to_handle_git_error |}
          (log_message ("准备执行 " +:+ operation +:+ " 操作...") st).

(** *** Error dialogs *)
Definition CONFLICT_HEAD : string :=
  "Your local changes to the following files would be overwritten by checkout".
Definition CONFLICT_ADVICE : string :=
  "Please commit your changes or stash them before you switch branches".
Definition NO_UPSTREAM : string := "has no upstream branch".

(** The three branches of [handle_git_error]: the "分支切换失败" warning,
    the "推送失败" warning, and the plain "操作失败" critical box. *)
Inductive ErrorKind :=
| CheckoutConflict
| NoUpstreamBranch
| GenericFailure.

(** The condition of the first [if] of [handle_git_error]. *)
Definition indicates_checkout_conflict (error_msg : string) : bool :=
  PyStr.contains CONFLICT_HEAD error_msg && PyStr.contains CONFLICT_ADVICE error_msg.

Definition classify (error_msg : string) : ErrorKind :=
  if indicates_checkout_conflict error_msg then CheckoutConflict
  else if PyStr.contains NO_UPSTREAM error_msg then NoUpstreamBranch
  else GenericFailure.

(** [reset_all_buttons]: [self.active_operations.clear()] *)
Definition reset_all_buttons : State -> State := set_active (fun _ => ∅).

(** [handle_git_error]: the dialog shown and the state afterwards. *)
Definition handle_git_error (error_msg : string) (st : State) : ErrorKind * State :=
  (classify error_msg,
   reset_all_buttons (log_message ("操作失败: " +:+ error_msg) st)).

(** *** Submitting operations *)
Definition refresh_branches : State -> State := execute_git_task "branches" [].
Definition refresh_history : State -> State := execute_git_task "log" [].

Definition refresh_status (st : State) : State :=
  if decide ("refresh_status" ∈ active_operations st) then st
  else execute_git_task "status" [] (add_operation "refresh_status" st).

Definition refresh_current_repo (st : State) : State :=
  if decide ("refresh" ∈ active_operations st) then st
  else if current_repo st && has_repo_path st then
    discard_operation "refresh"
      (refresh_history (refresh_status (refresh_branches
         (add_operation "refresh" st))))
  else st.

Definition stage_all (st : State) : State :=
  if decide ("stage_all" ∈ active_operations st) then st
  else execute_git_task "add" [] (add_operation "stage_all" st).

(** [new_branch_input] is the text of the input field. *)
Definition create_branch (new_branch_input : string) (st : State) : State :=
  if decide ("create_branch" ∈ active_operations st) then st
  else
    let branch_name := PyStr.strip new_branch_input in
    if negb (PyStr.truthy branch_name) then log_message "请输入分支名称" st
    else execute_git_task "create_branch" [VStr branch_name]
           (add_operation "create_branch" st).

(** [merge_text] and [current_text] are the current texts of the two
    combo boxes, [confirmed] the answer to the confirmation box. *)
Definition merge_branch (merge_text current_text : string) (confirmed : bool)
           (st : State) : State :=
  if decide ("merge_branch" ∈ active_operations st) then st
  else if negb (PyStr.truthy merge_text) then log_message "请选择要合并的分支" st
  else if String.eqb merge_text current_text then
    log_message "不能合并当前分支到自身" st
  else if negb confirmed then
    discard_operation "merge_branch" (add_operation "merge_branch" st)
  else execute_git_task "merge" [VStr merge_text] (add_operation "merge_branch" st).

(** [branches] and [active] are read from [self.current_repo], [chosen]
    is the branch picked in the dialog ([None] when dismissed). *)
Definition cherry_pick_commit (short_hash full_hash : string)
           (branches : list string) (active : string)
           (chosen : option string) (confirmed : bool) (st : State) : State :=
  if decide ("cherry_pick" ∈ active_operations st) then st
  else if negb (current_repo st) then log_message NO_REPO_SELECTED st
  else
    let other_branches :=
      List.filter (fun b => negb (String.eqb b active)) branches in
    match other_branches with
    | [] => log_message "没有其他分支可以 cherry-pick" st
    | _ =>
        match chosen with
        | None => st
        | Some branch =>
            if negb (PyStr.truthy branch) then st
            else if negb confirmed then st
            else
              execute_git_task "cherry_pick" [VStr full_hash]
                (log_message ("正在 cherry-pick 提交 " +:+ short_hash +:+
                              " 到分支 " +:+ branch +:+ "...")
                   (add_operation "cherry_pick" st))
        end
    end.

Definition show_commit_detail (full_hash : string) (st : State) : State :=
  if decide ("show_commit" ∈ active_operations st) then st
  else
    start {| repo_path := current_repo_path st; operation := "show_commit";
             args := [VStr full_hash]; error_slot := to_commit_detail_error |}
          (add_operation "show_commit" st).

(** [commit_message] is the plain text of the message box. *)
Definition commit (commit_message : string) (st : State) : State :=
  if decide ("commit" ∈ active_operations st) then st
  else
    let message := PyStr.strip commit_message in
    if negb (PyStr.truthy message) then log_message "请输入提交信息" st
    else execute_git_task "commit" [VStr message] (add_operation "commit" st).

(** The first stage of [commit_and_push]; the later stages run from the
    result callbacks. *)
Definition commit_and_push (st : State) : State :=
  if decide ("commit_and_push" ∈ active_operations st) then st
  else execute_git_task "add" [] (add_operation "commit_and_push" st).

(** [rebase] and [prune] are the two check boxes. *)
Definition pull (rebase prune : bool) (st : State) : State :=
  if decide ("pull" ∈ active_operations st) then st
  else if negb (has_repo_path st) then log_message NO_REPO_SELECTED st
  else execute_git_task "pull" [VBool rebase; VBool prune]
         (add_operation "pull" st).

Definition push (set_upstream : bool) (st : State) : State :=
  if decide ("push" ∈ active_operations st) then st
  else if negb (has_repo_path st) then log_message NO_REPO_SELECTED st
  else
    let operation := if set_upstream then "push_with_upstream" else "push" in
    execute_git_task operation [] (add_operation "push" st).

(** [status] and [file_path] are the texts of the row's two cells. *)
Definition show_file_diff (status file_path : string) (st : State) : State :=
  if negb (bool_decide (status ∈ [Worker.UNSTAGED; Worker.MODIFIED; Worker.UNTRACKED]))
  then log_message ("文件 " +:+ file_path +:+ " 状态为 " +:+ status +:+
                    "，无需显示差异") st
  else start {| repo_path := current_repo_path st; operation := "diff";
                args := [VStr file_path]; error_slot := to_diff_error |} st.

Definition cancel_file_changes (file_path : string) (confirmed : bool)
           (st : State) : State :=
  if confirmed then
    start {| repo_path := current_repo_path st; operation := "checkout_file";
             args := [VStr file_path]; error_slot := to_cancel_error |} st
  else st.

(** The three answers of the delete confirmation box: "Yes" deletes,
    "No" force-deletes, "Cancel" gives up. *)
Inductive DeleteAnswer := AnswerYes | AnswerNo | AnswerCancel.

Definition delete_branch (local_branches : list string) (active : string)
           (chosen : option string) (answer : DeleteAnswer) (st : State) : State :=
  if negb (has_repo_path st) then log_message NO_REPO_SELECTED st
  else if negb (current_repo st) then st
  else
    let branches_to_delete :=
      List.filter (fun b => negb (String.eqb b active)) local_branches in
    match branches_to_delete with
    | [] => log_message "没有可以删除的分支" st
    | _ =>
        match chosen with
        | None => st
        | Some branch_to_delete =>
            if negb (PyStr.truthy branch_to_delete) then st
            else
              match answer with
              | AnswerCancel => st
              | _ =>
                  let force :=
                    match answer with AnswerNo => true | _ => false end in
                  start {| repo_path := current_repo_path st;
                           operation := "delete_branch";
                           args := [VStr branch_to_delete; VBool force];
                           error_slot := to_delete_branch_error |} st
              end
        end
    end.

(** *** Branch switching *)

(** [on_branches_result]: the combo box rebuilt from a "branches" result:
    local names, then, when there are remote names, a separator (an item
    without text or data) and the remote names. *)
Definition local_item (branch : string) : ComboItem :=
  {| item_text := "localctx: " +:+ branch; item_data := Some branch |}.
Definition remote_item (branch : string) : ComboItem :=
  {| item_text := "remote: " +:+ branch; item_data := Some branch |}.
Definition separator : ComboItem := {| item_text := ""; item_data := None |}.

Definition combo_items (local_branches remote_branches : list string)
  : list ComboItem :=
  map local_item local_branches ++
  match remote_branches with
  | [] => []
  | _ => separator :: map remote_item remote_branches
  end.

Definition on_branches_result (info : Worker.BranchInfo) (st : State) : State :=
  set_branch_combo
    (combo_items (Worker.local_branches info) (Worker.remote_branches info)) st.

(** The first loop of [switch_branch]: the text of the first item whose
    data is [branch_name], the empty string when there is none. *)
Definition has_data (branch_name : string) (item : ComboItem) : bool :=
  match item_data item with
  | Some d => String.eqb d branch_name
  | None => false
  end.

Definition combo_text_of (branch_name : string) (items : list ComboItem) : string :=
  match List.find (has_data branch_name) items with
  | Some item => item_text item
  | None => ""
  end.

(** ['/'.join(branch_name.split('/')[1:])] when there is a slash. *)
Definition actual_branch_name (branch_name : string) : string :=
  if PyStr.contains "/" branch_name
  then PyStr.join "/" (tail (PyStr.split PyStr.SLASH branch_name))
  else branch_name.

(** The scan of [self.current_repo.branches] under [try]/[except: pass];
    [current_branches] is what evaluating that attribute gave. *)
Definition local_branch_exists (current_branches : outcome (list string))
           (actual : string) : bool :=
  match current_branches with
  | Ok names => existsb (fun name => String.eqb name actual) names
  | Raise _ => false
  end.

(** The worker [switch_branch] constructs. *)
Definition checkout_worker (st : State) (branch_name : string)
           (current_branches : outcome (list string)) : GitWorker :=
  let combo_text := combo_text_of branch_name (branch_combo st) in
  let worker_args :=
    if PyStr.startswith combo_text "remote: " then
      let actual := actual_branch_name branch_name in
      if negb (local_branch_exists current_branches actual)
      then [VStr "-b"; VStr actual; VStr branch_name]
      else [VStr actual]
    else [VStr branch_name] in
  {| repo_path := current_repo_path st; operation := "checkout";
     args := worker_args; error_slot := to_switch_error |}.

Definition switch_branch (branch_name : string)
           (current_branches : outcome (list string)) (st : State) : State :=
  if negb (PyStr.truthy branch_name) then st
  else start (checkout_worker st branch_name current_branches)
             (add_operation "switch_branch" st).

(** The two slots [switch_branch] connects to its worker.  The second
    also tells whether the conflict box is shown. *)
Definition on_checkout_result (result : string) (st : State) : State :=
  discard_operation "switch_branch" (refresh_current_repo (log_message result st)).

Definition on_checkout_error (error_msg : string) (st : State) : bool * State :=
  (PyStr.contains CONFLICT_HEAD error_msg,
   refresh_current_repo
     (discard_operation "switch_branch"
        (log_message ("切换分支失败: " +:+ error_msg) st))).

(** [on_branch_activated(index)] *)
Definition on_branch_activated (index : Z)
           (current_branches : outcome (list string)) (st : State) : State :=
  if decide ("switch_branch" ∈ active_operations st) then st
  else if (index <? 0)%Z then st
  else
    let item := default separator (branch_combo st !! Z.to_nat index) in
    let displayed :=
      if PyStr.startswith (item_text item) "localctx: "
      then PyStr.drop 9 (item_text item)
      else if PyStr.startswith (item_text item) "remote: "
      then PyStr.drop 8 (item_text item)
      else item_text item in
    let branch_name :=
      match item_data item with
      | Some d => if PyStr.truthy d then d else displayed
      | None => displayed
      end in
    switch_branch branch_name current_branches st.

End Manager.

(** ** Sample inputs used to exercise the properties *)
Module Samples.

(** A transfer reporting counts, with one milestone message. *)
Definition counted (t cur total : Q) : Progress.Callback :=
  {| Progress.cb_time := t; Progress.op_code := 32; Progress.cur_count := cur;
     Progress.max_count := Some total; Progress.message := "" |}.

Definition milestone (t : Q) (text : string) : Progress.Callback :=
  {| Progress.cb_time := t; Progress.op_code := 66; Progress.cur_count := 0;
     Progress.max_count := None; Progress.message := text |}.

Definition transfer : list Progress.Callback :=
  [ counted 1000 10 40;
    counted (10001#10) 20 40;
    milestone (10003#10) "Compressing objects";
    counted (10007#10) 30 40;
    counted 1001 40 40 ].

(** A scripted backend.  Its world is the journal of the calls made so
    far; everything succeeds, except that the content of [broken.bin]
    cannot be read and that a plain push finds no upstream. *)
Definition Journal := list string.

Definition note {A : Type} (entry : string) (o : Py.outcome A)
  : Journal -> Py.outcome A * Journal :=
  fun journal => (o, journal ++ [entry]).

Definition words (vs : list Py.value) : string :=
  PyStr.join " " (map Py.str vs).

Definition root_commit : Git.Commit :=
  {| Git.hexsha := "1f0c3a9b7e55"; Git.summary := "Initial commit";
     Git.author_name := "dev"; Git.committed_date := "2024-01-02 03:04";
     Git.parents := [] |}.

Definition child_commit : Git.Commit :=
  {| Git.hexsha := "9a8b7c6d5e4f"; Git.summary := "Add parser";
     Git.author_name := "dev"; Git.committed_date := "2024-01-03 10:00";
     Git.parents := ["1f0c3a9b7e55"] |}.

Definition changed (path : string) : Git.DiffItem :=
  {| Git.a_path := Some path; Git.b_path := Some path; Git.change_type := "M" |}.

Definition scripted_git (command : string) (args : list Py.value)
  : Journal -> Py.outcome string * Journal :=
  note ("git " +:+ command +:+ " " +:+ words args)
       (if PyStr.contains "broken.bin" (words args)
        then Py.Raise (Py.GitCommandError "fatal: bad object broken.bin")
        else Py.Ok ("<" +:+ command +:+ " " +:+ words args +:+ ">")).

Definition scripted_push (a : Git.PushArgs)
  : Journal -> (list Progress.Callback * Py.outcome unit) * Journal :=
  fun journal =>
    (match Git.refspec a with
     | None =>
         ([], Py.Raise (Py.GitCommandError
            "fatal: The current branch topic has no upstream branch."))
     | Some _ => (transfer, Py.Ok tt)
     end,
     journal ++ ["push"]).

Definition scripted_pull (a : Git.PullArgs)
  : Journal -> (list Progress.Callback * Py.outcome unit) * Journal :=
  fun journal =>
    ((transfer, Py.Ok tt),
     journal ++ ["pull rebase=" +:+ Py.str (Git.kw_rebase a) +:+ " prune=" +:+
                 Py.str (Py.of_option (Py.str <$> Git.kw_prune a))]).

Definition scripted : Git.Backend Journal :=
  {| Git.Repo := fun _ => note "Repo" (Py.Ok tt);
     Git.git := scripted_git;
     Git.iter_commits := fun _ => note "iter_commits" (Py.Ok [child_commit; root_commit]);
     Git.branches := note "branches" (Py.Ok ["main"; "topic"]);
     Git.active_branch_name := note "active_branch" (Py.Ok "topic");
     Git.remote_refs := fun journal =>
       (["origin/HEAD"; "origin/main"; "origin/feature/x"], journal ++ ["refs"]);
     Git.remote := fun name => note ("remote " +:+ name) (Py.Ok tt);
     Git.push := scripted_push;
     Git.pull := scripted_pull;
     Git.commit := fun rev =>
       note ("commit " +:+ Py.str rev)
            (if Py.eq_str rev "1f0c3a9b7e55" then Py.Ok root_commit
             else Py.Ok child_commit);
     Git.commit_diff := fun _ _ =>
       note "commit.diff" (Py.Ok [changed "a.txt"; changed "broken.bin"; changed "c.txt"]);
     Git.create_remote := fun name url =>
       note ("create_remote " +:+ Py.str name) (Py.Ok tt) |}.

(** One run of the worker on the scripted backend, from an empty journal. *)
Definition run_scripted (operation : string) (args : list Py.value)
  : Py.outcome unit * Worker.RunState Journal :=
  Worker.run scripted Progress.format_1f_exact (Some "/work/repo") operation args
    {| Worker.world := []; Worker.emitted := [] |}.

(** A manager with a repository chosen and nothing in flight. *)
Definition repo_selected : Manager.State :=
  {| Manager.current_repo := true;
     Manager.current_repo_path := Some "/work/repo";
     Manager.active_operations := ∅;
     Manager.branch_combo := [];
     Manager.threadpool := [];
     Manager.log := [] |}.

(** The same after a "branches" result listing the given names. *)
Definition with_branches (locals remotes : list string) : Manager.State :=
  Manager.on_branches_result
    {| Worker.local_branches := locals; Worker.remote_branches := remotes;
       Worker.active_branch := "main" |}
    repo_selected.

(** What git prints when a checkout would overwrite local changes. *)
Definition checkout_refused : string :=
  "error: Your local changes to the following files would be overwritten by checkout:"
  +:+ String PyStr.LF "	README.md" +:+ String PyStr.LF
  "Please commit your changes or stash them before you switch branches."
  +:+ String PyStr.LF "Aborting".

End Samples.

(** ** Groups of operation kinds, by how [run] reads [self.args] *)
Module Kinds.

(** The kinds whose branch starts by reading [self.args[0]]; "checkout"
    reads it when the arguments are not the three of a tracking checkout. *)
Definition index_first_argument : list string :=
  ["checkout"; "create_branch"; "merge"; "cherry_pick"; "show_commit";
   "diff"; "checkout_file"; "add_remote"; "delete_branch"].

End Kinds.

(** ** Counting what a handler lets through *)
Module Rate.

(** How many of the callbacks [cs] a handler in state [h] emits. *)
Definition emitted_count (format_1f : Q -> string) (h : Progress.Handler)
           (cs : list Progress.Callback) : nat :=
  length (omap id (Progress.emissions format_1f h cs)).

(** A natural number as a rational. *)
Definition natQ (n : nat) : Q := inject_Z (Z.of_nat n).

End Rate.

(** ** What the thread pool holds *)
Module Pool.

(** Every worker handed to the pool has an operation [GitWorker.run] has a
    branch for. *)
Definition only_supported (st : Manager.State) : Prop :=
  Forall (fun worker => In (Manager.operation worker) Worker.supported)
         (Manager.threadpool st).

(** The operations of the workers started between two states. *)
Definition started_since (before after : Manager.State) (operations : list string) : Prop :=
  map Manager.operation (Manager.threadpool after)
  = map Manager.operation (Manager.threadpool before) ++ operations.

End Pool.

(** ** More Python string methods, as the dialogs and slots use them *)
Module Text.

(** [c in s] for a character. *)
Fixpoint occurs (c : ascii) (s : string) : bool :=
  match s with
  | EmptyString => false
  | String d rest => Ascii.eqb c d || occurs c rest
  end.

(** [s.replace(old, new)] for a non-empty [old]: occurrences are taken from
    left to right and do not overlap.  [skip] counts the characters of the
    occurrence just replaced that are still ahead. *)
Fixpoint replace_from (old new : string) (skip : nat) (s : string) : string :=
  match s with
  | EmptyString => EmptyString
  | String c rest =>
      match skip with
      | S k => replace_from old new k rest
      | O =>
          if String.prefix old s
          then new +:+ replace_from old new (String.length old - 1) rest
          else String c (replace_from old new 0 rest)
      end
  end.

Definition replace (old new s : string) : string := replace_from old new 0 s.

(** [s.split(sep)] for a non-empty [sep] of any length. *)
Fixpoint split_from (sep : string) (skip : nat) (s : string) : list string :=
  match s with
  | EmptyString => [EmptyString]
  | String c rest =>
      match skip with
      | S k => split_from sep k rest
      | O =>
          if String.prefix sep s
          then EmptyString :: split_from sep (String.length sep - 1) rest
          else match split_from sep 0 rest with
               | [] => [String c EmptyString]
               | field :: fields => String c field :: fields
               end
      end
  end.

Definition split (sep s : string) : list string := split_from sep 0 s.

(** [fields[-1]] of a list that [split] produced. *)
Definition last_field (fields : list string) : string := List.last fields EmptyString.

End Text.

(** ** [class DiffDialog] and [class CloneDialog] *)
Module Dialogs.

(** The double quote, written as a character. *)
Definition QUOTE : string := String (ascii_of_nat 34) EmptyString.

(** [<span style="color: ...; background-color: ...;">] *)
Definition span_open (color background : string) : string :=
  "<span style=" +:+ QUOTE +:+ "color: " +:+ color +:+ "; background-color: "
  +:+ background +:+ ";" +:+ QUOTE +:+ ">".

Definition span (color background line : string) : string :=
  span_open color background +:+ line +:+ "</span>".

(** The body of the loop of [format_diff_content]. *)
Definition format_line (line : string) : string :=
  if PyStr.startswith line "+" && negb (PyStr.startswith line "+++")
  then span "green" "#f0fff0" line
  else if PyStr.startswith line "-" && negb (PyStr.startswith line "---")
  then span "red" "#fff0f0" line
  else if PyStr.startswith line "@"
  then span "blue" "#f0f0ff" line
  else line.

(** [DiffDialog.format_diff_content] *)
Definition format_diff_content (content : string) : string :=
  PyStr.join "<br>" (map format_line (PyStr.split PyStr.LF content)).

(** [repo_name = self.repo_url.split('/')[-1].replace('.git', '')] *)
Definition repo_name (repo_url : string) : string :=
  Text.replace ".git" "" (Text.last_field (PyStr.split PyStr.SLASH repo_url)).

(** How [CloneDialog.accept] ends: with a warning box, with the user
    declining to clone into an existing directory, or accepted, with the
    three attributes the caller reads. *)
Inductive Accept :=
| Warned (text : string)
| Declined
| Accepted (repo_url local_path clone_target_path : string).

Section Accept.
(** [os.path.exists] and [os.path.join], as the platform has them. *)
Variable path_exists : string -> bool.
Variable path_join : string -> string -> string.

(** [accept]: [url_input] and [path_input] are the texts of the two
    fields, [overwrite] the answer to the question asked when the target
    exists. *)
Definition accept (url_input path_input : string) (overwrite : bool) : Accept :=
  let repo_url := PyStr.strip url_input in
  let local_path := PyStr.strip path_input in
  if negb (PyStr.truthy repo_url) then Warned "请输入仓库URL"
  else if negb (PyStr.truthy local_path) then Warned "请选择本地路径"
  else if negb (path_exists local_path) then Warned "本地路径不存在"
  else
    let clone_target_path := path_join local_path (repo_name repo_url) in
    if path_exists clone_target_path && negb overwrite then Declined
    else Accepted repo_url local_path clone_target_path.
End Accept.

End Dialogs.

(** ** [class CloneWorker(QRunnable)] and the slots of its signals *)
Module Clone.
Import Py Worker.

Definition CLONED : string := "仓库克隆成功: ".

Section Run.
Context {W : Type}.
(** [Repo.clone_from(url, to_path, progress=...)]: the callbacks it made,
    then whether it returned or raised. *)
Variable clone_from :
  string -> string -> W -> (list Progress.Callback * outcome unit) * W.
Variable format_1f : Q -> string.

(** [CloneWorker.run] *)
Definition run (repo_url clone_target_path : string) : M W unit :=
  try_except any_exception
    (with_progress format_1f (clone_from repo_url clone_target_path);;
     emit (Result (PText (CLONED +:+ clone_target_path))))
    (fun e => emit (Error (str_exn e))).
End Run.

(** [repo_path = result.split(": ")[-1]] in [on_clone_success] *)
Definition cloned_path (result : string) : string :=
  Text.last_field (Text.split ": " result).

End Clone.

(** ** Buttons in their "loading" state *)
Module Buttons.

Record Button := { enabled : bool; text : string }.

Definition LOADING : string := " 中...".

(** [set_button_loading(button, loading)] *)
Definition set_button_loading (loading : bool) (button : Button) : Button :=
  if loading
  then {| enabled := false; text := text button +:+ LOADING |}
  else {| enabled := true; text := Text.replace LOADING "" (text button) |}.

End Buttons.

(** ** The list of repositories and the choice of the current one *)
Module Repos.
Import Py Manager.

Definition set_current (repo : bool) (path : option string) (st : State) : State :=
  {| current_repo := repo; current_repo_path := path;
     active_operations := active_operations st;
     branch_combo := branch_combo st; threadpool := threadpool st; log := log st |}.

(** [clear_repo_info], on what the state holds of the widgets it clears. *)
Definition clear_repo_info : State -> State := set_branch_combo [].

(** [on_repo_selected(current, previous)]: [current] is the path stored in
    the chosen item ([None] without item), [path_exists] what
    [os.path.exists] says of it and [opened] what [Repo(repo_path)] does. *)
Definition on_repo_selected (current : option string) (path_exists : bool)
           (opened : outcome unit) (st : State) : State :=
  match current with
  | Some repo_path =>
      if path_exists then
        match opened with
        | Ok _ =>
            log_message ("已选择仓库: " +:+ repo_path)
              (refresh_current_repo (set_current true (Some repo_path) st))
        | Raise e => log_message ("打开仓库失败: " +:+ str_exn e) st
        end
      else log_message "仓库路径不存在" st
  | None => clear_repo_info (set_current false None st)
  end.

(** The manager together with [self.repo_paths] and with what the slots
    depend on of [self.repo_list]: the path held by its current item,
    [None] when the list has no current item. *)
Record Registry := {
  manager : State;
  repo_paths : list string;
  current_item : option string
}.

Definition on_manager (f : State -> State) (r : Registry) : Registry :=
  {| manager := f (manager r); repo_paths := repo_paths r;
     current_item := current_item r |}.

(** The user makes the item holding [path] the current one:
    [currentItemChanged] is connected to [on_repo_selected]. *)
Definition select_item (path : string) (path_exists : bool) (opened : outcome unit)
           (r : Registry) : Registry :=
  {| manager := on_repo_selected (Some path) path_exists opened (manager r);
     repo_paths := repo_paths r;
     current_item := Some path |}.

(** [update_repo_list].  [self.repo_list.clear()] takes the current item
    away; when there was one, Qt reports this to [on_repo_selected] as
    [currentItemChanged(None, previous)], and that call reads neither the
    file system nor the repository.  The items added afterwards (see
    [listed]) are not made current. *)
Definition update_repo_list (r : Registry) : Registry :=
  match current_item r with
  | Some _ =>
      {| manager := on_repo_selected None false (Ok tt) (manager r);
         repo_paths := repo_paths r;
         current_item := None |}
  | None => r
  end.

(** The items [update_repo_list] puts in the list: the paths that exist
    on disk. *)
Definition listed (path_exists : string -> bool) (r : Registry) : list string :=
  List.filter path_exists (repo_paths r).

(** [save_config], given what writing the file did. *)
Definition save_config (written : outcome unit) (r : Registry) : Registry :=
  match written with
  | Ok _ => r
  | Raise e => on_manager (log_message ("保存配置失败: " +:+ str_exn e)) r
  end.

(** What [Repo(directory).working_dir] gave in [add_repo]. *)
Inductive Opened :=
| WorkingDir (repo_path : string)
| InvalidGitRepository
| OpenFailed (text : string).

Section Platform.
(** [os.path.basename], as the platform has it. *)
Variable basename : string -> string.

(** [add_repo]: [directory] is the directory picked (empty when the dialog
    was dismissed). *)
Definition add_repo (directory : string) (opened : Opened) (written : outcome unit)
           (r : Registry) : Registry :=
  if decide ("add_repo" ∈ active_operations (manager r)) then r
  else
    let r1 := on_manager (add_operation "add_repo") r in
    let r2 :=
      if PyStr.truthy directory then
        match opened with
        | WorkingDir repo_path =>
            if bool_decide (repo_path ∈ repo_paths r1) then
              on_manager (log_message ("仓库已存在: " +:+ basename repo_path)) r1
            else
              on_manager (log_message ("已添加仓库: " +:+ basename repo_path))
                (update_repo_list
                   (save_config written
                      {| manager := manager r1;
                         repo_paths := repo_paths r1 ++ [repo_path];
                         current_item := current_item r1 |}))
        | InvalidGitRepository => r1
        | OpenFailed text =>
            on_manager (log_message ("添加仓库时出错: " +:+ text)) r1
        end
      else r1 in
    on_manager (discard_operation "add_repo") r2.

(** [list.remove(x)]: the first occurrence goes. *)
Fixpoint remove_first (x : string) (l : list string) : list string :=
  match l with
  | [] => []
  | y :: rest => if String.eqb y x then rest else y :: remove_first x rest
  end.

(** The loop of [remove_repo] over the selected paths: the paths left, the
    paths removed so far, and the manager. *)
Fixpoint remove_paths (selected : list string) (paths removed : list string)
         (st : State) : list string * list string * State :=
  match selected with
  | [] => (paths, removed, st)
  | repo_path :: rest =>
      if bool_decide (repo_path ∈ paths) then
        let st1 :=
          if bool_decide (current_repo_path st = Some repo_path)
          then clear_repo_info (set_current false None st)
          else st in
        remove_paths rest (remove_first repo_path paths) (removed ++ [repo_path]) st1
      else remove_paths rest paths removed st
  end.

(** [len(removed_repos)] in the log line. *)
Definition count_text (n : nat) : string := pretty n.

(** [remove_repo]: [selected] are the paths of the selected items. *)
Definition remove_repo (selected : list string) (confirmed : bool)
           (written : outcome unit) (r : Registry) : Registry :=
  if decide ("remove_repo" ∈ active_operations (manager r)) then r
  else
    match selected with
    | [] => on_manager (log_message "请先选择要移除的仓库") r
    | _ =>
        let r1 := on_manager (add_operation "remove_repo") r in
        let r2 :=
          if confirmed then
            let '(paths, removed, st) :=
              remove_paths selected (repo_paths r1) [] (manager r1) in
            on_manager
              (log_message ("已移除 " +:+ count_text (length removed) +:+ " 个仓库: " +:+
                            PyStr.join ", " (map basename removed)))
              (update_repo_list
                 (save_config written
                    {| manager := st; repo_paths := paths;
                       current_item := current_item r1 |}))
          else r1 in
        on_manager (discard_operation "remove_repo") r2
    end.

(** [on_clone_success(result)] *)
Definition on_clone_success (result : string) (written : outcome unit)
           (r : Registry) : Registry :=
  let r1 := on_manager (log_message result) r in
  let repo_path := Clone.cloned_path result in
  let r2 :=
    if bool_decide (repo_path ∈ repo_paths r1) then r1
    else update_repo_list
           (save_config written
              {| manager := manager r1; repo_paths := repo_paths r1 ++ [repo_path];
                 current_item := current_item r1 |}) in
  on_manager (discard_operation "clone_repo") r2.
End Platform.

End Repos.

(** ** Further sample situations *)
Module Cases.
Import Py.

(** The scripted backend when the working directory cannot be opened. *)
Definition unreachable : Git.Backend Samples.Journal :=
  {| Git.Repo := fun _ => Samples.note "Repo" (Raise (OtherException "/work/repo"));
     Git.git := Git.git Samples.scripted;
     Git.iter_commits := Git.iter_commits Samples.scripted;
     Git.branches := Git.branches Samples.scripted;
     Git.active_branch_name := Git.active_branch_name Samples.scripted;
     Git.remote_refs := Git.remote_refs Samples.scripted;
     Git.remote := Git.remote Samples.scripted;
     Git.push := Git.push Samples.scripted;
     Git.pull := Git.pull Samples.scripted;
     Git.commit := Git.commit Samples.scripted;
     Git.commit_diff := Git.commit_diff Samples.scripted;
     Git.create_remote := Git.create_remote Samples.scripted |}.

(** What [git status --porcelain] prints for three paths, with the empty
    line the split leaves after the last newline. *)
Definition status_output : string :=
  " M docs/readme.md" +:+ String PyStr.LF "M  src/a.py" +:+
  String PyStr.LF "?? new.txt" +:+ String PyStr.LF "".

(** The scripted backend with that status. *)
Definition porcelain : Git.Backend Samples.Journal :=
  {| Git.Repo := Git.Repo Samples.scripted;
     Git.git := fun command arguments =>
       if String.eqb command "status"
       then Samples.note ("git " +:+ command +:+ " " +:+ Samples.words arguments)
                         (Ok status_output)
       else Git.git Samples.scripted command arguments;
     Git.iter_commits := Git.iter_commits Samples.scripted;
     Git.branches := Git.branches Samples.scripted;
     Git.active_branch_name := Git.active_branch_name Samples.scripted;
     Git.remote_refs := Git.remote_refs Samples.scripted;
     Git.remote := Git.remote Samples.scripted;
     Git.push := Git.push Samples.scripted;
     Git.pull := Git.pull Samples.scripted;
     Git.commit := Git.commit Samples.scripted;
     Git.commit_diff := Git.commit_diff Samples.scripted;
     Git.create_remote := Git.create_remote Samples.scripted |}.

(** A transfer that reports counts only. *)
Definition counts_only : list Progress.Callback :=
  [ Samples.counted 1000 10 40;
    Samples.counted (10001#10) 20 40;
    Samples.counted (10007#10) 30 40;
    Samples.counted 1001 40 40 ].

(** A clone that succeeds after the sample transfer. *)
Definition scripted_clone (repo_url clone_target_path : string)
  : Samples.Journal -> (list Progress.Callback * outcome unit) * Samples.Journal :=
  fun journal =>
    ((Samples.transfer, Ok tt),
     journal ++ ["clone " +:+ repo_url +:+ " " +:+ clone_target_path]).

(** A file system with one directory, and POSIX paths. *)
Definition path_exists (path : string) : bool := String.eqb path "/home/dev".
Definition path_join (a b : string) : string := a +:+ "/" +:+ b.
Definition basename (path : string) : string :=
  Text.last_field (PyStr.split PyStr.SLASH path).

(** The manager with two repositories listed, the first one chosen in
    the list. *)
Definition registry : Repos.Registry :=
  {| Repos.manager := Samples.repo_selected;
     Repos.repo_paths := ["/work/repo"; "/work/site"];
     Repos.current_item := Some "/work/repo" |}.

(** The same when the list has no current item. *)
Definition registry_unselected : Repos.Registry :=
  {| Repos.manager := Samples.repo_selected;
     Repos.repo_paths := ["/work/repo"; "/work/site"];
     Repos.current_item := None |}.

End Cases.


(* ===================================================================== *)
(** * Part II: properties                                                  *)
(* ===================================================================== *)

(** ** Facts about the string primitives *)
Section PyStrFacts.
Import PyStr.

Lemma prefix_app (p rest : string) : String.prefix p (p +:+ rest) = true.
Proof.
  induction p as [|c p IH]; simpl.
  - destruct rest; reflexivity.
  - destruct (ascii_dec c c); [exact IH | congruence].
Qed.

Lemma prefix_inv (p s : string) :
  String.prefix p s = true -> exists rest, s = p +:+ rest.
Proof.
  revert s. induction p as [|c p IH]; intros s H.
  - exists s. reflexivity.
  - destruct s as [|d s]; simpl in H; [discriminate|].
    destruct (ascii_dec c d) as [->|]; [|discriminate].
    destruct (IH _ H) as [rest ->]. exists rest. reflexivity.
Qed.

Lemma contains_unfold (needle hay : string) :
  contains needle hay
  = String.prefix needle hay ||
    match hay with
    | EmptyString => false
    | String _ rest => contains needle rest
    end.
Proof. destruct hay; reflexivity. Qed.

Lemma contains_app (needle before after : string) :
  contains needle (before +:+ needle +:+ after) = true.
Proof.
  induction before as [|c before IH].
  - change ("" +:+ needle +:+ after) with (needle +:+ after).
    rewrite contains_unfold, prefix_app. reflexivity.
  - change (String c before +:+ needle +:+ after)
      with (String c (before +:+ needle +:+ after)).
    rewrite contains_unfold, IH. apply orb_true_r.
Qed.

Lemma contains_inv (needle hay : string) :
  contains needle hay = true ->
  exists before after, hay = before +:+ needle +:+ after.
Proof.
  induction hay as [|c hay IH]; rewrite contains_unfold; intros H.
  - rewrite orb_false_r in H. destruct (prefix_inv _ _ H) as [rest Hrest].
    exists "", rest. exact Hrest.
  - apply orb_true_iff in H as [H|H].
    + destruct (prefix_inv _ _ H) as [rest Hrest].
      exists "", rest. exact Hrest.
    + destruct (IH H) as (before & after & ->).
      exists (String c before), after. reflexivity.
Qed.

(** [needle in hay] holds exactly when [hay] has [needle] as a substring. *)
Lemma contains_iff (needle hay : string) :
  contains needle hay = true <->
  exists before after, hay = before +:+ needle +:+ after.
Proof.
  split; [apply contains_inv|].
  intros (before & after & ->). apply contains_app.
Qed.

Lemma split_nonempty (sep : ascii) (s : string) : split sep s <> [].
Proof.
  destruct s as [|c s]; simpl; [discriminate|].
  destruct (Ascii.eqb c sep); [discriminate|].
  destruct (split sep s); discriminate.
Qed.

Lemma no_slash_cons (c : ascii) (s : string) :
  contains "/" (String c s) = false -> c <> SLASH /\ contains "/" s = false.
Proof.
  rewrite contains_unfold. intros H.
  apply orb_false_iff in H as [Hc Hs]. split; [|exact Hs].
  intros ->. destruct s; discriminate.
Qed.

(** Splitting at the first slash. *)
Lemma split_first_slash (remote_name branch_path : string) :
  contains "/" remote_name = false ->
  split SLASH (remote_name +:+ "/" +:+ branch_path)
  = remote_name :: split SLASH branch_path.
Proof.
  induction remote_name as [|c r IH]; intros H.
  - reflexivity.
  - apply no_slash_cons in H as [Hc Hr]. simpl.
    destruct (Ascii.eqb_spec c SLASH) as [->|_]; [congruence|].
    rewrite (IH Hr). reflexivity.
Qed.

Lemma join_split (s : string) : join "/" (split SLASH s) = s.
Proof.
  induction s as [|c s IH]; [reflexivity|]. simpl.
  destruct (Ascii.eqb_spec c SLASH) as [->|Hc].
  - pose proof (split_nonempty SLASH s) as Hne.
    destruct (split SLASH s) as [|f fs] eqn:E; [congruence|].
    simpl. simpl in IH. rewrite IH. reflexivity.
  - pose proof (split_nonempty SLASH s) as Hne.
    destruct (split SLASH s) as [|f fs] eqn:E; [congruence|].
    destruct fs as [|g gs]; simpl in *; rewrite <- IH; reflexivity.
Qed.

Lemma truthy_iff (s : string) : truthy s = true <-> s <> "".
Proof. destruct s; simpl; split; congruence. Qed.

Lemma drop_app_length (p s : string) : drop_bytes (String.length p) (p +:+ s) = s.
Proof. induction p as [|c p IH]; simpl; [destruct s; reflexivity | exact IH]. Qed.
End PyStrFacts.

(** ** The progress throttle *)

Example format_1f_exact_quarter :
  Progress.format_1f_exact ((10 / 40) * 100)%Q = "25.0".
Proof. vm_compute. reflexivity. Qed.

Section ThrottleFacts.
Import Progress.
Variable format_1f : Q -> string.

Local Abbreviation update := (Progress.update format_1f).
Local Abbreviation updates := (Progress.updates format_1f).
Local Abbreviation emissions := (Progress.emissions format_1f).
Local Abbreviation handler_after := (Progress.handler_after format_1f).

Lemma due_message (h : Handler) (c : Callback) :
  message c <> "" -> due h c = true.
Proof.
  intros H. unfold due. apply truthy_iff in H. rewrite H. apply orb_true_r.
Qed.

Lemma due_quiet (h : Handler) (c : Callback) :
  message c = "" ->
  due h c = true <-> (1#2 < cb_time c - last_update h)%Q.
Proof.
  intros Hm. unfold due. rewrite Hm. simpl. rewrite orb_false_r.
  rewrite negb_true_iff, <- not_true_iff_false, Qle_bool_iff.
  split; intros H; lra.
Qed.

Lemma emissions_cons (h : Handler) (c : Callback) (cs : list Callback) :
  emissions h (c :: cs) = fst (update h c) :: emissions (snd (update h c)) cs.
Proof.
  unfold Progress.emissions. simpl.
  destruct (update h c) as [e h1]. simpl. destruct (updates h1 cs). reflexivity.
Qed.

Lemma handler_after_cons (h : Handler) (c : Callback) (cs : list Callback) :
  handler_after h (c :: cs) = handler_after (snd (update h c)) cs.
Proof.
  unfold Progress.handler_after. simpl.
  destruct (update h c) as [e h1]. simpl. destruct (updates h1 cs). reflexivity.
Qed.

Lemma handler_after_snoc (h : Handler) (cs : list Callback) (c : Callback) :
  handler_after h (cs ++ [c]) = snd (update (handler_after h cs) c).
Proof.
  revert h. induction cs as [|d cs IH]; intros h.
  - simpl. rewrite handler_after_cons. reflexivity.
  - simpl. rewrite !handler_after_cons. apply IH.
Qed.

(** What the [i]-th callback emits is decided by [update] on the handler
    left by the callbacks before it. *)
Lemma emission_at (h : Handler) (cs : list Callback) (i : nat) (c : Callback) :
  cs !! i = Some c ->
  emissions h cs !! i = Some (fst (update (handler_after h (take i cs)) c)).
Proof.
  revert h i. induction cs as [|d cs IH]; intros h i Hc; [discriminate|].
  rewrite emissions_cons. destruct i as [|i]; simpl in *.
  - injection Hc as ->. reflexivity.
  - rewrite handler_after_cons. apply IH, Hc.
Qed.

Lemma update_emits_iff (h : Handler) (c : Callback) :
  (exists text, fst (update h c) = Some text) <-> due h c = true.
Proof.
  unfold Progress.update. destruct (due h c); simpl; split.
  - reflexivity.
  - eauto.
  - intros [? ?]; discriminate.
  - discriminate.
Qed.

Lemma chronological_le (cs : list Callback) (i j : nat) (ci cj : Callback) :
  chronological cs -> (i <= j)%nat -> cs !! i = Some ci -> cs !! j = Some cj ->
  (cb_time ci <= cb_time cj)%Q.
Proof. intros H. apply H. Qed.

(** After an emission at position [i], and as long as the clock does not
    run backwards, [last_update] stays at or above that emission's time. *)
Lemma last_update_after_emission
      (h : Handler) (cs : list Callback) (i : nat) (ci : Callback) (text : string) :
  chronological cs ->
  cs !! i = Some ci ->
  emissions h cs !! i = Some (Some text) ->
  forall j, (i < j)%nat -> (j <= length cs)%nat ->
    (cb_time ci <= last_update (handler_after h (take j cs)))%Q.
Proof.
  intros Hchr Hi Hem j Hij. induction j as [|j IH]; [lia|]. intros Hj.
  assert (Hlt : (j < length cs)%nat) by lia.
  destruct (lookup_lt_is_Some_2 cs j Hlt) as [cj Hcj].
  rewrite (take_S_r _ _ _ Hcj), handler_after_snoc.
  destruct (decide (i = j)) as [->|Hne].
  - rewrite Hi in Hcj. injection Hcj as <-.
    rewrite (emission_at _ _ _ _ Hi) in Hem. injection Hem as Hem.
    unfold Progress.update in *.
    destruct (due (handler_after h (take j cs)) ci); simpl in *;
      [lra | discriminate].
  - assert (Hprev : (cb_time ci <= last_update (handler_after h (take j cs)))%Q)
      by (apply IH; lia).
    unfold Progress.update.
    destruct (due (handler_after h (take j cs)) cj); simpl; [|exact Hprev].
    apply (chronological_le cs i j); auto with lia.
Qed.
End ThrottleFacts.

(** C6 — the progress throttle.  For callbacks in clock order on one
    handler:
    (a) two emitted message-free events are more than 500 ms apart, so no
        500 ms window holds two of them;
    (b) a callback with a non-empty message is always emitted, with that
        message as its text;
    (c) an emitted message-free event carries the percentage
        [cur_count / max_count * 100] to one decimal place when the total is
        known and positive, and the in-progress marker otherwise;
    (d) of two message-free callbacks 100 ms apart of which the first is
        due, only the first is emitted. *)
Theorem progress_throttle (format_1f : Q -> string) :
  (forall (h : Progress.Handler) (cs : list Progress.Callback) (i j : nat)
          (ci cj : Progress.Callback) (ti tj : string),
      Progress.chronological cs -> (i < j)%nat ->
      cs !! i = Some ci -> cs !! j = Some cj ->
      Progress.message ci = "" -> Progress.message cj = "" ->
      Progress.emissions format_1f h cs !! i = Some (Some ti) ->
      Progress.emissions format_1f h cs !! j = Some (Some tj) ->
      (1#2 < Progress.cb_time cj - Progress.cb_time ci)%Q)
  /\ (forall (h : Progress.Handler) (cs : list Progress.Callback) (i : nat)
             (c : Progress.Callback),
      cs !! i = Some c -> Progress.message c <> "" ->
      Progress.emissions format_1f h cs !! i = Some (Some (Progress.message c)))
  /\ (forall (h : Progress.Handler) (cs : list Progress.Callback) (i : nat)
             (c : Progress.Callback) (text : string),
      cs !! i = Some c -> Progress.message c = "" ->
      Progress.emissions format_1f h cs !! i = Some (Some text) ->
      (forall m, Progress.max_count c = Some m -> (0 < m)%Q ->
         text = "进度: " +:+ format_1f ((Progress.cur_count c / m) * 100)%Q +:+ "%")
      /\ (Progress.max_count c = None -> text = "处理中...")
      /\ (forall m, Progress.max_count c = Some m -> (m <= 0)%Q ->
            text = "处理中..."))
  /\ (forall (h : Progress.Handler) (c1 c2 : Progress.Callback),
      Progress.message c1 = "" -> Progress.message c2 = "" ->
      (Progress.cb_time c2 == Progress.cb_time c1 + (1#10))%Q ->
      (1#2 < Progress.cb_time c1 - Progress.last_update h)%Q ->
      Progress.emissions format_1f h [c1; c2]
      = [Some (Progress.progress_text format_1f c1); None]).
Proof.
  split; [|split; [|split]].
  - (* (a) *)
    intros h cs i j ci cj ti tj Hchr Hij Hi Hj _ Hmj Hei Hej.
    pose proof (lookup_lt_Some _ _ _ Hj) as Hlen.
    pose proof (last_update_after_emission format_1f h cs i ci ti Hchr Hi Hei j Hij
                  ltac:(lia)) as Hlast.
    rewrite (emission_at _ _ _ _ _ Hj) in Hej. injection Hej as Hej.
    assert (Hdue : Progress.due (Progress.handler_after format_1f h (take j cs)) cj = true)
      by (apply (update_emits_iff format_1f); eauto).
    apply (due_quiet _ _ Hmj) in Hdue. lra.
  - (* (b) *)
    intros h cs i c Hc Hm. rewrite (emission_at _ _ _ _ _ Hc).
    unfold Progress.update. rewrite (due_message _ _ Hm). simpl.
    unfold Progress.progress_text. apply truthy_iff in Hm. rewrite Hm. reflexivity.
  - (* (c) *)
    intros h cs i c text Hc Hm Hem.
    rewrite (emission_at _ _ _ _ _ Hc) in Hem. unfold Progress.update in Hem.
    destruct (Progress.due _ c); [|discriminate]. injection Hem as <-.
    unfold Progress.progress_text, Progress.positive_total. rewrite Hm. simpl.
    split; [|split].
    + intros m Hmax Hpos. rewrite Hmax.
      assert (E1 : Qeq_bool m 0 = false).
      { apply not_true_iff_false. rewrite Qeq_bool_iff. lra. }
      assert (E2 : Qle_bool m 0 = false).
      { apply not_true_iff_false. rewrite Qle_bool_iff. lra. }
      rewrite E1, E2. reflexivity.
    + intros Hmax. rewrite Hmax. reflexivity.
    + intros m Hmax Hneg. rewrite Hmax.
      assert (E2 : Qle_bool m 0 = true) by (rewrite Qle_bool_iff; exact Hneg).
      rewrite E2, andb_false_r. reflexivity.
  - (* (d) *)
    intros h c1 c2 Hm1 Hm2 Ht Hdue.
    apply (due_quiet h c1 Hm1) in Hdue.
    assert (Hnot : Progress.due {| Progress.last_update := Progress.cb_time c1 |} c2 = false).
    { apply not_true_iff_false. rewrite (due_quiet _ _ Hm2). simpl. lra. }
    rewrite !emissions_cons. unfold Progress.update. rewrite Hdue. simpl.
    rewrite Hnot. reflexivity.
Qed.

(** C10 — every emission restarts the window.  For callbacks in clock order
    on one handler, a message-free callback that arrives less than 500 ms
    after an emitted event, with or without message, emits nothing. *)
Theorem emission_resets_window
        (format_1f : Q -> string) (h : Progress.Handler)
        (cs : list Progress.Callback) (i j : nat) (ci cj : Progress.Callback)
        (text : string) :
  Progress.chronological cs -> (i < j)%nat ->
  cs !! i = Some ci -> cs !! j = Some cj ->
  Progress.emissions format_1f h cs !! i = Some (Some text) ->
  Progress.message cj = "" ->
  (Progress.cb_time cj - Progress.cb_time ci < 1#2)%Q ->
  Progress.emissions format_1f h cs !! j = Some None.
Proof.
  intros Hchr Hij Hi Hj Hei Hmj Hnear.
  pose proof (lookup_lt_Some _ _ _ Hj) as Hlen.
  pose proof (last_update_after_emission format_1f h cs i ci text Hchr Hi Hei j Hij
                ltac:(lia)) as Hlast.
  rewrite (emission_at _ _ _ _ _ Hj). unfold Progress.update.
  assert (Hnot : Progress.due (Progress.handler_after format_1f h (take j cs)) cj = false).
  { apply not_true_iff_false. rewrite (due_quiet _ _ Hmj). lra. }
  rewrite Hnot. reflexivity.
Qed.

Lemma chronological_sorted (cs : list Progress.Callback) :
  StronglySorted (fun a b => (Progress.cb_time a <= Progress.cb_time b)%Q) cs ->
  Progress.chronological cs.
Proof.
  induction 1 as [|c cs Hs IH Hall]; intros i j ci cj Hij Hi Hj.
  - discriminate.
  - destruct i as [|i], j as [|j]; simpl in *.
    + injection Hi as <-. injection Hj as <-. apply Qle_refl.
    + injection Hi as <-. rewrite Forall_forall in Hall.
      apply Hall. eapply list_elem_of_lookup_2, Hj.
    + lia.
    + apply (IH i j); auto with lia.
Qed.

Lemma transfer_chronological : Progress.chronological Samples.transfer.
Proof.
  apply chronological_sorted.
  repeat (constructor; [|repeat constructor; unfold Qle; simpl; lia]).
  constructor.
Qed.

Example transfer_emissions :
  Progress.emissions Progress.format_1f_exact Progress.init Samples.transfer
  = [Some "进度: 25.0%"; None; Some "Compressing objects"; None; Some "进度: 100.0%"].
Proof. vm_compute. reflexivity. Qed.

Lemma progress_throttle_witness :
  (1#2 < 1001 - 1000)%Q
  /\ Progress.emissions Progress.format_1f_exact Progress.init Samples.transfer !! 2%nat
     = Some (Some "Compressing objects")
  /\ "进度: 25.0%" = "进度: " +:+ Progress.format_1f_exact ((10 / 40) * 100)%Q +:+ "%"
  /\ Progress.emissions Progress.format_1f_exact Progress.init
       [Samples.counted 1000 10 40; Samples.counted (10001#10) 20 40]
     = [Some "进度: 25.0%"; None].
Proof.
  destruct (progress_throttle Progress.format_1f_exact) as (Ha & Hb & Hc & Hd).
  split; [|split; [|split]].
  - apply (Ha Progress.init Samples.transfer 0%nat 4%nat
              (Samples.counted 1000 10 40) (Samples.counted 1001 40 40)
              "进度: 25.0%" "进度: 100.0%" transfer_chronological);
      [lia | reflexivity ..].
  - apply (Hb Progress.init Samples.transfer 2%nat
              (Samples.milestone (10003#10) "Compressing objects"));
      [reflexivity | discriminate].
  - apply (Hc Progress.init Samples.transfer 0%nat (Samples.counted 1000 10 40)
              "进度: 25.0%");
      [reflexivity | reflexivity | reflexivity | reflexivity | reflexivity].
  - apply (Hd Progress.init (Samples.counted 1000 10 40)
              (Samples.counted (10001#10) 20 40));
      [reflexivity | reflexivity | reflexivity | reflexivity].
Defined.

Lemma emission_resets_window_witness :
  Progress.emissions Progress.format_1f_exact Progress.init Samples.transfer !! 3%nat
  = Some None.
Proof.
  apply (emission_resets_window Progress.format_1f_exact Progress.init
           Samples.transfer 2%nat 3%nat
           (Samples.milestone (10003#10) "Compressing objects")
           (Samples.counted (10007#10) 30 40) "Compressing objects"
           transfer_chronological);
    [lia | reflexivity ..].
Defined.

(** ** One execution of the worker *)
Section WorkerFacts.
Import Py Git Worker.
Context {W : Type}.
Variable B : Backend W.
Variable format_1f : Q -> string.

Lemma terminals_app (l1 l2 : list Signal) :
  terminals (l1 ++ l2) = terminals l1 ++ terminals l2.
Proof. apply List.filter_app. Qed.

Lemma terminals_progress (texts : list string) :
  terminals (map ProgressSignal texts) = [].
Proof. induction texts as [|t ts IH]; [reflexivity | exact IH]. Qed.

Lemma quiet_ret {A} (a : A) : quiet (ret a : M W A).
Proof. intros st. reflexivity. Qed.

Lemma quiet_lift {A} (o : outcome A) : quiet (lift o : M W A).
Proof. intros st. reflexivity. Qed.

Lemma quiet_call {A} (f : W -> outcome A * W) : quiet (call f).
Proof. intros st. unfold call. destruct (f (world st)). reflexivity. Qed.

Lemma quiet_with_progress (f : W -> (list Progress.Callback * outcome unit) * W) :
  quiet (with_progress format_1f f).
Proof.
  intros st. unfold with_progress. destruct (f (world st)) as [[cbs o] w]. simpl.
  rewrite terminals_app, terminals_progress. apply app_nil_r.
Qed.

Lemma quiet_bind {A C} (m : M W A) (k : A -> M W C) :
  quiet m -> (forall a, quiet (k a)) -> quiet (bind m k).
Proof.
  intros Hm Hk st. unfold bind. specialize (Hm st).
  destruct (m st) as [[a|e] st1]; simpl in *.
  - rewrite (Hk a st1). exact Hm.
  - exact Hm.
Qed.

Lemma quiet_try {A} (catches : exn -> bool) (body : M W A) (handler : exn -> M W A) :
  quiet body -> (forall e, quiet (handler e)) -> quiet (try_except catches body handler).
Proof.
  intros Hb Hh st. unfold try_except. specialize (Hb st).
  destruct (body st) as [[a|e] st1]; simpl in *; [exact Hb|].
  destruct (catches e); simpl; [|exact Hb].
  rewrite (Hh e st1). exact Hb.
Qed.

Lemma delivers_emit (s : Signal) :
  is_terminal s = true -> delivers (emit s : M W unit).
Proof.
  intros Hs st. simpl. exists s. split; [exact Hs|].
  rewrite terminals_app. simpl. unfold terminals at 2. simpl. rewrite Hs. reflexivity.
Qed.

Lemma delivers_bind {A C} (m : M W A) (k : A -> M W C) :
  quiet m -> (forall a, delivers (k a)) -> delivers (bind m k).
Proof.
  intros Hm Hk st. unfold bind. specialize (Hm st).
  destruct (m st) as [[a|e] st1]; simpl in *.
  - specialize (Hk a st1). destruct (k a st1) as [[c|e] st2].
    + destruct Hk as (s & Hs & Heq). exists s. split; [exact Hs|]. congruence.
    + congruence.
  - exact Hm.
Qed.

Lemma delivers_try {A} (catches : exn -> bool) (body : M W A) (handler : exn -> M W A) :
  delivers body -> (forall e, delivers (handler e)) ->
  delivers (try_except catches body handler).
Proof.
  intros Hb Hh st. unfold try_except. specialize (Hb st).
  destruct (body st) as [[a|e] st1]; [exact Hb|].
  destruct (catches e); [|exact Hb].
  specialize (Hh e st1). destruct (handler e st1) as [[a|e'] st2].
  - destruct Hh as (s & Hs & Heq). exists s. split; [exact Hs|]. congruence.
  - congruence.
Qed.

Lemma quiet_file_entry (c : Commit) (d : DiffItem) : quiet (file_entry B c d).
Proof.
  unfold file_entry. apply quiet_try.
  - apply quiet_bind; [apply quiet_call | intros; apply quiet_ret].
  - intros e. apply quiet_ret.
Qed.

Lemma quiet_files_changed (c : Commit) (diff : list DiffItem) :
  quiet (files_changed B c diff).
Proof.
  induction diff as [|d rest IH]; simpl.
  - apply quiet_ret.
  - apply quiet_bind; [apply quiet_file_entry|]. intros entry.
    apply quiet_bind; [exact IH|]. intros entries. apply quiet_ret.
Qed.

Lemma quiet_set_transport_limits : quiet (set_transport_limits B).
Proof.
  unfold set_transport_limits.
  apply quiet_bind; [apply quiet_call|]. intros _.
  apply quiet_bind; [apply quiet_call|]. intros _. apply quiet_ret.
Qed.
End WorkerFacts.

Section WorkerDelivery.
Import Py Git Worker.
Context {W : Type}.
Variable B : Backend W.
Variable format_1f : Q -> string.

Local Ltac quiet_step :=
  first [ apply quiet_call | apply quiet_lift | apply quiet_ret
        | apply quiet_with_progress | apply quiet_set_transport_limits
        | apply quiet_files_changed ].

Local Ltac deliver :=
  repeat first
    [ apply delivers_emit; reflexivity
    | apply delivers_bind; [quiet_step | intros ?]
    | apply delivers_try; [| intros ?] ].

(** Every branch of the dispatch emits its one terminal signal exactly when
    it runs to its end. *)
Lemma delivers_operation_body (operation : string) (args : list value) :
  In operation supported -> delivers (operation_body B format_1f operation args).
Proof.
  intros Hin. unfold supported in Hin. simpl in Hin.
  repeat (destruct Hin as [<- | Hin]); [..|contradiction];
    unfold operation_body; simpl String.eqb; cbv iota.
  - deliver.
  - deliver.
  - deliver.
  - deliver.
  - deliver.
  - deliver. destruct (PyStr.contains _ _); deliver.
  - deliver.
  - deliver.
  - destruct (_ && _); deliver.
  - deliver.
  - deliver.
  - deliver.
  - deliver.
  - deliver.
  - deliver.
  - deliver.
  - deliver. destruct (truthy _); deliver.
Qed.
End WorkerDelivery.

Example scripted_commit_default :
  Samples.run_scripted "commit" []
  = (Py.Ok tt,
     {| Worker.world := ["Repo"; "git commit -m Update"];
        Worker.emitted := [Worker.Result (Worker.PText "提交成功: Update")] |}).
Proof. vm_compute. reflexivity. Qed.

Example scripted_push_without_upstream :
  Worker.emitted (snd (Samples.run_scripted "push" []))
  = [Worker.Error (Worker.no_upstream_message "topic")].
Proof. vm_compute. reflexivity. Qed.

Example scripted_pull_defaults :
  Worker.world (snd (Samples.run_scripted "pull" []))
  = ["Repo"; "git config http.lowSpeedLimit 1000"; "git config http.lowSpeedTime 30";
     "remote origin"; "pull rebase=True prune=True"].
Proof. vm_compute. reflexivity. Qed.

Example scripted_pull_signals :
  Worker.emitted (snd (Samples.run_scripted "pull" [Py.VBool false; Py.VBool false]))
  = [Worker.ProgressSignal "进度: 25.0%";
     Worker.ProgressSignal "Compressing objects";
     Worker.ProgressSignal "进度: 100.0%";
     Worker.Result (Worker.PText "拉取成功")].
Proof. vm_compute. reflexivity. Qed.

Example scripted_status_rows :
  Worker.parse_status ("?? new.txt" +:+ String PyStr.LF "M  src/a.py" +:+ String PyStr.LF "")
  = [(Worker.UNTRACKED, "new.txt", "➕"); (Worker.MODIFIED, "src/a.py", "📝")].
Proof. vm_compute. reflexivity. Qed.

Section WorkerClaims.
Import Py Git Worker.
Context {W : Type}.
Variable B : Backend W.
Variable format_1f : Q -> string.

(** No exception escapes [run]. *)
Lemma run_returns (repo_path : option string) (operation : string)
      (args : list value) (st : RunState W) :
  fst (run B format_1f repo_path operation args st) = Ok tt.
Proof.
  unfold run, try_except.
  destruct ((call (Repo B repo_path);; operation_body B format_1f operation args) st)
    as [[[]|e] st1]; reflexivity.
Qed.

Lemma delivers_run (repo_path : option string) (operation : string)
      (args : list value) :
  In operation supported -> delivers (run B format_1f repo_path operation args).
Proof.
  intros Hin. unfold run. apply delivers_try.
  - apply delivers_bind; [apply quiet_call|]. intros _.
    apply delivers_operation_body, Hin.
  - intros e. apply delivers_emit. reflexivity.
Qed.

Lemma bind_ok {A C} (m : M W A) (k : A -> M W C) (st st1 : RunState W) (a : A) :
  m st = (Ok a, st1) -> (m ≫= k) st = k a st1.
Proof. intros H. unfold mbind, M_bind, bind. rewrite H. reflexivity. Qed.

Lemma bind_raise {A C} (m : M W A) (k : A -> M W C) (st st1 : RunState W) (e : exn) :
  m st = (Raise e, st1) -> (m ≫= k) st = (Raise e, st1).
Proof. intros H. unfold mbind, M_bind, bind. rewrite H. reflexivity. Qed.

Lemma call_run {A} (f : W -> outcome A * W) (st : RunState W) (o : outcome A) (w1 : W) :
  f (world st) = (o, w1) -> call f st = (o, {| world := w1; emitted := emitted st |}).
Proof. intros H. unfold call. rewrite H. reflexivity. Qed.

(** One iteration never raises and emits nothing: what the backend said
    of the path, or the placeholder, ends up in the entry. *)
Lemma file_entry_run (c : Commit) (d : DiffItem) (st : RunState W)
      (o : outcome string) (w1 : W) :
  path_content B c d (world st) = (o, w1) ->
  file_entry B c d st
  = (Ok {| fi_path := item_path d; fi_change_type := change_type d;
           fi_diff := match o with
                      | Ok text => text
                      | Raise e => DIFF_UNAVAILABLE +:+ str_exn e
                      end |},
     {| world := w1; emitted := emitted st |}).
Proof.
  intros Hcall. unfold file_entry, try_except.
  destruct o as [text|e].
  - rewrite (bind_ok _ _ _ _ _ (call_run _ _ _ _ Hcall)). reflexivity.
  - rewrite (bind_raise _ _ _ _ _ (call_run _ _ _ _ Hcall)). reflexivity.
Qed.

(** The loop of "show_commit" never raises and gives one entry per item;
    [worlds] are the worlds the backend is asked in, one after the other,
    followed by the world the loop ends in. *)
Lemma files_changed_chain (c : Commit) (diff : list DiffItem) (st : RunState W) :
  exists files (worlds : list W) w4,
    files_changed B c diff st = (Ok files, {| world := w4; emitted := emitted st |})
    /\ length files = length diff
    /\ worlds !! 0%nat = Some (world st)
    /\ worlds !! length diff = Some w4
    /\ forall i d,
         diff !! i = Some d ->
         exists wa wb o,
           worlds !! i = Some wa /\ worlds !! S i = Some wb
           /\ path_content B c d wa = (o, wb)
           /\ files !! i
              = Some {| fi_path := item_path d; fi_change_type := change_type d;
                        fi_diff := match o with
                                   | Ok text => text
                                   | Raise e => DIFF_UNAVAILABLE +:+ str_exn e
                                   end |}.
Proof.
  revert st. induction diff as [|d rest IH]; intros st.
  - exists [], [world st], (world st).
    split; [destruct st; reflexivity|]. repeat split. intros i d Hd. discriminate Hd.
  - destruct (path_content B c d (world st)) as [o w1] eqn:Hcall.
    pose proof (file_entry_run c d st o w1 Hcall) as Hentry.
    destruct (IH {| world := w1; emitted := emitted st |})
      as (files & worlds & w4 & Hrun & Hlen & Hfirst & Hlast & Hall).
    eexists (_ :: files), (world st :: worlds), w4.
    split; [|split; [|split; [|split]]].
    + cbn [files_changed].
      rewrite (bind_ok _ _ _ _ _ Hentry), (bind_ok _ _ _ _ _ Hrun). reflexivity.
    + simpl. rewrite Hlen. reflexivity.
    + reflexivity.
    + exact Hlast.
    + intros [|i] item Hitem.
      * injection Hitem as <-. exists (world st), w1, o.
        split; [reflexivity|]. split; [exact Hfirst|]. split; [exact Hcall|reflexivity].
      * destruct (Hall i item Hitem) as (wa & wb & o' & Ha & Hb & Hask & Hfile).
        exists wa, wb, o'. repeat split; assumption.
Qed.
(** C1 — exactly one terminal notification.  For every operation kind the
    worker supports, every argument list, every backend and every world, one
    execution of [run] returns normally and the terminal signals it emitted
    are exactly one: a result or an error, never both, never none and never
    two. *)
Theorem exactly_one_terminal (repo_path : option string) (operation : string)
        (args : list value) (w : W) :
  In operation supported ->
  fst (run B format_1f repo_path operation args {| world := w; emitted := [] |}) = Ok tt
  /\ exists s,
       is_terminal s = true
       /\ terminals (signals_of B format_1f repo_path operation args w) = [s].
Proof.
  intros Hin. split; [apply run_returns|].
  pose proof (delivers_run repo_path operation args Hin {| world := w; emitted := [] |}) as H.
  pose proof (run_returns repo_path operation args {| world := w; emitted := [] |}) as Hret.
  unfold signals_of.
  destruct (run B format_1f repo_path operation args {| world := w; emitted := [] |})
    as [[[]|e] st1]; simpl in *; [exact H | discriminate].
Qed.

(** C7 — "show_commit".  When the repository opens, the commit resolves and
    its changed paths are listed, the run emits exactly one result, with one
    entry per listed item, in order.  The entry of an item names the item's
    [b_path], or its [a_path] when [b_path] is missing or empty, and its
    change type.  For that path the backend is asked, item after item,
    for [git diff parent0 commit -- path] when the commit has a parent and
    for [git show commit:path] when it has none; the entry carries the
    answer, and when the request raises it carries the placeholder
    followed by the exception's text, the request for the next item
    starting from the world the failed one left. *)
Theorem show_commit_entries (repo_path : option string) (commit_hash : value)
        (w w1 w2 w3 : W) (c : Commit) (diff : list DiffItem) :
  Repo B repo_path w = (Ok tt, w1) ->
  commit B commit_hash w1 = (Ok c, w2) ->
  commit_diff B c (head (parents c)) w2 = (Ok diff, w3) ->
  exists files (worlds : list W) w4,
    run B format_1f repo_path "show_commit" [commit_hash]
        {| world := w; emitted := [] |}
    = (Ok tt, {| world := w4;
                 emitted := [Result (PCommitDetail (commit_info c) files)] |})
    /\ length files = length diff
    /\ worlds !! 0%nat = Some w3
    /\ worlds !! length diff = Some w4
    /\ forall i d,
         diff !! i = Some d ->
         let path :=
           match b_path d with
           | Some (String _ _ as p) => VStr p
           | _ => match a_path d with Some p => VStr p | None => VNone end
           end in
         let request :=
           match parents c with
           | parent0 :: _ =>
               git B "diff" [VStr parent0; VStr (hexsha c); VStr "--"; path]
           | [] => git B "show" [VStr (hexsha c +:+ ":" +:+ str path)]
           end in
         exists f wa wb o,
           files !! i = Some f
           /\ worlds !! i = Some wa /\ worlds !! S i = Some wb
           /\ request wa = (o, wb)
           /\ fi_path f = path
           /\ fi_change_type f = change_type d
           /\ fi_diff f = match o with
                          | Ok text => text
                          | Raise e => "无法获取差异信息: " +:+ str_exn e
                          end.
Proof.
  intros Hrepo Hcommit Hdiff.
  destruct (files_changed_chain c diff {| world := w3; emitted := [] |})
    as (files & worlds & w4 & Hloop & Hlen & Hfirst & Hlast & Hall).
  exists files, worlds, w4.
  split; [|split; [exact Hlen|split; [exact Hfirst|split; [exact Hlast|]]]].
  - unfold run, try_except, operation_body. simpl String.eqb. cbv iota.
    rewrite (bind_ok _ _ _ {| world := w1; emitted := [] |} tt);
      [|apply (call_run (Repo B repo_path) {| world := w; emitted := [] |}), Hrepo].
    rewrite (bind_ok (lift (index [commit_hash] 0)) _ _ {| world := w1; emitted := [] |}
               commit_hash); [|reflexivity].
    rewrite (bind_ok _ _ _ {| world := w2; emitted := [] |} c);
      [|apply (call_run (commit B commit_hash) {| world := w1; emitted := [] |}), Hcommit].
    rewrite (bind_ok _ _ _ {| world := w3; emitted := [] |} diff);
      [|apply (call_run (commit_diff B c (head (parents c)))
                        {| world := w2; emitted := [] |}), Hdiff].
    rewrite (bind_ok _ _ _ _ _ Hloop). reflexivity.
  - intros i d Hd path request.
    destruct (Hall i d Hd) as (wa & wb & o & Ha & Hb & Hask & Hfile).
    assert (Hpath : item_path d = path).
    { subst path. unfold item_path, or_, of_option.
      destruct (b_path d) as [[|a p]|]; destruct (a_path d); reflexivity. }
    assert (Hrequest : path_content B c d = request).
    { subst request. unfold path_content. rewrite Hpath.
      destruct (parents c); reflexivity. }
    rewrite Hrequest in Hask. rewrite Hpath in Hfile.
    eexists _, wa, wb, o. split; [exact Hfile|].
    repeat split; assumption.
Qed.

(** C9 — "commit" without arguments.  With an empty argument list the run
    behaves exactly as with the single argument ["Update"]: it does not fail
    on the missing message, it asks the backend for
    [commit -m Update], and on success it reports that message. *)
Theorem commit_default_message (repo_path : option string) :
  commit_message [] = VStr "Update"
  /\ (forall st,
        run B format_1f repo_path "commit" [] st
        = run B format_1f repo_path "commit" [VStr "Update"] st)
  /\ (forall (w w1 w2 : W) (out : string),
        Repo B repo_path w = (Ok tt, w1) ->
        git B "commit" [VStr "-m"; VStr "Update"] w1 = (Ok out, w2) ->
        run B format_1f repo_path "commit" [] {| world := w; emitted := [] |}
        = (Ok tt, {| world := w2;
                     emitted := [Result (PText "提交成功: Update")] |})).
Proof.
  split; [reflexivity|]. split; [reflexivity|].
  intros w w1 w2 out Hrepo Hcommit.
  unfold run, try_except, operation_body. simpl String.eqb. cbv iota.
  rewrite (bind_ok _ _ _ {| world := w1; emitted := [] |} tt);
    [|apply (call_run (Repo B repo_path) {| world := w; emitted := [] |}), Hrepo].
  cbv zeta. unfold commit_message.
  rewrite (bind_ok _ _ _ {| world := w2; emitted := [] |} out);
    [|apply (call_run (git B "commit" [VStr "-m"; VStr "Update"])
                      {| world := w1; emitted := [] |}), Hcommit].
  reflexivity.
Qed.
Lemma with_progress_run (f : W -> (list Progress.Callback * outcome unit) * W)
      (st : RunState W) (callbacks : list Progress.Callback) (o : outcome unit) (w1 : W) :
  f (world st) = ((callbacks, o), w1) ->
  with_progress format_1f f st
  = (o, {| world := w1;
           emitted := emitted st ++
             map ProgressSignal
                 (omap id (Progress.emissions format_1f Progress.init callbacks)) |}).
Proof. intros H. unfold with_progress. rewrite H. reflexivity. Qed.

(** C8 — pull options.  The rebase option is the first argument and the
    prune option the second; each is [True] when its argument is missing,
    whatever the other is.  What reaches [origin.pull] is the rebase option
    as given, with [prune] passed along exactly when it is true; a run whose
    backend calls succeed hands exactly these options to [origin.pull]. *)
Theorem pull_options_independent (repo_path : option string) :
  pull_rebase [] = VBool true
  /\ pull_prune [] = VBool true
  /\ (forall rebase, pull_rebase [rebase] = rebase /\ pull_prune [rebase] = VBool true)
  /\ (forall rebase prune rest,
        pull_rebase (rebase :: prune :: rest) = rebase
        /\ pull_prune (rebase :: prune :: rest) = prune)
  /\ (forall rebase prune : bool,
        pull_kwargs [VBool rebase; VBool prune]
        = {| kw_rebase := VBool rebase;
             kw_prune := if prune then Some (VBool true) else None |})
  /\ pull_kwargs [] = {| kw_rebase := VBool true; kw_prune := Some (VBool true) |}
  /\ (forall (args : list value) (w w1 w2 w3 w4 w5 : W) (out1 out2 : string)
             (callbacks : list Progress.Callback),
        Repo B repo_path w = (Ok tt, w1) ->
        git B "config" [VStr "http.lowSpeedLimit"; VStr "1000"] w1 = (Ok out1, w2) ->
        git B "config" [VStr "http.lowSpeedTime"; VStr "30"] w2 = (Ok out2, w3) ->
        remote B "origin" w3 = (Ok tt, w4) ->
        pull B {| kw_rebase := pull_rebase args;
                  kw_prune := if truthy (pull_prune args)
                              then Some (pull_prune args) else None |} w4
        = ((callbacks, Ok tt), w5) ->
        run B format_1f repo_path "pull" args {| world := w; emitted := [] |}
        = (Ok tt,
           {| world := w5;
              emitted :=
                map ProgressSignal
                    (omap id (Progress.emissions format_1f Progress.init callbacks))
                ++ [Result (PText "拉取成功")] |})).
Proof.
  repeat match goal with |- _ /\ _ => split end; try reflexivity.
  - intros rebase. split; reflexivity.
  - intros rebase prune rest. split; reflexivity.
  - intros rebase [|]; reflexivity.
  - intros args w w1 w2 w3 w4 w5 out1 out2 callbacks Hrepo Hc1 Hc2 Hremote Hpull.
    unfold run, try_except, operation_body. simpl String.eqb. cbv iota.
    rewrite (bind_ok _ _ _ {| world := w1; emitted := [] |} tt);
      [|apply (call_run (Repo B repo_path) {| world := w; emitted := [] |}), Hrepo].
    unfold set_transport_limits.
    rewrite (bind_ok _ _ _ {| world := w3; emitted := [] |} tt).
    + rewrite (bind_ok _ _ _ {| world := w4; emitted := [] |} tt);
        [|apply (call_run (remote B "origin") {| world := w3; emitted := [] |}), Hremote].
      rewrite (bind_ok _ _ _ _ tt
                 (with_progress_run _ {| world := w4; emitted := [] |} _ _ _ Hpull)).
      reflexivity.
    + rewrite (bind_ok _ _ _ {| world := w2; emitted := [] |} out1);
        [|apply (call_run (git B "config" _) {| world := w1; emitted := [] |}), Hc1].
      rewrite (bind_ok _ _ _ {| world := w3; emitted := [] |} out2);
        [|apply (call_run (git B "config" _) {| world := w2; emitted := [] |}), Hc2].
      reflexivity.
Qed.
End WorkerClaims.

Lemma exactly_one_terminal_witness :
  Worker.terminals (Worker.signals_of Samples.scripted Progress.format_1f_exact
               (Some "/work/repo") "push" [] [])
  = [Worker.Error (Worker.no_upstream_message "topic")].
Proof.
  destruct (exactly_one_terminal Samples.scripted Progress.format_1f_exact
              (Some "/work/repo") "push" [] []) as (_ & s & _ & Hs).
  - simpl. tauto.
  - rewrite Hs. vm_compute in Hs. injection Hs as <-. reflexivity.
Defined.

Example scripted_show_child :
  Worker.emitted (snd (Samples.run_scripted "show_commit" [Py.VStr "9a8b7c6d5e4f"]))
  = [Worker.Result (Worker.PCommitDetail
       {| Worker.ci_hash := "9a8b7c6"; Worker.ci_message := "Add parser";
          Worker.ci_author := "dev"; Worker.ci_date := "2024-01-03 10:00";
          Worker.ci_full_hash := "9a8b7c6d5e4f" |}
       [ {| Worker.fi_path := Py.VStr "a.txt"; Worker.fi_change_type := "M";
            Worker.fi_diff := "<diff 1f0c3a9b7e55 9a8b7c6d5e4f -- a.txt>" |};
         {| Worker.fi_path := Py.VStr "broken.bin"; Worker.fi_change_type := "M";
            Worker.fi_diff := "无法获取差异信息: fatal: bad object broken.bin" |};
         {| Worker.fi_path := Py.VStr "c.txt"; Worker.fi_change_type := "M";
            Worker.fi_diff := "<diff 1f0c3a9b7e55 9a8b7c6d5e4f -- c.txt>" |} ])].
Proof. vm_compute. reflexivity. Qed.

Example scripted_show_root :
  Worker.emitted (snd (Samples.run_scripted "show_commit" [Py.VStr "1f0c3a9b7e55"]))
  = [Worker.Result (Worker.PCommitDetail
       {| Worker.ci_hash := "1f0c3a9"; Worker.ci_message := "Initial commit";
          Worker.ci_author := "dev"; Worker.ci_date := "2024-01-02 03:04";
          Worker.ci_full_hash := "1f0c3a9b7e55" |}
       [ {| Worker.fi_path := Py.VStr "a.txt"; Worker.fi_change_type := "M";
            Worker.fi_diff := "<show 1f0c3a9b7e55:a.txt>" |};
         {| Worker.fi_path := Py.VStr "broken.bin"; Worker.fi_change_type := "M";
            Worker.fi_diff := "无法获取差异信息: fatal: bad object broken.bin" |};
         {| Worker.fi_path := Py.VStr "c.txt"; Worker.fi_change_type := "M";
            Worker.fi_diff := "<show 1f0c3a9b7e55:c.txt>" |} ])].
Proof. vm_compute. reflexivity. Qed.

Lemma show_commit_entries_witness :
  exists files journal,
    Samples.run_scripted "show_commit" [Py.VStr "9a8b7c6d5e4f"]
    = (Py.Ok tt,
       {| Worker.world := journal;
          Worker.emitted :=
            [Worker.Result (Worker.PCommitDetail
                              (Worker.commit_info Samples.child_commit) files)] |})
    /\ map Worker.fi_path files
       = [Py.VStr "a.txt"; Py.VStr "broken.bin"; Py.VStr "c.txt"]
    /\ map Worker.fi_diff files
       = ["<diff 1f0c3a9b7e55 9a8b7c6d5e4f -- a.txt>";
          "无法获取差异信息: fatal: bad object broken.bin";
          "<diff 1f0c3a9b7e55 9a8b7c6d5e4f -- c.txt>"].
Proof.
  destruct (show_commit_entries Samples.scripted Progress.format_1f_exact
              (Some "/work/repo") (Py.VStr "9a8b7c6d5e4f")
              [] ["Repo"] ["Repo"; "commit 9a8b7c6d5e4f"]
              ["Repo"; "commit 9a8b7c6d5e4f"; "commit.diff"]
              Samples.child_commit
              [Samples.changed "a.txt"; Samples.changed "broken.bin"; Samples.changed "c.txt"])
    as (files & worlds & journal & Hrun & _); [reflexivity | reflexivity | reflexivity |].
  exists files, journal. split; [exact Hrun|].
  assert (Hran := Hrun). vm_compute in Hran.
  injection Hran as _ Hfiles. rewrite <- Hfiles. split; reflexivity.
Defined.

Lemma commit_default_message_witness :
  Samples.run_scripted "commit" []
  = (Py.Ok tt,
     {| Worker.world := ["Repo"; "git commit -m Update"];
        Worker.emitted := [Worker.Result (Worker.PText "提交成功: Update")] |}).
Proof.
  destruct (commit_default_message Samples.scripted Progress.format_1f_exact
              (Some "/work/repo")) as (_ & _ & Hrun).
  apply (Hrun [] ["Repo"] ["Repo"; "git commit -m Update"] "<commit -m Update>");
    reflexivity.
Defined.

(** ** Status lines and pull options *)

(** The first character of a line that starts with [??]. *)
Lemma startswith_first (line : string) :
  PyStr.startswith line "??" = true -> PyStr.take 1 line = "?".
Proof.
  intros H. apply prefix_inv in H as [rest ->]. reflexivity.
Qed.

(** A line whose first two characters are [??] starts with [??]. *)
Lemma startswith_pair (line : string) :
  PyStr.take 2 line = "??" -> PyStr.startswith line "??" = true.
Proof.
  destruct line as [|c1 [|c2 rest]]; [discriminate | discriminate |].
  cbn [PyStr.take PyStr.head_continuation PyStr.skip_continuation].
  destruct (PyStr.continuation c2) eqn:Hc2.
  - intros H. inversion H; subst. discriminate Hc2.
  - change ("" +:+ ?x) with x.
    cbn [PyStr.take PyStr.head_continuation PyStr.skip_continuation].
    intros H.
    assert (c1 = "?"%char /\ c2 = "?"%char) as [-> ->] by (inversion H; auto).
    unfold PyStr.startswith. simpl. destruct rest; reflexivity.
Qed.

Section WorkerStatus.
Import Py Git Worker.
Context {W : Type}.
Variable B : Backend W.
Variable format_1f : Q -> string.

(** C5 — porcelain status lines.  When the repository opens and
    [git status --porcelain] answers, the run emits one result whose rows
    are those of the lines of the answer, in order.  A blank line gives no
    row.  A line that is not blank gives exactly one row; its path is the
    line from offset 3; its category is decided by the status code pair in
    the first two characters: the pair [??] gives untracked, otherwise the
    code [A] gives staged, [M] modified, [D] deleted and any other code
    unstaged, the code being the first character of the pair.  The two
    answers of the specification give the rows stated there. *)
Theorem status_line_parsed (repo_path : option string) (args : list value)
        (w w1 w2 : W) (git_status : string) :
  Repo B repo_path w = (Ok tt, w1) ->
  git B "status" [VStr "--porcelain"] w1 = (Ok git_status, w2) ->
  let rows := flat_map status_line (PyStr.split PyStr.LF git_status) in
  run B format_1f repo_path "status" args {| world := w; emitted := [] |}
  = (Ok tt, {| world := w2; emitted := [Result (PStatus rows)] |})
  /\ (forall line, PyStr.strip line = "" -> status_line line = [])
  /\ (forall line,
        PyStr.strip line <> "" ->
        exists category glyph,
          status_line line = [(category, PyStr.drop 3 line, glyph)]
          /\ (PyStr.startswith line "??" = true -> category = UNTRACKED)
          /\ (PyStr.take 2 line = "??" -> category = UNTRACKED)
          /\ (PyStr.startswith line "??" = false ->
              (PyStr.take 1 line = "A" -> category = STAGED)
              /\ (PyStr.take 1 line = "M" -> category = MODIFIED)
              /\ (PyStr.take 1 line = "D" -> category = DELETED)
              /\ (PyStr.take 1 line <> "A" -> PyStr.take 1 line <> "M" ->
                  PyStr.take 1 line <> "D" -> category = UNSTAGED)))
  /\ (git_status = "?? new.txt" -> rows = [(UNTRACKED, "new.txt", "➕")])
  /\ (git_status = "M  src/a.py" -> rows = [(MODIFIED, "src/a.py", "📝")]).
Proof.
  intros Hrepo Hgit rows. split; [|split; [|split; [|split]]].
  - unfold run, try_except, operation_body. simpl String.eqb. cbv iota.
    rewrite (bind_ok _ _ _ {| world := w1; emitted := [] |} tt);
      [|apply (call_run (Repo B repo_path) {| world := w; emitted := [] |}), Hrepo].
    rewrite (bind_ok _ _ _ {| world := w2; emitted := [] |} git_status);
      [reflexivity|].
    apply (call_run (git B "status" _) {| world := w1; emitted := [] |}), Hgit.
  - intros line Hblank. unfold status_line. rewrite Hblank. reflexivity.
  - intros line Hline. apply truthy_iff in Hline.
    unfold status_line. rewrite Hline. unfold status_row.
    destruct (PyStr.startswith line "??") eqn:Hq.
    + eexists _, _. split; [reflexivity|]. split; [reflexivity|].
      split; [reflexivity | discriminate].
    + destruct (String.eqb_spec (PyStr.take 1 line) "A") as [HA|HA];
        [|destruct (String.eqb_spec (PyStr.take 1 line) "M") as [HM|HM];
          [|destruct (String.eqb_spec (PyStr.take 1 line) "D") as [HD|HD]]];
        eexists _, _; (split; [reflexivity|]); (split; [discriminate|]);
        (split; [intros Hpair; apply startswith_pair in Hpair; congruence|]);
        intros _; repeat split; intros; congruence.
  - intros Hspec. subst rows. rewrite Hspec. reflexivity.
  - intros Hspec. subst rows. rewrite Hspec. reflexivity.
Qed.
End WorkerStatus.

Lemma status_line_parsed_witness :
  Worker.run Cases.porcelain Progress.format_1f_exact (Some "/work/repo") "status" []
    {| Worker.world := []; Worker.emitted := [] |}
  = (Py.Ok tt,
     {| Worker.world := ["Repo"; "git status --porcelain"];
        Worker.emitted :=
          [Worker.Result
             (Worker.PStatus [(Worker.UNSTAGED, "docs/readme.md", "📝");
                              (Worker.MODIFIED, "src/a.py", "📝");
                              (Worker.UNTRACKED, "new.txt", "➕")])] |}).
Proof.
  destruct (status_line_parsed Cases.porcelain Progress.format_1f_exact
              (Some "/work/repo") [] [] ["Repo"] ["Repo"; "git status --porcelain"]
              Cases.status_output eq_refl eq_refl) as [Hrun _].
  exact Hrun.
Defined.

(** A line of ideographic spaces is blank, and a name in Chinese is cut by
    characters. *)
Example status_line_unicode :
  Worker.status_line "　　" = []
  /\ Worker.status_line "?? 文档/说明.md" = [(Worker.UNTRACKED, "文档/说明.md", "➕")]
  /\ PyStr.strip " 修复：加 " = "修复：加".
Proof. repeat split; vm_compute; reflexivity. Qed.

(** ** The manager: error dialogs, branch switching, submission guards *)
Section ManagerFacts.
Import Py Manager.

Lemma indicates_checkout_conflict_iff (error_msg : string) :
  indicates_checkout_conflict error_msg = true <->
  PyStr.has_substring CONFLICT_HEAD error_msg
  /\ PyStr.has_substring CONFLICT_ADVICE error_msg.
Proof.
  unfold indicates_checkout_conflict, PyStr.has_substring.
  rewrite andb_true_iff, !contains_iff. reflexivity.
Qed.

Lemma truthy_reference (remote_name branch_path : string) :
  PyStr.truthy (remote_name +:+ "/" +:+ branch_path) = true.
Proof. destruct remote_name; reflexivity. Qed.

(** Only the leading [remote_name/] is removed. *)
Lemma actual_branch_name_strips_remote (remote_name branch_path : string) :
  PyStr.contains "/" remote_name = false ->
  actual_branch_name (remote_name +:+ "/" +:+ branch_path) = branch_path.
Proof.
  intros Hno. unfold actual_branch_name.
  rewrite (contains_app "/" remote_name branch_path).
  rewrite (split_first_slash _ _ Hno). simpl tail. apply join_split.
Qed.

Lemma local_branch_exists_iff (names : list string) (actual : string) :
  local_branch_exists (Ok names) actual = true <-> In actual names.
Proof.
  simpl. rewrite existsb_exists. split.
  - intros (name & Hin & Heq). apply String.eqb_eq in Heq. subst. exact Hin.
  - intros Hin. exists actual. split; [exact Hin | apply String.eqb_refl].
Qed.

(** In a combo box filled by [on_branches_result], a name is shown as
    remote exactly when it is listed as remote and no local branch has the
    same name. *)
Lemma combo_text_of_remote (locals remotes : list string) (reference : string) :
  In reference remotes -> ~ In reference locals ->
  combo_text_of reference (combo_items locals remotes) = "remote: " +:+ reference.
Proof.
  intros Hin Hnot. unfold combo_text_of, combo_items.
  assert (Hloc : forall tail,
             List.find (has_data reference) (map local_item locals ++ tail)
             = List.find (has_data reference) tail).
  { intros tail. induction locals as [|b bs IH]; [reflexivity|]. simpl.
    unfold has_data at 1. simpl.
    destruct (String.eqb_spec b reference) as [->|_].
    - exfalso. apply Hnot. left. reflexivity.
    - apply IH. intros H. apply Hnot. right. exact H. }
  rewrite Hloc. destruct remotes as [|r rs]; [contradiction|].
  cbn [List.find has_data separator item_data].
  induction (r :: rs) as [|b bs IH]; [contradiction|]. simpl.
  unfold has_data at 1. simpl.
  destruct (String.eqb_spec b reference) as [->|Hne]; [reflexivity|].
  apply IH. destruct Hin as [->|Hin]; [congruence | exact Hin].
Qed.
(** A name that a local branch carries is shown as local, whatever the
    remote references are. *)
Lemma combo_text_of_local (locals remotes : list string) (reference : string) :
  In reference locals ->
  combo_text_of reference (combo_items locals remotes) = "localctx: " +:+ reference.
Proof.
  intros Hin. unfold combo_text_of, combo_items.
  induction locals as [|b bs IH]; [contradiction|]. simpl.
  unfold has_data at 1. simpl.
  destruct (String.eqb_spec b reference) as [->|Hne]; [reflexivity|].
  apply IH. destruct Hin as [->|Hin]; [congruence | exact Hin].
Qed.
End ManagerFacts.

(** C3, as the code has it — resolving a remote-tracking reference.  Let
    the combo box hold the entries of a branches result and let the
    selected reference [remote_name/branch_path], with no slash in
    [remote_name], be one of its remote references.  When no local branch
    of the list carries the full name of the reference, only the leading
    [remote_name/] is stripped: the candidate is [branch_path], slashes
    included; when the repository has a local branch of exactly that name
    the worker started is a plain checkout of the candidate, and otherwise
    (also when the local branches cannot be listed) it is
    [checkout -b candidate reference].  When a local branch of the list
    does carry the full name of the reference, the selection is resolved as
    that local branch: a plain checkout of the full name.  With local
    branches [main] the reference [origin/feature-x] resolves to
    create-and-track [feature-x]; with [feature-x; main] it resolves to a
    plain checkout of [feature-x]. *)
Theorem remote_reference_resolved :
  (forall (st : Manager.State) (locals remotes : list string)
          (remote_name branch_path : string)
          (current_branches : Py.outcome (list string)),
      let reference := remote_name +:+ "/" +:+ branch_path in
      let started arguments :=
        Manager.threadpool (Manager.switch_branch reference current_branches st)
        = Manager.threadpool st ++
          [{| Manager.repo_path := Manager.current_repo_path st;
              Manager.operation := "checkout";
              Manager.args := arguments;
              Manager.error_slot := Manager.to_switch_error |}] in
      PyStr.contains "/" remote_name = false ->
      Manager.branch_combo st = Manager.combo_items locals remotes ->
      In reference remotes ->
      (~ In reference locals ->
       Manager.actual_branch_name reference = branch_path
       /\ (forall names,
             current_branches = Py.Ok names -> In branch_path names ->
             started [Py.VStr branch_path])
       /\ ((forall names, current_branches = Py.Ok names -> ~ In branch_path names) ->
           started [Py.VStr "-b"; Py.VStr branch_path; Py.VStr reference]))
      /\ (In reference locals -> started [Py.VStr reference]))
  /\ map Manager.args
         (Manager.threadpool
            (Manager.switch_branch "origin/feature-x" (Py.Ok ["main"])
               (Samples.with_branches ["main"] ["origin/feature-x"])))
     = [[Py.VStr "-b"; Py.VStr "feature-x"; Py.VStr "origin/feature-x"]]
  /\ map Manager.args
         (Manager.threadpool
            (Manager.switch_branch "origin/feature-x" (Py.Ok ["feature-x"; "main"])
               (Samples.with_branches ["feature-x"; "main"] ["origin/feature-x"])))
     = [[Py.VStr "feature-x"]].
Proof.
  split; [|split; vm_compute; reflexivity].
  intros st locals remotes remote_name branch_path current_branches reference started
         Hno Hcombo Hlisted.
  subst started. cbv beta.
  unfold Manager.switch_branch, Manager.checkout_worker.
  subst reference. rewrite truthy_reference, Hcombo. split.
  - intros Hfresh.
    pose proof (actual_branch_name_strips_remote remote_name branch_path Hno) as Hactual.
    split; [exact Hactual|].
    rewrite (combo_text_of_remote locals remotes _ Hlisted Hfresh).
    unfold PyStr.startswith. rewrite prefix_app, Hactual. simpl.
    split.
    + intros names -> Hin.
      rewrite (proj2 (local_branch_exists_iff names branch_path) Hin). reflexivity.
    + intros Hnone.
      destruct current_branches as [names|e]; [|reflexivity].
      destruct (Manager.local_branch_exists (Py.Ok names) branch_path) eqn:E;
        [|reflexivity].
      apply local_branch_exists_iff in E. exfalso. exact (Hnone names eq_refl E).
  - intros Hshadow.
    rewrite (combo_text_of_local locals remotes _ Hshadow). reflexivity.
Qed.

Lemma remote_reference_resolved_witness :
  Manager.actual_branch_name "origin/feature/new-feature" = "feature/new-feature"
  /\ map Manager.args
         (Manager.threadpool
            (Manager.switch_branch "origin/feature/new-feature" (Py.Ok ["main"])
               (Samples.with_branches ["main"] ["origin/feature/new-feature"])))
     = [[Py.VStr "-b"; Py.VStr "feature/new-feature";
         Py.VStr "origin/feature/new-feature"]].
Proof.
  destruct remote_reference_resolved as (Hgen & _ & _).
  destruct (Hgen (Samples.with_branches ["main"] ["origin/feature/new-feature"])
                 ["main"] ["origin/feature/new-feature"]
                 "origin" "feature/new-feature" (Py.Ok ["main"]))
    as [Hremote _]; [reflexivity | reflexivity | simpl; tauto |].
  destruct Hremote as (Hname & _ & Hcreate).
  { simpl. intros [H|[]]. discriminate H. }
  split; [exact Hname|].
  change ("origin" +:+ "/" +:+ "feature/new-feature")
    with "origin/feature/new-feature" in Hcreate.
  rewrite Hcreate; [reflexivity|].
  intros names Heq. injection Heq as <-. simpl. intros [H|[]]. discriminate H.
Defined.

(** C3 as stated fails for some lists of local branches.  With a local
    branch that carries the full name [origin/feature-x] and no local
    branch [feature-x], activating the row of the remote reference
    [origin/feature-x] does not create and track [feature-x]: the entry is
    looked up by name, the local row is found first, and the worker
    started is a plain checkout of [origin/feature-x]. *)
Lemma remote_reference_shadowed :
  let locals := ["main"; "origin/feature-x"] in
  let st := Samples.with_branches locals ["origin/feature-x"] in
  Manager.branch_combo st !! 3%nat = Some (Manager.remote_item "origin/feature-x")
  /\ ~ In "feature-x" locals
  /\ map Manager.args
         (Manager.threadpool (Manager.on_branch_activated 3 (Py.Ok locals) st))
     = [[Py.VStr "origin/feature-x"]]
  /\ map Manager.args
         (Manager.threadpool (Manager.switch_branch "origin/feature-x" (Py.Ok locals) st))
     = [[Py.VStr "origin/feature-x"]].
Proof.
  cbv zeta. split; [reflexivity|]. split.
  - simpl. intros [H|[H|[]]]; discriminate H.
  - split; vm_compute; reflexivity.
Qed.

(** C2, as the code has it — submission guards.  The guard is the name of
    the entry point alone, with no repository in it.  While that name is in
    [active_operations], a submission through a guarded entry point changes
    nothing: no worker is started, nothing is logged, no backend call is
    made.  The guarded entry points are those of add, commit, push and
    push-with-upstream (one shared name), pull, create_branch, merge,
    cherry_pick, branch activation, and also the read-only status and
    show_commit.  An accepted push records its name, so that a second push
    is rejected.  The submissions of log, branches and diff consult no
    guard: they start a worker whatever the set holds. *)
Theorem guarded_submission_rejected (st : Manager.State) :
  ("refresh_status" ∈ Manager.active_operations st -> Manager.refresh_status st = st)
  /\ ("stage_all" ∈ Manager.active_operations st -> Manager.stage_all st = st)
  /\ ("commit" ∈ Manager.active_operations st ->
      forall text, Manager.commit text st = st)
  /\ ("commit_and_push" ∈ Manager.active_operations st ->
      Manager.commit_and_push st = st)
  /\ ("push" ∈ Manager.active_operations st ->
      forall set_upstream, Manager.push set_upstream st = st)
  /\ ("pull" ∈ Manager.active_operations st ->
      forall rebase prune, Manager.pull rebase prune st = st)
  /\ ("create_branch" ∈ Manager.active_operations st ->
      forall text, Manager.create_branch text st = st)
  /\ ("merge_branch" ∈ Manager.active_operations st ->
      forall merge_text current_text confirmed,
        Manager.merge_branch merge_text current_text confirmed st = st)
  /\ ("cherry_pick" ∈ Manager.active_operations st ->
      forall short_hash full_hash branches active chosen confirmed,
        Manager.cherry_pick_commit short_hash full_hash branches active chosen
          confirmed st = st)
  /\ ("show_commit" ∈ Manager.active_operations st ->
      forall full_hash, Manager.show_commit_detail full_hash st = st)
  /\ ("switch_branch" ∈ Manager.active_operations st ->
      forall index current_branches,
        Manager.on_branch_activated index current_branches st = st)
  /\ (forall first second,
        "push" ∉ Manager.active_operations st ->
        Manager.has_repo_path st = true ->
        map Manager.operation (Manager.threadpool (Manager.push first st))
        = map Manager.operation (Manager.threadpool st)
          ++ [if first then "push_with_upstream" else "push"]
        /\ Manager.push second (Manager.push first st) = Manager.push first st)
  /\ (Manager.has_repo_path st = true ->
      map Manager.operation (Manager.threadpool (Manager.refresh_history st))
      = map Manager.operation (Manager.threadpool st) ++ ["log"]
      /\ map Manager.operation (Manager.threadpool (Manager.refresh_branches st))
         = map Manager.operation (Manager.threadpool st) ++ ["branches"])
  /\ (forall file_path,
        map Manager.operation
            (Manager.threadpool (Manager.show_file_diff Worker.MODIFIED file_path st))
        = map Manager.operation (Manager.threadpool st) ++ ["diff"]).
Proof.
  repeat match goal with |- _ /\ _ => split end.
  - intros H. unfold Manager.refresh_status. rewrite decide_True; auto.
  - intros H. unfold Manager.stage_all. rewrite decide_True; auto.
  - intros H text. unfold Manager.commit. rewrite decide_True; auto.
  - intros H. unfold Manager.commit_and_push. rewrite decide_True; auto.
  - intros H up. unfold Manager.push. rewrite decide_True; auto.
  - intros H r p. unfold Manager.pull. rewrite decide_True; auto.
  - intros H text. unfold Manager.create_branch. rewrite decide_True; auto.
  - intros H m c ok. unfold Manager.merge_branch. rewrite decide_True; auto.
  - intros H sh fh bs a ch ok. unfold Manager.cherry_pick_commit.
    rewrite decide_True; auto.
  - intros H fh. unfold Manager.show_commit_detail. rewrite decide_True; auto.
  - intros H i bs. unfold Manager.on_branch_activated. rewrite decide_True; auto.
  - intros first second Hfree Hpath.
    assert (Hfirst : Manager.push first st
                     = Manager.execute_git_task
                         (if first then "push_with_upstream" else "push") []
                         (Manager.add_operation "push" st)).
    { unfold Manager.push. rewrite decide_False, Hpath; auto. }
    rewrite Hfirst. unfold Manager.execute_git_task.
    change (Manager.has_repo_path (Manager.add_operation "push" st))
      with (Manager.has_repo_path st).
    rewrite Hpath. simpl. split.
    + rewrite map_app. reflexivity.
    + unfold Manager.push at 1. rewrite decide_True; [reflexivity|].
      simpl. set_solver.
  - intros Hpath. unfold Manager.refresh_history, Manager.refresh_branches,
      Manager.execute_git_task. rewrite Hpath. simpl. rewrite !map_app. split; reflexivity.
  - intros file_path. unfold Manager.show_file_diff. simpl. rewrite map_app. reflexivity.
Qed.

Lemma guarded_submission_rejected_witness :
  Manager.push true (Manager.push false Samples.repo_selected)
  = Manager.push false Samples.repo_selected
  /\ map Manager.operation
         (Manager.threadpool (Manager.push false Samples.repo_selected))
     = ["push"].
Proof.
  destruct (guarded_submission_rejected Samples.repo_selected)
    as (_ & _ & _ & _ & _ & _ & _ & _ & _ & _ & _ & Hpush & _).
  destruct (Hpush false true) as [Hstarted Hsecond];
    [vm_compute; set_solver | reflexivity |].
  split; [exact Hsecond | exact Hstarted].
Defined.

(** C2 as stated fails on the read-only side: "status" does not bypass the
    guard.  With one status request in flight, a second one starts no
    worker, while a log request in the same state does. *)
Lemma status_submission_deduplicated :
  let in_flight := Manager.refresh_status Samples.repo_selected in
  map Manager.operation (Manager.threadpool in_flight) = ["status"]
  /\ Manager.threadpool (Manager.refresh_status in_flight)
     = Manager.threadpool in_flight
  /\ map Manager.operation (Manager.threadpool (Manager.refresh_history in_flight))
     = ["status"; "log"].
Proof.
  assert (Hkey : "refresh_status" ∈
                 Manager.active_operations (Manager.refresh_status Samples.repo_selected)).
  { unfold Manager.refresh_status. rewrite decide_False; [|vm_compute; set_solver].
    simpl. set_solver. }
  cbv zeta. split; [|split].
  - unfold Manager.refresh_status. rewrite decide_False; [|vm_compute; set_solver].
    reflexivity.
  - unfold Manager.refresh_status at 1. rewrite decide_True; [reflexivity | exact Hkey].
  - unfold Manager.refresh_status. rewrite decide_False; [|vm_compute; set_solver].
    reflexivity.
Qed.

(** Deleting a branch has no guard at all: two requests in a row start two
    workers. *)
Example delete_branch_twice :
  map Manager.operation
      (Manager.threadpool
         (Manager.delete_branch ["main"; "topic"] "main" (Some "topic") Manager.AnswerYes
            (Manager.delete_branch ["main"; "topic"] "main" (Some "topic")
               Manager.AnswerYes Samples.repo_selected)))
  = ["delete_branch"; "delete_branch"].
Proof. reflexivity. Qed.

(** [handle_git_error] empties the set, whatever was in flight. *)
Example error_clears_guards (error_msg : string) (st : Manager.State) :
  Manager.active_operations (snd (Manager.handle_git_error error_msg st)) = ∅.
Proof. reflexivity. Qed.

Lemma pull_options_independent_witness :
  Samples.run_scripted "pull" [Py.VBool false]
  = (Py.Ok tt,
     {| Worker.world :=
          ["Repo"; "git config http.lowSpeedLimit 1000";
           "git config http.lowSpeedTime 30"; "remote origin";
           "pull rebase=False prune=True"];
        Worker.emitted :=
          [Worker.ProgressSignal "进度: 25.0%";
           Worker.ProgressSignal "Compressing objects";
           Worker.ProgressSignal "进度: 100.0%";
           Worker.Result (Worker.PText "拉取成功")] |}).
Proof.
  destruct (pull_options_independent Samples.scripted Progress.format_1f_exact
              (Some "/work/repo")) as (_ & _ & _ & _ & _ & _ & Hrun).
  apply (Hrun [Py.VBool false] [] ["Repo"]
              ["Repo"; "git config http.lowSpeedLimit 1000"]
              ["Repo"; "git config http.lowSpeedLimit 1000";
               "git config http.lowSpeedTime 30"]
              ["Repo"; "git config http.lowSpeedLimit 1000";
               "git config http.lowSpeedTime 30"; "remote origin"]
              ["Repo"; "git config http.lowSpeedLimit 1000";
               "git config http.lowSpeedTime 30"; "remote origin";
               "pull rebase=False prune=True"]
              "<config http.lowSpeedLimit 1000>" "<config http.lowSpeedTime 30>"
              Samples.transfer);
    reflexivity.
Defined.

(** An operation name without a branch in [run] gives no signal at all. *)
Example unsupported_operation_is_silent :
  Samples.run_scripted "rebase" []
  = (Py.Ok tt, {| Worker.world := ["Repo"]; Worker.emitted := [] |}).
Proof. vm_compute. reflexivity. Qed.

(** The message the worker substitutes for a push without upstream no
    longer has the phrase [handle_git_error] looks for. *)
Example classify_rewritten_push_error :
  Manager.classify (Worker.no_upstream_message "topic") = Manager.GenericFailure.
Proof. vm_compute. reflexivity. Qed.

(* ===================================================================== *)
(** * Part III: further properties of the code                             *)
(* ===================================================================== *)

Set Warnings "-clear-no-such-hyp".

(** ** Edges of [GitWorker.run] *)
Section WorkerEdges.
Import Py Git Worker.
Context {W : Type}.
Variable B : Backend W.
Variable format_1f : Q -> string.

Lemma operation_body_unknown (operation : string) (args : list value) :
  ~ In operation supported ->
  operation_body B format_1f operation args = mret tt.
Proof.
  intros Hnot. unfold operation_body.
  repeat (match goal with
          | |- context [String.eqb operation ?k] =>
              destruct (String.eqb_spec operation k) as [->|_];
              [exfalso; apply Hnot; simpl; tauto|]
          end).
  reflexivity.
Qed.

(** X1 — a repository that cannot be opened.  Whatever the operation and
    its arguments, when [Repo(self.repo_path)] raises, the run makes no
    other backend call and emits one error carrying the exception's text. *)
Theorem repository_unavailable (repo_path : option string) (operation : string)
        (args : list value) (w w1 : W) (e : exn) :
  Repo B repo_path w = (Raise e, w1) ->
  run B format_1f repo_path operation args {| world := w; emitted := [] |}
  = (Ok tt, {| world := w1; emitted := [Error (str_exn e)] |}).
Proof.
  intros Hrepo. unfold run, try_except.
  rewrite (bind_raise _ _ _ {| world := w1; emitted := [] |} e);
    [reflexivity|].
  apply (call_run (Repo B repo_path) {| world := w; emitted := [] |}), Hrepo.
Qed.

(** X2 — an operation name [run] has no branch for.  When the repository
    opens, such a run ends without any signal: no result, no error, no
    progress, and no further backend call. *)
Theorem unknown_operation_silent (repo_path : option string) (operation : string)
        (args : list value) (w w1 : W) :
  ~ In operation supported ->
  Repo B repo_path w = (Ok tt, w1) ->
  run B format_1f repo_path operation args {| world := w; emitted := [] |}
  = (Ok tt, {| world := w1; emitted := [] |}).
Proof.
  intros Hnot Hrepo. unfold run, try_except.
  rewrite (bind_ok _ _ _ {| world := w1; emitted := [] |} tt);
    [|apply (call_run (Repo B repo_path) {| world := w; emitted := [] |}), Hrepo].
  rewrite (operation_body_unknown _ _ Hnot). reflexivity.
Qed.

(** X3 — a missing argument.  For the kinds that read [self.args[0]], an
    empty argument list gives the error of the failed index and no git
    command is run: the backend is left as [Repo] left it. *)
Theorem missing_argument_reported (repo_path : option string) (operation : string)
        (w w1 : W) :
  In operation Kinds.index_first_argument ->
  Repo B repo_path w = (Ok tt, w1) ->
  run B format_1f repo_path operation [] {| world := w; emitted := [] |}
  = (Ok tt, {| world := w1; emitted := [Error "tuple index out of range"] |}).
Proof.
  intros Hin Hrepo. unfold run, try_except.
  rewrite (bind_ok _ _ _ {| world := w1; emitted := [] |} tt);
    [|apply (call_run (Repo B repo_path) {| world := w; emitted := [] |}), Hrepo].
  unfold Kinds.index_first_argument in Hin. simpl in Hin.
  repeat (destruct Hin as [<- | Hin]); [..|contradiction]; reflexivity.
Qed.
End WorkerEdges.

(** ** More string facts *)
Section MoreStrings.
Import PyStr.

Lemma string_length_app (a b : string) :
  String.length (a +:+ b) = (String.length a + String.length b)%nat.
Proof. induction a as [|c a IH]; simpl; [reflexivity | f_equal; exact IH]. Qed.

Lemma take_drop (n : nat) (s : string) : take_bytes n s +:+ drop_bytes n s = s.
Proof.
  revert s. induction n as [|n IH]; intros s; [reflexivity|].
  destruct s as [|c s]; [reflexivity|].
  change (String c (take_bytes n s +:+ drop_bytes n s) = String c s). f_equal. apply IH.
Qed.

Lemma app_cons (x : ascii) (a b : string) : String x a +:+ b = String x (a +:+ b).
Proof. reflexivity. Qed.

Lemma app_assoc_str (a b c : string) : (a +:+ b) +:+ c = a +:+ (b +:+ c).
Proof.
  induction a as [|x a IH]; [reflexivity|]. rewrite !app_cons, IH. reflexivity.
Qed.

Lemma app_nil_r_str (a : string) : a +:+ "" = a.
Proof.
  induction a as [|x a IH]; [reflexivity|]. rewrite app_cons, IH. reflexivity.
Qed.

(** [s.endswith(suffix)] holds exactly when [s] ends with [suffix]. *)
Lemma endswith_iff (s suffix : string) :
  Worker.endswith s suffix = true <-> exists p, s = p +:+ suffix.
Proof.
  unfold Worker.endswith. rewrite andb_true_iff, String.eqb_eq, Nat.leb_le. split.
  - intros [Hdrop _].
    set (n := (String.length s - String.length suffix)%nat) in *.
    exists (take_bytes n s).
    transitivity (take_bytes n s +:+ drop_bytes n s); [symmetry; apply take_drop|].
    rewrite Hdrop. reflexivity.
  - intros [p ->]. rewrite string_length_app.
    replace (String.length p + String.length suffix - String.length suffix)%nat
      with (String.length p) by lia.
    split; [apply drop_app_length | lia].
Qed.

Lemma startswith_iff (s p : string) :
  startswith s p = true <-> exists rest, s = p +:+ rest.
Proof.
  unfold startswith. split; [apply prefix_inv|].
  intros [rest ->]. apply prefix_app.
Qed.

Lemma split_app (sep : ascii) (a b : string) :
  split sep (a +:+ String sep b)
  = split sep a ++ split sep b.
Proof.
  induction a as [|c a IH].
  - change ("" +:+ String sep b) with (String sep b). simpl.
    rewrite Ascii.eqb_refl. reflexivity.
  - rewrite app_cons. simpl.
    rewrite IH. destruct (Ascii.eqb c sep); [reflexivity|].
    pose proof (split_nonempty sep a) as Hne.
    destruct (split sep a) as [|f fs]; [congruence | reflexivity].
Qed.
End MoreStrings.

Section WorkerOperations.
Import Py Git Worker.
Context {W : Type}.
Variable B : Backend W.
Variable format_1f : Q -> string.

(** The calls every network operation makes before its own: open the
    repository, set the two transport limits, look up [origin]. *)
Lemma transport_preamble {A} (repo_path : option string) (k : M W A)
      (w w1 w2 w3 w4 : W) (out1 out2 : string) :
  Repo B repo_path w = (Ok tt, w1) ->
  git B "config" [VStr "http.lowSpeedLimit"; VStr "1000"] w1 = (Ok out1, w2) ->
  git B "config" [VStr "http.lowSpeedTime"; VStr "30"] w2 = (Ok out2, w3) ->
  remote B "origin" w3 = (Ok tt, w4) ->
  (call (Repo B repo_path);; set_transport_limits B;; call (remote B "origin");; k)
    {| world := w; emitted := [] |}
  = k {| world := w4; emitted := [] |}.
Proof.
  intros Hrepo Hc1 Hc2 Hremote.
  rewrite (bind_ok _ _ _ {| world := w1; emitted := [] |} tt);
    [|apply (call_run (Repo B repo_path) {| world := w; emitted := [] |}), Hrepo].
  rewrite (bind_ok _ _ _ {| world := w3; emitted := [] |} tt).
  - rewrite (bind_ok _ _ _ {| world := w4; emitted := [] |} tt);
      [reflexivity|].
    apply (call_run (remote B "origin") {| world := w3; emitted := [] |}), Hremote.
  - unfold set_transport_limits.
    rewrite (bind_ok _ _ _ {| world := w2; emitted := [] |} out1);
      [|apply (call_run (git B "config" _) {| world := w1; emitted := [] |}), Hc1].
    rewrite (bind_ok _ _ _ {| world := w3; emitted := [] |} out2);
      [|apply (call_run (git B "config" _) {| world := w2; emitted := [] |}), Hc2].
    reflexivity.
Qed.

(** X4 — the "branches" operation.  When the local branches and the active
    branch can be read, the result lists, of the remote refs enumerated, in
    their order, exactly those that contain a slash, do not end with
    [/HEAD] and do not start with [origin/HEAD].  When the active branch
    cannot be read (a detached head), the run reports that error and gives
    no branch list. *)
Theorem branches_result (repo_path : option string) (args : list value)
        (w w1 w2 : W) (locals : list string) :
  Repo B repo_path w = (Ok tt, w1) ->
  branches B w1 = (Ok locals, w2) ->
  (forall (w3 w4 : W) (active : string) (refs : list string),
      active_branch_name B w2 = (Ok active, w3) ->
      remote_refs B w3 = (refs, w4) ->
      exists remotes,
        run B format_1f repo_path "branches" args {| world := w; emitted := [] |}
        = (Ok tt,
           {| world := w4;
              emitted := [Result (PBranches {| local_branches := locals;
                                               remote_branches := remotes;
                                               active_branch := active |})] |})
        /\ sublist remotes refs
        /\ forall name,
             In name remotes <->
             In name refs
             /\ PyStr.has_substring "/" name
             /\ ~ (exists p, name = p +:+ "/HEAD")
             /\ ~ (exists rest, name = "origin/HEAD" +:+ rest))
  /\ (forall (w3 : W) (e : exn),
        active_branch_name B w2 = (Raise e, w3) ->
        run B format_1f repo_path "branches" args {| world := w; emitted := [] |}
        = (Ok tt, {| world := w3; emitted := [Error (str_exn e)] |})).
Proof.
  intros Hrepo Hlocals. split.
  - intros w3 w4 active refs Hactive Hrefs.
    exists (List.filter keep_remote_ref refs). split; [|split].
    + unfold run, try_except, operation_body. simpl String.eqb. cbv iota.
      rewrite (bind_ok _ _ _ {| world := w1; emitted := [] |} tt);
        [|apply (call_run (Repo B repo_path) {| world := w; emitted := [] |}), Hrepo].
      rewrite (bind_ok _ _ _ {| world := w2; emitted := [] |} locals);
        [|apply (call_run (branches B) {| world := w1; emitted := [] |}), Hlocals].
      rewrite (bind_ok _ _ _ {| world := w3; emitted := [] |} active);
        [|apply (call_run (active_branch_name B) {| world := w2; emitted := [] |}),
            Hactive].
      rewrite (bind_ok _ _ _ {| world := w4; emitted := [] |} refs);
        [reflexivity|].
      unfold call. simpl. rewrite Hrefs. reflexivity.
    + clear. induction refs as [|r refs IH]; simpl; [constructor|].
      destruct (keep_remote_ref r); [apply sublist_skip | apply sublist_cons]; exact IH.
    + intros name. rewrite List.filter_In. unfold keep_remote_ref.
      rewrite !andb_true_iff, !negb_true_iff, <- !not_true_iff_false.
      rewrite endswith_iff, startswith_iff, contains_iff.
      unfold PyStr.has_substring. tauto.
  - intros w3 e Hactive.
    unfold run, try_except, operation_body. simpl String.eqb. cbv iota.
    rewrite (bind_ok _ _ _ {| world := w1; emitted := [] |} tt);
      [|apply (call_run (Repo B repo_path) {| world := w; emitted := [] |}), Hrepo].
    rewrite (bind_ok _ _ _ {| world := w2; emitted := [] |} locals);
      [|apply (call_run (branches B) {| world := w1; emitted := [] |}), Hlocals].
    rewrite (bind_raise _ _ _ {| world := w3; emitted := [] |} e);
      [reflexivity|].
    apply (call_run (active_branch_name B) {| world := w2; emitted := [] |}), Hactive.
Qed.
End WorkerOperations.

Section WorkerPush.
Import Py Git Worker.
Context {W : Type}.
Variable B : Backend W.
Variable format_1f : Q -> string.

(** X5 — how "push" ends.  After the repository, the transport limits and
    [origin] are set up, let [origin.push] report [callbacks] and then
    return or raise.  The run emits the throttled progress first and then
    exactly one terminal signal: the success text when the push returned;
    the exception's own text when it is not a [GitCommandError] or lacks
    the phrase "has no upstream branch"; otherwise the hint naming the
    active branch, or, when the active branch cannot be read, the text of
    that second exception in place of the push error. *)
Theorem push_outcomes (repo_path : option string) (args : list value)
        (w w1 w2 w3 w4 w5 : W) (out1 out2 : string)
        (callbacks : list Progress.Callback) (o : outcome unit) :
  Repo B repo_path w = (Ok tt, w1) ->
  git B "config" [VStr "http.lowSpeedLimit"; VStr "1000"] w1 = (Ok out1, w2) ->
  git B "config" [VStr "http.lowSpeedTime"; VStr "30"] w2 = (Ok out2, w3) ->
  remote B "origin" w3 = (Ok tt, w4) ->
  push B {| refspec := None; set_upstream := false |} w4 = ((callbacks, o), w5) ->
  let progress :=
    map ProgressSignal (omap id (Progress.emissions format_1f Progress.init callbacks)) in
  let outcome_of (final : W) (last : Signal) :=
    run B format_1f repo_path "push" args {| world := w; emitted := [] |}
    = (Ok tt, {| world := final; emitted := progress ++ [last] |}) in
  (o = Ok tt -> outcome_of w5 (Result (PText "推送成功")))
  /\ (forall e, o = Raise e ->
        is_GitCommandError e = false \/ ~ PyStr.has_substring "has no upstream branch" (str_exn e) ->
        outcome_of w5 (Error (str_exn e)))
  /\ (forall text, o = Raise (GitCommandError text) ->
        PyStr.has_substring "has no upstream branch" text ->
        (forall w6 current_branch,
            active_branch_name B w5 = (Ok current_branch, w6) ->
            outcome_of w6 (Error (no_upstream_message current_branch)))
        /\ (forall w6 e2,
              active_branch_name B w5 = (Raise e2, w6) ->
              outcome_of w6 (Error (str_exn e2)))).
Proof.
  intros Hrepo Hc1 Hc2 Hremote Hpush progress outcome_of.
  assert (Hstart :
    run B format_1f repo_path "push" args {| world := w; emitted := [] |}
    = match
        (try_except is_GitCommandError
           (with_progress format_1f
              (push B {| refspec := None; set_upstream := false |});;
            emit (Result (PText "推送成功")))
           (fun e =>
              if PyStr.contains NO_UPSTREAM (str_exn e)
              then current_branch ← call (active_branch_name B);
                   emit (Error (no_upstream_message current_branch))
              else emit (Error (str_exn e))))
          {| world := w4; emitted := [] |}
      with
      | (Ok a, st1) => (Ok a, st1)
      | (Raise e, st1) => emit (Error (str_exn e)) st1
      end).
  { unfold run, operation_body. simpl String.eqb. cbv iota.
    unfold try_except at 1.
    rewrite (transport_preamble B repo_path _ w w1 w2 w3 w4 out1 out2 Hrepo Hc1 Hc2 Hremote).
    match goal with |- match ?x with _ => _ end = _ => destruct x as [[[]|e] st1] end;
      reflexivity. }
  pose proof (with_progress_run format_1f _ {| world := w4; emitted := [] |} _ _ _ Hpush)
    as Hwp. simpl in Hwp. fold progress in Hwp.
  split; [|split].
  - intros ->. unfold outcome_of. rewrite Hstart.
    unfold try_except. rewrite (bind_ok _ _ _ _ tt Hwp). reflexivity.
  - intros e -> Hcase. unfold outcome_of. rewrite Hstart.
    unfold try_except. rewrite (bind_raise _ _ _ _ e Hwp).
    destruct (is_GitCommandError e) eqn:Hg; [|reflexivity].
    destruct Hcase as [Hcase|Hcase]; [discriminate|].
    destruct (PyStr.contains NO_UPSTREAM (str_exn e)) eqn:Hc; [|reflexivity].
    exfalso. apply Hcase. apply contains_iff. exact Hc.
  - intros text -> Hphrase.
    assert (Hc : PyStr.contains NO_UPSTREAM text = true) by (apply contains_iff; exact Hphrase).
    split.
    + intros w6 current_branch Hactive. unfold outcome_of. rewrite Hstart.
      unfold try_except. rewrite (bind_raise _ _ _ _ _ Hwp).
      simpl. rewrite Hc.
      rewrite (bind_ok _ _ _ {| world := w6; emitted := progress |} current_branch);
        [reflexivity|].
      apply (call_run (active_branch_name B) {| world := w5; emitted := progress |}),
        Hactive.
    + intros w6 e2 Hactive. unfold outcome_of. rewrite Hstart.
      unfold try_except. rewrite (bind_raise _ _ _ _ _ Hwp).
      simpl. rewrite Hc.
      rewrite (bind_raise _ _ _ {| world := w6; emitted := progress |} e2);
        [reflexivity|].
      apply (call_run (active_branch_name B) {| world := w5; emitted := progress |}),
        Hactive.
Qed.
(** The hint of the plain push, on its own: whatever else the text of the
    GitCommandError holds, the upstream phrase in it is enough. *)
Lemma push_hint_run (repo_path : option string) (args : list value)
      (w w1 w2 w3 w4 w5 w6 : W) (out1 out2 text current_branch : string)
      (callbacks : list Progress.Callback) :
  Repo B repo_path w = (Ok tt, w1) ->
  git B "config" [VStr "http.lowSpeedLimit"; VStr "1000"] w1 = (Ok out1, w2) ->
  git B "config" [VStr "http.lowSpeedTime"; VStr "30"] w2 = (Ok out2, w3) ->
  remote B "origin" w3 = (Ok tt, w4) ->
  push B {| refspec := None; set_upstream := false |} w4
  = ((callbacks, Raise (GitCommandError text)), w5) ->
  PyStr.contains "has no upstream branch" text = true ->
  active_branch_name B w5 = (Ok current_branch, w6) ->
  run B format_1f repo_path "push" args {| world := w; emitted := [] |}
  = (Ok tt,
     {| world := w6;
        emitted :=
          map ProgressSignal
              (omap id (Progress.emissions format_1f Progress.init callbacks))
          ++ [Error (no_upstream_message current_branch)] |}).
Proof.
  intros Hrepo Hc1 Hc2 Hremote Hpush Hphrase Hactive.
  unfold run, operation_body. simpl String.eqb. cbv iota.
  unfold try_except at 1.
  rewrite (transport_preamble B repo_path _ w w1 w2 w3 w4 out1 out2 Hrepo Hc1 Hc2 Hremote).
  pose proof (with_progress_run format_1f _ {| world := w4; emitted := [] |} _ _ _ Hpush)
    as Hwp. simpl in Hwp.
  unfold try_except. rewrite (bind_raise _ _ _ _ _ Hwp).
  cbn [is_GitCommandError str_exn]. unfold NO_UPSTREAM. rewrite Hphrase.
  rewrite (bind_ok _ _ _ {| world := w6;
                            emitted := map ProgressSignal
                              (omap id (Progress.emissions format_1f Progress.init
                                          callbacks)) |} current_branch);
    [reflexivity|].
  apply (call_run (active_branch_name B) {| world := w5; emitted := _ |}), Hactive.
Qed.
End WorkerPush.

Section WorkerDelete.
Import Py Git Worker.
Context {W : Type}.
Variable B : Backend W.
Variable format_1f : Q -> string.

(** X6 — the force flag of "delete_branch".  Without a second argument the
    run is the safe delete; a second argument counts only through its truth
    value, and further arguments are ignored.  A forced delete asks git for
    [branch -D], a safe one for [branch -d], and each reports its own
    text. *)
Theorem delete_branch_force (repo_path : option string) :
  (forall name st,
      run B format_1f repo_path "delete_branch" [name] st
      = run B format_1f repo_path "delete_branch" [name; VBool false] st)
  /\ (forall name flag rest st,
        run B format_1f repo_path "delete_branch" (name :: flag :: rest) st
        = run B format_1f repo_path "delete_branch" [name; VBool (truthy flag)] st)
  /\ (forall name (force : bool) (w w1 w2 : W) (out : string),
        Repo B repo_path w = (Ok tt, w1) ->
        git B "branch" [VStr (if force then "-D" else "-d"); name] w1 = (Ok out, w2) ->
        run B format_1f repo_path "delete_branch" [name; VBool force]
            {| world := w; emitted := [] |}
        = (Ok tt,
           {| world := w2;
              emitted := [Result (PText ("分支 '" +:+ str name +:+
                                         (if force then "' 已强制删除" else "' 已删除")))] |})).
Proof.
  split; [reflexivity|]. split.
  - intros name flag rest st.
    unfold run, operation_body. simpl String.eqb. cbv iota.
    unfold delete_force. simpl.
    destruct (truthy flag); reflexivity.
  - intros name force w w1 w2 out Hrepo Hgit.
    unfold run, try_except, operation_body. simpl String.eqb. cbv iota.
    rewrite (bind_ok _ _ _ {| world := w1; emitted := [] |} tt);
      [|apply (call_run (Repo B repo_path) {| world := w; emitted := [] |}), Hrepo].
    rewrite (bind_ok (lift (index [name; VBool force] 0)) _ _
               {| world := w1; emitted := [] |} name); [|reflexivity].
    unfold delete_force. simpl.
    destruct force; simpl;
      rewrite (bind_ok _ _ _ {| world := w2; emitted := [] |} out);
      try reflexivity;
      apply (call_run (git B "branch" _) {| world := w1; emitted := [] |}), Hgit.
Qed.
End WorkerDelete.

(** X7 — status output is parsed line by line.  The rows of two outputs
    joined by a newline are the rows of the first followed by the rows of
    the second, so a trailing newline and empty lines add nothing. *)
Theorem parse_status_line_by_line :
  (forall a b : string,
      Worker.parse_status (a +:+ String PyStr.LF b)
      = Worker.parse_status a ++ Worker.parse_status b)
  /\ (forall a : string,
        Worker.parse_status (a +:+ String PyStr.LF "") = Worker.parse_status a)
  /\ (forall a b : string,
        Worker.parse_status (a +:+ String PyStr.LF (String PyStr.LF b))
        = Worker.parse_status (a +:+ String PyStr.LF b)).
Proof.
  assert (Hcat : forall a b : string,
             Worker.parse_status (a +:+ String PyStr.LF b)
             = Worker.parse_status a ++ Worker.parse_status b).
  { intros a b. unfold Worker.parse_status.
    rewrite split_app. apply List.flat_map_app. }
  split; [exact Hcat|]. split.
  - intros a. rewrite Hcat. apply app_nil_r.
  - intros a b. rewrite !Hcat.
    change (String PyStr.LF b) with ("" +:+ String PyStr.LF b).
    rewrite Hcat. reflexivity.
Qed.

(** ** A bound on the rate of progress events *)
Section ThrottleRate.
Import Progress Rate.
Variable format_1f : Q -> string.

Lemma natQ_S (n : nat) : (natQ (S n) == natQ n + 1)%Q.
Proof.
  unfold natQ. rewrite Nat2Z.inj_succ. unfold Z.succ.
  rewrite inject_Z_plus. reflexivity.
Qed.

Lemma natQ_nonneg (n : nat) : (0 <= natQ n)%Q.
Proof.
  unfold natQ. change 0%Q with (inject_Z 0). rewrite <- Zle_Qle. lia.
Qed.

Lemma emitted_count_cons (h : Handler) (c : Callback) (cs : list Callback) :
  emitted_count format_1f h (c :: cs)
  = if due h c
    then S (emitted_count format_1f {| last_update := cb_time c |} cs)
    else emitted_count format_1f h cs.
Proof.
  unfold emitted_count. rewrite emissions_cons. unfold update.
  destruct (due h c); reflexivity.
Qed.

(** Each message-free emission needs more than half a second since the
    previous one: [n] emissions take more than [n/2] seconds from the
    handler's last update. *)
Lemma emissions_take_time (cs : list Callback) (h : Handler) (T : Q) :
  (forall c, In c cs -> message c = "" /\ (cb_time c <= T)%Q) ->
  (1 <= emitted_count format_1f h cs)%nat ->
  (natQ (emitted_count format_1f h cs) * (1#2) < T - last_update h)%Q.
Proof.
  revert h. induction cs as [|c cs IH]; intros h Hall Hpos.
  - unfold emitted_count in Hpos. simpl in Hpos. lia.
  - destruct (Hall c (or_introl eq_refl)) as [Hm HT].
    assert (Hrest : forall c', In c' cs -> message c' = "" /\ (cb_time c' <= T)%Q)
      by (intros c' Hin; apply Hall; right; exact Hin).
    rewrite emitted_count_cons in *.
    destruct (due h c) eqn:Hdue.
    + apply (due_quiet h c Hm) in Hdue. rewrite natQ_S.
      destruct (emitted_count format_1f {| last_update := cb_time c |} cs) as [|k] eqn:Hk.
      * change (natQ 0) with 0%Q. lra.
      * specialize (IH {| last_update := cb_time c |} Hrest).
        rewrite Hk in IH. specialize (IH ltac:(lia)). simpl in IH. lra.
    + apply IH; assumption.
Qed.

(** X8 — the rate of message-free progress events.  Of a stream of
    message-free callbacks that starts at clock reading [t0] and whose
    readings do not exceed [T], a handler in any state emits at most
    [1 + 2 (T - t0)] events: [n] emitted events satisfy
    [(n - 1) / 2 <= T - t0]. *)
Theorem emission_rate_bound (h : Handler) (c0 : Callback) (rest : list Callback) (T : Q) :
  (forall c, In c (c0 :: rest) -> message c = "" /\ (cb_time c <= T)%Q) ->
  ((natQ (emitted_count format_1f h (c0 :: rest)) - 1) * (1#2) <= T - cb_time c0)%Q.
Proof.
  intros Hall.
  destruct (Hall c0 (or_introl eq_refl)) as [Hm HT].
  assert (Hrest : forall c', In c' rest -> message c' = "" /\ (cb_time c' <= T)%Q)
    by (intros c' Hin; apply Hall; right; exact Hin).
  rewrite emitted_count_cons.
  destruct (due h c0) eqn:Hdue.
  - rewrite natQ_S.
    destruct (emitted_count format_1f {| last_update := cb_time c0 |} rest) as [|k] eqn:Hk.
    + change (natQ 0) with 0%Q. lra.
    + pose proof (emissions_take_time rest {| last_update := cb_time c0 |} T Hrest) as H.
      rewrite Hk in H. specialize (H ltac:(lia)). simpl in H. lra.
  - assert (Hnot : ~ (1#2 < cb_time c0 - last_update h)%Q).
    { rewrite <- (due_quiet h c0 Hm). congruence. }
    destruct (emitted_count format_1f h rest) as [|k] eqn:Hk.
    + change (natQ 0) with 0%Q. lra.
    + pose proof (emissions_take_time rest h T Hrest) as H.
      rewrite Hk in H. specialize (H ltac:(lia)). lra.
Qed.
End ThrottleRate.

(** ** The manager's pool and guards *)
Section ManagerPool.
Import Py Manager Pool.

Lemma only_supported_start (worker : GitWorker) (st : State) :
  In (operation worker) Worker.supported ->
  only_supported st -> only_supported (start worker st).
Proof.
  intros Hin Hst. unfold only_supported, start. simpl.
  apply Forall_app. split; [exact Hst|]. constructor; [exact Hin | constructor].
Qed.

Lemma only_supported_same (st st' : State) :
  threadpool st' = threadpool st -> only_supported st -> only_supported st'.
Proof. unfold only_supported. intros ->. auto. Qed.

Lemma only_supported_execute (operation : string) (args : list value) (st : State) :
  In operation Worker.supported ->
  only_supported st -> only_supported (execute_git_task operation args st).
Proof.
  intros Hin Hst. unfold execute_git_task.
  destruct (has_repo_path st); simpl.
  - apply only_supported_start; [exact Hin|].
    apply (only_supported_same st); [reflexivity | exact Hst].
  - apply (only_supported_same st); [reflexivity | exact Hst].
Qed.

Local Ltac supported_kind := unfold Worker.supported; simpl; tauto.

Local Ltac keep_pool :=
  first [ assumption
        | apply only_supported_execute; [supported_kind | keep_pool]
        | apply only_supported_start; [supported_kind | keep_pool]
        | eapply only_supported_same; [reflexivity | keep_pool] ].

Lemma only_supported_refresh (st : State) :
  only_supported st -> only_supported (refresh_current_repo st).
Proof.
  intros Hst. unfold refresh_current_repo.
  destruct (decide _); [exact Hst|].
  destruct (_ && _); [|exact Hst].
  eapply only_supported_same; [reflexivity|].
  unfold refresh_history. apply only_supported_execute; [supported_kind|].
  unfold refresh_status. destruct (decide _).
  - unfold refresh_branches. keep_pool.
  - apply only_supported_execute; [supported_kind|].
    eapply only_supported_same; [reflexivity|].
    unfold refresh_branches. keep_pool.
Qed.

(** X9 — only supported kinds reach the pool.  Every method of the manager
    that can start a worker keeps the pool free of operation names the
    worker has no branch for. *)
Theorem pool_only_supported (st : State) :
  only_supported st ->
  only_supported (refresh_branches st)
  /\ only_supported (refresh_history st)
  /\ only_supported (refresh_status st)
  /\ only_supported (refresh_current_repo st)
  /\ only_supported (stage_all st)
  /\ (forall text, only_supported (create_branch text st))
  /\ (forall merge_text current_text confirmed,
        only_supported (merge_branch merge_text current_text confirmed st))
  /\ (forall short_hash full_hash branches active chosen confirmed,
        only_supported
          (cherry_pick_commit short_hash full_hash branches active chosen confirmed st))
  /\ (forall full_hash, only_supported (show_commit_detail full_hash st))
  /\ (forall text, only_supported (commit text st))
  /\ only_supported (commit_and_push st)
  /\ (forall rebase prune, only_supported (pull rebase prune st))
  /\ (forall set_upstream, only_supported (push set_upstream st))
  /\ (forall status file_path, only_supported (show_file_diff status file_path st))
  /\ (forall file_path confirmed, only_supported (cancel_file_changes file_path confirmed st))
  /\ (forall local_branches active chosen answer,
        only_supported (delete_branch local_branches active chosen answer st))
  /\ (forall branch_name current_branches,
        only_supported (switch_branch branch_name current_branches st))
  /\ (forall index current_branches,
        only_supported (on_branch_activated index current_branches st))
  /\ (forall result, only_supported (on_checkout_result result st))
  /\ (forall error_msg, only_supported (snd (on_checkout_error error_msg st)))
  /\ (forall error_msg, only_supported (snd (handle_git_error error_msg st))).
Proof.
  intros Hst.
  assert (Hswitch : forall branch_name current_branches,
             only_supported (switch_branch branch_name current_branches st)).
  { intros. unfold switch_branch. destruct (negb _); [exact Hst|].
    apply only_supported_start; [supported_kind|]. keep_pool. }
  repeat match goal with |- _ /\ _ => split end.
  - unfold refresh_branches. keep_pool.
  - unfold refresh_history. keep_pool.
  - unfold refresh_status. destruct (decide _); keep_pool.
  - apply only_supported_refresh, Hst.
  - unfold stage_all. destruct (decide _); keep_pool.
  - intros. unfold create_branch. destruct (decide _); [keep_pool|].
    simpl. destruct (negb _); keep_pool.
  - intros. unfold merge_branch. destruct (decide _); [keep_pool|].
    destruct (negb _); [keep_pool|]. destruct (String.eqb _ _); [keep_pool|].
    destruct (negb _); keep_pool.
  - intros. unfold cherry_pick_commit. destruct (decide _); [keep_pool|].
    destruct (negb _); [keep_pool|]. simpl.
    destruct (List.filter _ _); [keep_pool|].
    destruct chosen; [|keep_pool]. destruct (negb _); [keep_pool|].
    destruct (negb _); keep_pool.
  - intros. unfold show_commit_detail. destruct (decide _); keep_pool.
  - intros. unfold commit. destruct (decide _); [keep_pool|].
    simpl. destruct (negb _); keep_pool.
  - unfold commit_and_push. destruct (decide _); keep_pool.
  - intros. unfold pull. destruct (decide _); [keep_pool|].
    destruct (negb _); keep_pool.
  - intros. unfold push. destruct (decide _); [keep_pool|].
    destruct (negb _); [keep_pool|]. simpl. destruct set_upstream; keep_pool.
  - intros. unfold show_file_diff. destruct (negb _); keep_pool.
  - intros. unfold cancel_file_changes. destruct confirmed; keep_pool.
  - intros. unfold delete_branch. destruct (negb _); [keep_pool|].
    destruct (negb _); [keep_pool|]. simpl.
    destruct (List.filter _ _); [keep_pool|].
    destruct chosen; [|keep_pool]. destruct (negb _); [keep_pool|].
    destruct answer; keep_pool.
  - exact Hswitch.
  - intros. unfold on_branch_activated. destruct (decide _); [keep_pool|].
    destruct (_ <? _)%Z; [keep_pool|]. apply Hswitch.
  - intros. unfold on_checkout_result.
    eapply only_supported_same; [reflexivity|].
    apply only_supported_refresh. keep_pool.
  - intros. unfold on_checkout_error. simpl.
    apply only_supported_refresh. keep_pool.
  - intros. unfold handle_git_error. simpl. keep_pool.
Qed.
End ManagerPool.

Section ManagerGuards.
Import Py Manager Pool.

Lemma execute_without_path (operation : string) (args : list value) (st : State) :
  has_repo_path st = false ->
  execute_git_task operation args st = log_message NO_REPO_SELECTED st.
Proof. intros H. unfold execute_git_task. rewrite H. reflexivity. Qed.

Lemma execute_with_path (operation : string) (args : list value) (st : State) :
  has_repo_path st = true ->
  execute_git_task operation args st
  = start {| repo_path := current_repo_path st; operation := operation;
             args := args; error_slot := to_handle_git_error |}
          (log_message ("准备执行 " +:+ operation +:+ " 操作...") st).
Proof. intros H. unfold execute_git_task. rewrite H. reflexivity. Qed.

(** X10 — no repository path.  While [current_repo_path] is missing or
    empty, no method that goes through [execute_git_task] starts a worker.
    [pull] and [push] then leave the guards as they were, but
    [refresh_status], [stage_all], [commit] and [create_branch] have
    recorded their name before noticing, and it stays recorded. *)
Theorem no_repository_no_worker (st : State) :
  has_repo_path st = false ->
  (threadpool (refresh_branches st) = threadpool st
   /\ threadpool (refresh_history st) = threadpool st
   /\ threadpool (refresh_status st) = threadpool st
   /\ threadpool (refresh_current_repo st) = threadpool st
   /\ threadpool (stage_all st) = threadpool st
   /\ threadpool (commit_and_push st) = threadpool st
   /\ (forall text, threadpool (commit text st) = threadpool st)
   /\ (forall text, threadpool (create_branch text st) = threadpool st)
   /\ (forall merge_text current_text confirmed,
         threadpool (merge_branch merge_text current_text confirmed st) = threadpool st)
   /\ (forall short_hash full_hash branches active chosen confirmed,
         threadpool (cherry_pick_commit short_hash full_hash branches active chosen
                       confirmed st) = threadpool st)
   /\ (forall rebase prune, threadpool (pull rebase prune st) = threadpool st)
   /\ (forall set_upstream, threadpool (push set_upstream st) = threadpool st))
  /\ (forall rebase prune,
        active_operations (pull rebase prune st) = active_operations st)
  /\ (forall set_upstream,
        active_operations (push set_upstream st) = active_operations st)
  /\ "refresh_status" ∈ active_operations (refresh_status st)
  /\ "stage_all" ∈ active_operations (stage_all st)
  /\ (forall text, PyStr.strip text <> "" ->
        "commit" ∈ active_operations (commit text st))
  /\ (forall text, PyStr.strip text <> "" ->
        "create_branch" ∈ active_operations (create_branch text st)).
Proof.
  intros Hpath.
  assert (Hadd : forall key, has_repo_path (add_operation key st) = false) by (intros; exact Hpath).
  split; [repeat match goal with |- _ /\ _ => split end|
          repeat match goal with |- _ /\ _ => split end].
  - unfold refresh_branches. rewrite execute_without_path; auto.
  - unfold refresh_history. rewrite execute_without_path; auto.
  - unfold refresh_status. destruct (decide _); [reflexivity|].
    rewrite execute_without_path; auto.
  - unfold refresh_current_repo. destruct (decide _); [reflexivity|].
    rewrite Hpath, andb_false_r. reflexivity.
  - unfold stage_all. destruct (decide _); [reflexivity|].
    rewrite execute_without_path; auto.
  - unfold commit_and_push. destruct (decide _); [reflexivity|].
    rewrite execute_without_path; auto.
  - intros. unfold commit. destruct (decide _); [reflexivity|]. simpl.
    destruct (negb _); [reflexivity|]. rewrite execute_without_path; auto.
  - intros. unfold create_branch. destruct (decide _); [reflexivity|]. simpl.
    destruct (negb _); [reflexivity|]. rewrite execute_without_path; auto.
  - intros. unfold merge_branch. destruct (decide _); [reflexivity|].
    destruct (negb _); [reflexivity|]. destruct (String.eqb _ _); [reflexivity|].
    destruct (negb _); [reflexivity|]. rewrite execute_without_path; auto.
  - intros. unfold cherry_pick_commit. destruct (decide _); [reflexivity|].
    destruct (negb _); [reflexivity|]. simpl.
    destruct (List.filter _ _); [reflexivity|].
    destruct chosen; [|reflexivity]. destruct (negb _); [reflexivity|].
    destruct (negb _); [reflexivity|]. rewrite execute_without_path; auto.
  - intros. unfold pull. destruct (decide _); [reflexivity|].
    rewrite Hpath. reflexivity.
  - intros. unfold push. destruct (decide _); [reflexivity|].
    rewrite Hpath. reflexivity.
  - intros. unfold pull. destruct (decide _); [reflexivity|].
    rewrite Hpath. reflexivity.
  - intros. unfold push. destruct (decide _); [reflexivity|].
    rewrite Hpath. reflexivity.
  - unfold refresh_status. destruct (decide _); [assumption|].
    rewrite execute_without_path; auto. simpl. set_solver.
  - unfold stage_all. destruct (decide _); [assumption|].
    rewrite execute_without_path; auto. simpl. set_solver.
  - intros text Htext. apply truthy_iff in Htext.
    unfold commit. destruct (decide _); [assumption|]. simpl. rewrite Htext. simpl.
    rewrite execute_without_path; auto. simpl. set_solver.
  - intros text Htext. apply truthy_iff in Htext.
    unfold create_branch. destruct (decide _); [assumption|]. simpl. rewrite Htext. simpl.
    rewrite execute_without_path; auto. simpl. set_solver.
Qed.

(** X11 — an error reopens every guard.  [handle_git_error] empties the set
    of active operations, so right after it a push, a pull, a stage or a
    status refresh is accepted and starts its worker, whatever was recorded
    as in flight before. *)
Theorem error_reopens_guards (error_msg : string) (st : State) :
  has_repo_path st = true ->
  let after := snd (handle_git_error error_msg st) in
  (forall set_upstream,
      started_since st (push set_upstream after)
        [if set_upstream then "push_with_upstream" else "push"])
  /\ (forall rebase prune, started_since st (pull rebase prune after) ["pull"])
  /\ started_since st (stage_all after) ["add"]
  /\ started_since st (refresh_status after) ["status"]
  /\ (forall text, PyStr.strip text <> "" -> started_since st (commit text after) ["commit"]).
Proof.
  intros Hpath after.
  assert (Hafter : has_repo_path after = true) by exact Hpath.
  assert (Hempty : forall key, key ∉ active_operations after).
  { intros key. unfold after. simpl. set_solver. }
  assert (Hpool : threadpool after = threadpool st) by reflexivity.
  assert (Hrun : forall operation args key,
             started_since st (execute_git_task operation args (add_operation key after))
                           [operation]).
  { intros. unfold started_since. rewrite execute_with_path; [|exact Hafter].
    simpl. rewrite map_app. reflexivity. }
  repeat match goal with |- _ /\ _ => split end.
  - intros up. unfold push. rewrite decide_False by apply Hempty.
    rewrite Hafter. simpl. apply Hrun.
  - intros r p. unfold pull. rewrite decide_False by apply Hempty.
    rewrite Hafter. simpl. apply Hrun.
  - unfold stage_all. rewrite decide_False by apply Hempty. apply Hrun.
  - unfold refresh_status. rewrite decide_False by apply Hempty. apply Hrun.
  - intros text Htext. apply truthy_iff in Htext.
    unfold commit. rewrite decide_False by apply Hempty. simpl. rewrite Htext. simpl.
    apply Hrun.
Qed.
End ManagerGuards.

Section ManagerRefresh.
Import Py Manager Pool.

(** X12 — [refresh_current_repo].  With a repository chosen and no refresh
    under way, it starts the branches, status and log workers in that
    order, the status worker only when no status refresh is recorded; it
    releases its own name before it returns and leaves the status refresh
    recorded. *)
Theorem refresh_current_repo_effect (st : State) :
  "refresh" ∉ active_operations st ->
  current_repo st = true ->
  has_repo_path st = true ->
  started_since st (refresh_current_repo st)
    (["branches"]
     ++ (if bool_decide ("refresh_status" ∈ active_operations st) then [] else ["status"])
     ++ ["log"])
  /\ active_operations (refresh_current_repo st)
     = active_operations st ∪ {["refresh_status"]}
  /\ "refresh" ∉ active_operations (refresh_current_repo st).
Proof.
  intros Hfree Hcur Hpath.
  assert (Hne : "refresh" <> "refresh_status") by discriminate.
  unfold refresh_current_repo. rewrite decide_False by exact Hfree.
  rewrite Hcur, Hpath. simpl.
  unfold refresh_history, refresh_status, refresh_branches.
  rewrite (execute_with_path "branches") by exact Hpath.
  destruct (decide ("refresh_status" ∈ active_operations st)) as [Hin|Hout].
  - rewrite decide_True by (simpl; set_solver).
    rewrite (execute_with_path "log") by exact Hpath.
    rewrite bool_decide_true by exact Hin.
    unfold started_since. simpl. rewrite !map_app. simpl.
    rewrite <- !app_assoc. simpl.
    split; [reflexivity|]. split; set_solver.
  - rewrite decide_False by (simpl; set_solver).
    rewrite (execute_with_path "status") by exact Hpath.
    rewrite (execute_with_path "log") by exact Hpath.
    rewrite bool_decide_false by exact Hout.
    unfold started_since. simpl. rewrite !map_app. simpl.
    rewrite <- !app_assoc. simpl.
    split; [reflexivity|]. split; set_solver.
Qed.

Lemma active_execute (operation : string) (args : list value) (st : State) :
  active_operations (execute_git_task operation args st) = active_operations st.
Proof. unfold execute_git_task. destruct (has_repo_path st); reflexivity. Qed.

Lemma active_add (key : string) (st : State) :
  active_operations (add_operation key st) = active_operations st ∪ {[key]}.
Proof. reflexivity. Qed.

Lemma active_discard (key : string) (st : State) :
  active_operations (discard_operation key st) = active_operations st ∖ {[key]}.
Proof. reflexivity. Qed.

Lemma refresh_active_subset (st : State) (key : string) :
  key ∈ active_operations (refresh_current_repo st) ->
  key ∈ active_operations st \/ key = "refresh_status".
Proof.
  unfold refresh_current_repo.
  destruct (decide _); [auto|].
  destruct (_ && _); [|auto].
  rewrite active_discard. unfold refresh_history. rewrite active_execute.
  unfold refresh_status, refresh_branches.
  destruct (decide _).
  - rewrite active_execute, active_add. set_solver.
  - rewrite !active_execute, !active_add. rewrite active_execute, active_add. set_solver.
Qed.

(** X13 — the end of a branch switch.  Both slots of the checkout worker
    release the "switch_branch" name, so the next activation is not
    rejected; the error slot shows its conflict box exactly when the
    message has the sentence "Your local changes to the following files
    would be overwritten by checkout", the advice sentence not being
    required there. *)
Theorem switch_branch_released (st : State) :
  (forall result, "switch_branch" ∉ active_operations (on_checkout_result result st))
  /\ (forall error_msg,
        "switch_branch" ∉ active_operations (snd (on_checkout_error error_msg st)))
  /\ (forall error_msg,
        fst (on_checkout_error error_msg st) = true
        <-> PyStr.has_substring CONFLICT_HEAD error_msg).
Proof.
  split; [|split].
  - intros result. unfold on_checkout_result. simpl. set_solver.
  - intros error_msg Hin. unfold on_checkout_error in Hin. simpl in Hin.
    apply refresh_active_subset in Hin as [Hin| Hin]; [|discriminate].
    simpl in Hin. set_solver.
  - intros error_msg. simpl. apply contains_iff.
Qed.

(** X14 — a declined merge.  When the confirmation box is answered "No",
    [merge_branch] leaves the manager exactly as it found it: the name it
    recorded is released and nothing is logged or started. *)
Theorem merge_declined_unchanged (merge_text current_text : string) (st : State) :
  "merge_branch" ∉ active_operations st ->
  merge_text <> "" ->
  merge_text <> current_text ->
  merge_branch merge_text current_text false st = st.
Proof.
  intros Hfree Htext Hne. unfold merge_branch.
  rewrite decide_False by exact Hfree.
  apply truthy_iff in Htext. rewrite Htext. simpl.
  apply String.eqb_neq in Hne. rewrite Hne. simpl.
  destruct st as [cur path active combo pool lg].
  unfold discard_operation, add_operation, set_active. simpl in *.
  f_equal. set_solver.
Qed.
End ManagerRefresh.

Section ManagerBranches.
Import Py Manager Pool.

(** X15 — activating nothing.  A negative index, an index past the end of
    the combo box, or the separator between local and remote names yields
    an empty branch name: the manager is left unchanged, no guard is taken
    and no worker is started. *)
Theorem activation_without_branch (index : Z)
        (current_branches : outcome (list string)) (st : State) :
  (index < 0)%Z
  \/ branch_combo st !! Z.to_nat index = None
  \/ branch_combo st !! Z.to_nat index = Some separator ->
  on_branch_activated index current_branches st = st.
Proof.
  intros Hcase. unfold on_branch_activated.
  destruct (decide _); [reflexivity|].
  destruct (index <? 0)%Z eqn:Hneg; [reflexivity|].
  apply Z.ltb_ge in Hneg.
  destruct Hcase as [Hlt|[Hnone|Hsep]]; [lia| |].
  - rewrite Hnone. reflexivity.
  - rewrite Hsep. reflexivity.
Qed.

Lemma find_local_item (name : string) (locals : list string) (tail : list ComboItem) :
  In name locals ->
  List.find (has_data name) (map local_item locals ++ tail) = Some (local_item name).
Proof.
  induction locals as [|b bs IH]; intros Hin; [contradiction|].
  simpl. unfold has_data at 1. simpl.
  destruct (String.eqb_spec b name) as [->|Hne]; [reflexivity|].
  apply IH. destruct Hin as [->|Hin]; [congruence | exact Hin].
Qed.

Lemma combo_lookup_local (locals remotes : list string) (i : nat) (name : string) :
  locals !! i = Some name ->
  combo_items locals remotes !! i = Some (local_item name).
Proof.
  intros H. unfold combo_items.
  rewrite lookup_app_l by (rewrite length_map; eapply lookup_lt_Some, H).
  change (map local_item locals) with (local_item <$> locals).
  rewrite list_lookup_fmap, H. reflexivity.
Qed.

Lemma combo_lookup_remote (locals remotes : list string) (j : nat) (name : string) :
  remotes !! j = Some name ->
  combo_items locals remotes !! (length locals + 1 + j)%nat = Some (remote_item name).
Proof.
  intros H. unfold combo_items.
  rewrite lookup_app_r by (rewrite length_map; lia).
  rewrite length_map.
  replace (length locals + 1 + j - length locals)%nat with (S j) by lia.
  destruct remotes as [|r rs]; [discriminate|].
  change ((remote_item <$> (r :: rs)) !! j = Some (remote_item name)).
  rewrite list_lookup_fmap, H. reflexivity.
Qed.

(** X16 — activating an entry of a combo box filled by
    [on_branches_result], with no switch under way.  A local entry starts a
    plain checkout of its branch.  A remote entry whose name no local
    branch has starts a checkout of the name with its first segment
    removed: plain when the repository has a local branch of that name,
    [checkout -b] tracking the remote name otherwise.  Either way the
    switch is recorded. *)
Theorem activation_of_listed_branch (locals remotes : list string)
        (current_branches : outcome (list string)) (st : State) :
  branch_combo st = combo_items locals remotes ->
  "switch_branch" ∉ active_operations st ->
  (forall i name,
      locals !! i = Some name -> name <> "" ->
      let after := on_branch_activated (Z.of_nat i) current_branches st in
      threadpool after
      = threadpool st ++
        [{| repo_path := current_repo_path st; operation := "checkout";
            args := [VStr name]; error_slot := to_switch_error |}]
      /\ "switch_branch" ∈ active_operations after)
  /\ (forall j name,
        remotes !! j = Some name -> name <> "" -> ~ In name locals ->
        let after :=
          on_branch_activated (Z.of_nat (length locals + 1 + j)) current_branches st in
        let actual := actual_branch_name name in
        threadpool after
        = threadpool st ++
          [{| repo_path := current_repo_path st; operation := "checkout";
              args := if local_branch_exists current_branches actual
                      then [VStr actual]
                      else [VStr "-b"; VStr actual; VStr name];
              error_slot := to_switch_error |}]
        /\ "switch_branch" ∈ active_operations after).
Proof.
  intros Hcombo Hfree. split.
  - intros i name Hi Hname after. subst after.
    unfold on_branch_activated. rewrite decide_False by exact Hfree.
    destruct (Z.of_nat i <? 0)%Z eqn:Hneg; [apply Z.ltb_lt in Hneg; lia|].
    rewrite Nat2Z.id, Hcombo, (combo_lookup_local _ _ _ _ Hi). simpl.
    apply truthy_iff in Hname. rewrite Hname.
    unfold switch_branch, checkout_worker. rewrite Hname, Hcombo. simpl.
    unfold combo_text_of, combo_items.
    rewrite find_local_item by (apply list_elem_of_In; eapply list_elem_of_lookup_2, Hi).
    simpl. split; [reflexivity | set_solver].
  - intros j name Hj Hname Hnot after actual. subst after actual.
    unfold on_branch_activated. rewrite decide_False by exact Hfree.
    destruct (Z.of_nat _ <? 0)%Z eqn:Hneg; [apply Z.ltb_lt in Hneg; lia|].
    rewrite Nat2Z.id, Hcombo, (combo_lookup_remote _ _ _ _ Hj). simpl.
    apply truthy_iff in Hname. rewrite Hname.
    unfold switch_branch, checkout_worker. rewrite Hname, Hcombo. simpl.
    rewrite combo_text_of_remote;
      [|apply list_elem_of_In; eapply list_elem_of_lookup_2, Hj | exact Hnot].
    rewrite (prefix_app "remote: " name : PyStr.startswith _ _ = true).
    split; [|set_solver].
    destruct (local_branch_exists current_branches (actual_branch_name name)); reflexivity.
Qed.
End ManagerBranches.

Section ManagerDialogs.
Import Py Manager Pool.

(** X17 — what [delete_branch] submits.  With a repository chosen and a
    branch picked among the local branches other than the active one, the
    answer "Cancel" changes nothing; "Yes" starts a safe delete of the
    picked branch and "No" a forced one.  The branch submitted is never the
    active branch. *)
Theorem delete_branch_submission (local_branches : list string) (active picked : string)
        (answer : DeleteAnswer) (st : State) :
  has_repo_path st = true ->
  current_repo st = true ->
  In picked (List.filter (fun b => negb (String.eqb b active)) local_branches) ->
  picked <> "" ->
  picked <> active
  /\ delete_branch local_branches active (Some picked) answer st
     = match answer with
       | AnswerCancel => st
       | AnswerYes =>
           start {| repo_path := current_repo_path st; operation := "delete_branch";
                    args := [VStr picked; VBool false];
                    error_slot := to_delete_branch_error |} st
       | AnswerNo =>
           start {| repo_path := current_repo_path st; operation := "delete_branch";
                    args := [VStr picked; VBool true];
                    error_slot := to_delete_branch_error |} st
       end.
Proof.
  intros Hpath Hcur Hin Hpicked. split.
  - apply List.filter_In in Hin as [_ Hne].
    apply negb_true_iff, String.eqb_neq in Hne. exact Hne.
  - unfold delete_branch. rewrite Hpath, Hcur. simpl.
    destruct (List.filter _ local_branches) as [|b bs]; [contradiction|].
    apply truthy_iff in Hpicked. rewrite Hpicked. simpl.
    destruct answer; reflexivity.
Qed.

(** X18 — the target picked for a cherry-pick.  Once the submission is
    confirmed, the worker started is the cherry-pick of the commit in the
    repository as it stands: the branch picked in the dialog appears in the
    log line only and reaches neither the worker's arguments nor a
    checkout. *)
Theorem cherry_pick_ignores_target (short_hash full_hash : string)
        (branches : list string) (active picked : string) (st : State) :
  "cherry_pick" ∉ active_operations st ->
  current_repo st = true ->
  has_repo_path st = true ->
  List.filter (fun b => negb (String.eqb b active)) branches <> [] ->
  picked <> "" ->
  let after :=
    cherry_pick_commit short_hash full_hash branches active (Some picked) true st in
  threadpool after
  = threadpool st ++
    [{| repo_path := current_repo_path st; operation := "cherry_pick";
        args := [VStr full_hash]; error_slot := to_handle_git_error |}]
  /\ active_operations after = active_operations st ∪ {["cherry_pick"]}.
Proof.
  intros Hfree Hcur Hpath Hothers Hpicked after. subst after.
  unfold cherry_pick_commit. rewrite decide_False by exact Hfree.
  rewrite Hcur. simpl.
  destruct (List.filter _ branches) as [|b bs]; [congruence|].
  apply truthy_iff in Hpicked. rewrite Hpicked. simpl.
  rewrite execute_with_path by exact Hpath. split; reflexivity.
Qed.

(** X19 — from a status row to its diff.  For a status line that is not
    blank, double-clicking the row the worker produced for it starts a diff
    worker for the line's path, except for the rows of the codes [A]
    (staged) and [D] (deleted): those only write a log line. *)
Theorem status_row_diff (line : string) (st : State) :
  PyStr.strip line <> "" ->
  let row := Worker.status_row line in
  let after := show_file_diff (fst (fst row)) (snd (fst row)) st in
  (PyStr.take 2 line = "??"
   \/ (PyStr.take 1 line <> "A" /\ PyStr.take 1 line <> "D") ->
   after = start {| repo_path := current_repo_path st; operation := "diff";
                    args := [VStr (PyStr.drop 3 line)];
                    error_slot := to_diff_error |} st)
  /\ (PyStr.take 2 line <> "??" ->
      PyStr.take 1 line = "A" \/ PyStr.take 1 line = "D" ->
      threadpool after = threadpool st /\ length (log after) = S (length (log st))).
Proof.
  intros _ row after. subst row after. unfold Worker.status_row.
  destruct (PyStr.startswith line "??") eqn:Hq.
  - split; [intros _; reflexivity|].
    intros _ Hcode. apply startswith_first in Hq. rewrite Hq in Hcode.
    destruct Hcode; discriminate.
  - assert (Hpair : PyStr.take 2 line <> "??").
    { intros H. apply startswith_pair in H. congruence. }
    assert (Hlogged : forall status,
               bool_decide (status ∈ [Worker.UNSTAGED; Worker.MODIFIED; Worker.UNTRACKED])
               = false ->
               threadpool (show_file_diff status (PyStr.drop 3 line) st) = threadpool st
               /\ length (log (show_file_diff status (PyStr.drop 3 line) st))
                  = S (length (log st))).
    { intros status Hs. unfold show_file_diff. rewrite Hs. simpl.
      rewrite length_app. simpl. split; [reflexivity | lia]. }
    assert (Hstarted : forall status,
               bool_decide (status ∈ [Worker.UNSTAGED; Worker.MODIFIED; Worker.UNTRACKED])
               = true ->
               show_file_diff status (PyStr.drop 3 line) st
               = start {| repo_path := current_repo_path st; operation := "diff";
                          args := [VStr (PyStr.drop 3 line)];
                          error_slot := to_diff_error |} st).
    { intros status Hs. unfold show_file_diff. rewrite Hs. reflexivity. }
    cbv zeta.
    destruct (String.eqb_spec (PyStr.take 1 line) "A") as [HA|HA]; cbn [fst snd].
    { split.
      - intros [H|[H _]]; contradiction.
      - intros _ _. apply Hlogged. reflexivity. }
    destruct (String.eqb_spec (PyStr.take 1 line) "M") as [HM|HM]; cbn [fst snd].
    { split.
      - intros _. apply Hstarted. reflexivity.
      - intros _ [H|H]; congruence. }
    destruct (String.eqb_spec (PyStr.take 1 line) "D") as [HD|HD]; cbn [fst snd].
    { split.
      - intros [H|[_ H]]; contradiction.
      - intros _ _. apply Hlogged. reflexivity. }
    split.
    + intros _. apply Hstarted. reflexivity.
    + intros _ [H|H]; contradiction.
Qed.
End ManagerDialogs.

(** ** Replacing and splitting *)
Section TextFacts.
Import Text.

Lemma prefix_cons (a b : ascii) (p s : string) :
  String.prefix (String a p) (String b s)
  = if ascii_dec a b then String.prefix p s else false.
Proof. reflexivity. Qed.

Lemma prefix_nil (s : string) : String.prefix "" s = true.
Proof. destruct s; reflexivity. Qed.

(** A prefix of [u ++ q] lies within [u] or runs over its end into [q]. *)
Lemma prefix_straddle (u p q : string) :
  String.prefix p (u +:+ q) = true ->
  String.prefix p u = true
  \/ exists p2, p = u +:+ p2 /\ p2 <> "" /\ String.prefix p2 q = true.
Proof.
  revert p. induction u as [|c u IH]; intros p H.
  - change ("" +:+ q) with q in H. destruct p as [|a p].
    + left. reflexivity.
    + right. exists (String a p). repeat split; [discriminate | exact H].
  - destruct p as [|a p]; [left; reflexivity|].
    rewrite app_cons, prefix_cons in H.
    destruct (ascii_dec a c) as [->|]; [|discriminate].
    destruct (IH p H) as [Hin|(p2 & -> & Hne & Hp2)].
    + left. rewrite prefix_cons. destruct (ascii_dec c c); [exact Hin | congruence].
    + right. exists p2. repeat split; assumption.
Qed.

Lemma occurs_app_cons (c : ascii) (a b : string) : occurs c (a +:+ String c b) = true.
Proof.
  induction a as [|x a IH].
  - change ("" +:+ String c b) with (String c b). simpl.
    rewrite Ascii.eqb_refl. reflexivity.
  - rewrite app_cons. simpl. rewrite IH. apply orb_true_r.
Qed.

Lemma occurs_app (c : ascii) (a b : string) :
  occurs c (a +:+ b) = occurs c a || occurs c b.
Proof.
  induction a as [|x a IH]; [reflexivity|].
  rewrite app_cons. simpl. rewrite IH. apply orb_assoc.
Qed.

Lemma contains_cons_false (needle : string) (c : ascii) (s : string) :
  PyStr.contains needle (String c s) = false ->
  String.prefix needle (String c s) = false /\ PyStr.contains needle s = false.
Proof. rewrite contains_unfold. apply orb_false_iff. Qed.

Lemma replace_from_skip (old new s rest : string) :
  replace_from old new (String.length s) (s +:+ rest) = replace_from old new 0 rest.
Proof.
  induction s as [|c s IH]; [destruct rest; reflexivity|].
  rewrite app_cons. simpl. exact IH.
Qed.

Lemma replace_from_cons (old new : string) (c : ascii) (rest : string) :
  replace_from old new 0 (String c rest)
  = if String.prefix old (String c rest)
    then new +:+ replace_from old new (String.length old - 1) rest
    else String c (replace_from old new 0 rest).
Proof. reflexivity. Qed.

Lemma split_from_cons (sep : string) (c : ascii) (rest : string) :
  split_from sep 0 (String c rest)
  = if String.prefix sep (String c rest)
    then EmptyString :: split_from sep (String.length sep - 1) rest
    else match split_from sep 0 rest with
         | [] => [String c EmptyString]
         | field :: fields => String c field :: fields
         end.
Proof. reflexivity. Qed.

(** Nothing to replace. *)
Lemma replace_absent (old new s : string) :
  PyStr.contains old s = false -> replace old new s = s.
Proof.
  unfold replace. induction s as [|c s IH]; intros H; [reflexivity|].
  apply contains_cons_false in H as [Hp Hs].
  rewrite replace_from_cons, Hp, (IH Hs). reflexivity.
Qed.

(** No occurrence of [old] starts inside [t] when [t] has none and the
    first character of [old] does not come back in [old]. *)
Lemma no_straddling_occurrence (c0 : ascii) (old' t rest : string) :
  occurs c0 old' = false ->
  t <> "" ->
  PyStr.contains (String c0 old') t = false ->
  String.prefix (String c0 old') (t +:+ String c0 old' +:+ rest) = false.
Proof.
  intros Hc0 Ht Hno. apply not_true_iff_false. intros Hp.
  apply prefix_straddle in Hp as [Hin|(p2 & Hold & Hne & Hp2)].
  - destruct t as [|c t]; [congruence|].
    apply contains_cons_false in Hno as [Hno _]. congruence.
  - destruct t as [|c t]; [congruence|].
    destruct p2 as [|x p2]; [congruence|].
    rewrite app_cons, prefix_cons in Hp2.
    destruct (ascii_dec x c0) as [->|]; [|discriminate].
    rewrite app_cons in Hold. injection Hold as _ Hold.
    rewrite Hold, occurs_app_cons in Hc0. discriminate.
Qed.

(** Removing a marker that was appended: the marker goes, what stood
    before it stays, and the replacement goes on after it. *)
Lemma replace_appended (c0 : ascii) (old' t rest : string) :
  occurs c0 old' = false ->
  PyStr.contains (String c0 old') t = false ->
  replace (String c0 old') "" (t +:+ String c0 old' +:+ rest)
  = t +:+ replace (String c0 old') "" rest.
Proof.
  intros Hc0. unfold replace. induction t as [|c t IH]; intros Hno.
  - change ("" +:+ String c0 old' +:+ rest) with (String c0 old' +:+ rest).
    rewrite app_cons, replace_from_cons.
    pose proof (prefix_app (String c0 old') rest) as Hp. rewrite app_cons in Hp.
    rewrite Hp.
    replace (String.length (String c0 old') - 1)%nat with (String.length old')
      by (simpl; lia).
    rewrite replace_from_skip. reflexivity.
  - pose proof (no_straddling_occurrence c0 old' (String c t) rest Hc0
                  ltac:(discriminate) Hno) as Hp.
    apply contains_cons_false in Hno as [_ Hno].
    rewrite (app_cons c t) in Hp. rewrite !(app_cons c t).
    rewrite replace_from_cons, Hp, (IH Hno). reflexivity.
Qed.

Lemma split_from_skip (sep s rest : string) :
  split_from sep (String.length s) (s +:+ rest) = split_from sep 0 rest.
Proof.
  induction s as [|c s IH]; [destruct rest; reflexivity|].
  rewrite app_cons. simpl. exact IH.
Qed.

(** Nothing to split at. *)
Lemma split_absent (sep s : string) :
  PyStr.contains sep s = false -> Text.split sep s = [s].
Proof.
  unfold Text.split. induction s as [|c s IH]; intros H; [reflexivity|].
  apply contains_cons_false in H as [Hp Hs].
  rewrite split_from_cons, Hp, (IH Hs). reflexivity.
Qed.

Lemma pysplit_absent (sep : ascii) (s : string) :
  occurs sep s = false -> PyStr.split sep s = [s].
Proof.
  induction s as [|c s IH]; intros H; [reflexivity|].
  simpl in H. apply orb_false_iff in H as [Hc Hs].
  simpl. rewrite Ascii.eqb_sym, Hc, (IH Hs). reflexivity.
Qed.

Lemma last_field_app (fields : list string) (s : string) :
  last_field (fields ++ [s]) = s.
Proof. unfold last_field. apply List.last_last. Qed.
End TextFacts.

(** ** Classification of failures *)
Section PairFacts.
Import PyStr Text.

(** A two-byte needle that neither occurs in [u] nor starts at its last
    byte does not start anywhere in [u] before [v] either. *)
Lemma pair_skip (x y : ascii) (u v : string) :
  contains (String x (String y "")) (u +:+ String y "") = false ->
  contains (String x (String y "")) (u +:+ v) = contains (String x (String y "")) v.
Proof.
  induction u as [|c u IH]; intros H; [reflexivity|].
  rewrite app_cons in *. apply contains_cons_false in H as [Hp Hrest].
  rewrite contains_unfold, (IH Hrest).
  replace (String.prefix (String x (String y "")) (String c (u +:+ v))) with false;
    [reflexivity|].
  rewrite prefix_cons in *. destruct (ascii_dec x c); [|reflexivity].
  destruct u as [|d u].
  - change ("" +:+ String y "") with (String y "") in Hp.
    rewrite prefix_cons in Hp. destruct (ascii_dec y y); [discriminate|congruence].
  - rewrite app_cons in *. rewrite prefix_cons in *.
    destruct (ascii_dec y d); [|reflexivity].
    rewrite prefix_nil in Hp. discriminate.
Qed.

(** A stretch without the second byte of the needle adds no occurrence,
    unless that byte comes right after it. *)
Lemma pair_free (x y : ascii) (b v : string) :
  occurs y b = false ->
  String.prefix (String y "") v = false ->
  contains (String x (String y "")) (b +:+ v) = contains (String x (String y "")) v.
Proof.
  intros Hb Hv. induction b as [|c b IH]; [reflexivity|].
  simpl in Hb. apply orb_false_iff in Hb as [Hc Hb].
  rewrite app_cons, contains_unfold, (IH Hb).
  replace (String.prefix (String x (String y "")) (String c (b +:+ v))) with false;
    [reflexivity|].
  rewrite prefix_cons. destruct (ascii_dec x c); [|reflexivity].
  destruct b as [|d b].
  - change ("" +:+ v) with v. symmetry. exact Hv.
  - rewrite app_cons, prefix_cons. destruct (ascii_dec y d) as [->|]; [|reflexivity].
    simpl in Hb. rewrite Ascii.eqb_refl in Hb. discriminate.
Qed.

(** What occurs in a part of [t] occurs in [t]. *)
Lemma has_substring_part (needle before after t : string) :
  has_substring (before +:+ needle +:+ after) t -> has_substring needle t.
Proof.
  intros (l & r & ->). exists (l +:+ before), (after +:+ r).
  rewrite !app_assoc_str. reflexivity.
Qed.

(** The hint the worker puts in place of a push failure has no letter [s]
    followed by a space, when the branch name has no space. *)
Lemma hint_has_no_s_space (current_branch : string) :
  occurs " " current_branch = false ->
  contains "s " (Worker.no_upstream_message current_branch) = false.
Proof.
  intros Hfree. unfold Worker.no_upstream_message.
  rewrite (pair_skip "s" " " "分支 '") by (vm_compute; reflexivity).
  rewrite (pair_free "s" " " current_branch) by (exact Hfree || reflexivity).
  match goal with
  | |- contains _ (?a +:+ ?b +:+ ?c +:+ current_branch +:+ ?z) = _ =>
      change (a +:+ b +:+ c +:+ current_branch +:+ z)
        with ((a +:+ b +:+ c) +:+ current_branch +:+ z)
  end.
  rewrite (pair_skip "s" " ") by (vm_compute; reflexivity).
  rewrite (pair_free "s" " " current_branch) by (exact Hfree || reflexivity).
  vm_compute. reflexivity.
Qed.
End PairFacts.

Section Classification.
Import Py Git Worker Manager.

(** C4, as the code has it — classification of a failure message.  In
    [handle_git_error] the order is fixed: a message with both sentences
    git prints on a refused checkout is a checkout conflict, also when it
    has the upstream phrase; any other message with "has no upstream
    branch" in it is a missing upstream, whatever else it holds, the first
    conflict sentence included; every other message gets the generic box.
    The error slot of a checkout tests the first conflict sentence alone.
    In the worker's plain push the upstream phrase is the only test: a
    GitCommandError with the phrase is delivered as a hint naming the
    active branch, and for a branch name without a space that hint holds
    none of the phrases, so [handle_git_error] gives it the generic box. *)
Theorem classification_precedence :
  let conflict_head :=
    "Your local changes to the following files would be overwritten by checkout" in
  let conflict_advice :=
    "Please commit your changes or stash them before you switch branches" in
  let upstream := "has no upstream branch" in
  (forall (st : State) (msg : string),
      let kind := fst (handle_git_error msg st) in
      let refused :=
        PyStr.has_substring conflict_head msg /\ PyStr.has_substring conflict_advice msg in
      (kind = CheckoutConflict <-> refused)
      /\ (kind = NoUpstreamBranch <-> ~ refused /\ PyStr.has_substring upstream msg)
      /\ (kind = GenericFailure <-> ~ refused /\ ~ PyStr.has_substring upstream msg))
  /\ (forall (st : State) (msg : string),
        fst (on_checkout_error msg st) = true <-> PyStr.has_substring conflict_head msg)
  /\ (forall (W : Type) (B : Backend W) (format_1f : Q -> string)
             (repo_path : option string) (args : list value)
             (w w1 w2 w3 w4 w5 w6 : W) (out1 out2 text current_branch : string)
             (callbacks : list Progress.Callback),
        Repo B repo_path w = (Ok tt, w1) ->
        git B "config" [VStr "http.lowSpeedLimit"; VStr "1000"] w1 = (Ok out1, w2) ->
        git B "config" [VStr "http.lowSpeedTime"; VStr "30"] w2 = (Ok out2, w3) ->
        remote B "origin" w3 = (Ok tt, w4) ->
        Git.push B {| refspec := None; set_upstream := false |} w4
        = ((callbacks, Raise (GitCommandError text)), w5) ->
        PyStr.has_substring upstream text ->
        active_branch_name B w5 = (Ok current_branch, w6) ->
        exists hint,
          run B format_1f repo_path "push" args {| world := w; emitted := [] |}
          = (Ok tt,
             {| world := w6;
                emitted :=
                  map ProgressSignal
                      (omap id (Progress.emissions format_1f Progress.init callbacks))
                  ++ [Error hint] |})
          /\ hint = "分支 '" +:+ current_branch +:+ "' 没有设置上游分支。"
                    +:+ String PyStr.LF "" +:+
                    "请使用 'git push --set-upstream origin " +:+ current_branch +:+ "' "
                    +:+ "命令设置上游分支，或者在界面中选择相应选项。"
          /\ (Text.occurs " " current_branch = false ->
              forall st, fst (handle_git_error hint st) = GenericFailure)).
Proof.
  cbv zeta. split; [|split].
  - intros st msg. cbn [fst handle_git_error]. unfold classify.
    pose proof (indicates_checkout_conflict_iff msg) as Hrefused.
    unfold CONFLICT_HEAD, CONFLICT_ADVICE in Hrefused.
    pose proof (contains_iff NO_UPSTREAM msg) as Hup. unfold NO_UPSTREAM in *.
    fold (PyStr.has_substring "has no upstream branch" msg) in Hup.
    destruct (indicates_checkout_conflict msg).
    + assert (Hyes := proj1 Hrefused eq_refl).
      split; [tauto|]. split; split; (discriminate || tauto).
    + assert (Hnot : ~ (PyStr.has_substring
                          "Your local changes to the following files would be overwritten by checkout"
                          msg
                        /\ PyStr.has_substring
                             "Please commit your changes or stash them before you switch branches"
                             msg))
        by (intros H; apply Hrefused in H; discriminate).
      destruct (PyStr.contains "has no upstream branch" msg).
      * assert (Hyes := proj1 Hup eq_refl).
        split; [split; [discriminate|tauto]|].
        split; split; (discriminate || tauto).
      * assert (Hno : ~ PyStr.has_substring "has no upstream branch" msg)
          by (intros H; apply Hup in H; discriminate).
        split; [split; [discriminate|tauto]|].
        split; split; (discriminate || tauto).
  - intros st msg. cbn [fst on_checkout_error]. apply contains_iff.
  - intros W B format_1f repo_path args w w1 w2 w3 w4 w5 w6 out1 out2 text
           current_branch callbacks Hrepo Hc1 Hc2 Hremote Hpush Hphrase Hactive.
    exists (no_upstream_message current_branch).
    split; [|split; [reflexivity|]].
    + apply (push_hint_run B format_1f repo_path args w w1 w2 w3 w4 w5 w6 out1 out2
               text current_branch callbacks); try assumption.
      apply contains_iff. exact Hphrase.
    + intros Hfree st. cbn [fst handle_git_error]. unfold classify.
      pose proof (hint_has_no_s_space current_branch Hfree) as Hnone.
      assert (Hlacks : forall before after,
                 PyStr.contains (before +:+ "s " +:+ after)
                                (no_upstream_message current_branch) = false).
      { intros before after. apply not_true_iff_false. intros H.
        apply contains_iff in H. apply has_substring_part in H.
        apply contains_iff in H. congruence. }
      assert (Hhead : PyStr.contains CONFLICT_HEAD (no_upstream_message current_branch)
                      = false)
        by exact (Hlacks "Your local change"
                         "to the following files would be overwritten by checkout").
      assert (Hup : PyStr.contains NO_UPSTREAM (no_upstream_message current_branch)
                    = false)
        by exact (Hlacks "ha" "no upstream branch").
      unfold indicates_checkout_conflict. rewrite Hhead, Hup. reflexivity.
Qed.
End Classification.

Example classify_checkout_refused :
  Manager.classify Samples.checkout_refused = Manager.CheckoutConflict.
Proof. vm_compute. reflexivity. Qed.

Example classify_both :
  Manager.classify
    (Samples.checkout_refused +:+ " fatal: The current branch topic has no upstream branch.")
  = Manager.CheckoutConflict.
Proof. vm_compute. reflexivity. Qed.

Lemma classification_precedence_witness :
  fst (Manager.handle_git_error
         "fatal: The current branch topic has no upstream branch." Samples.repo_selected)
  = Manager.NoUpstreamBranch
  /\ exists journal,
       Samples.run_scripted "push" []
       = (Py.Ok tt,
          {| Worker.world := journal;
             Worker.emitted := [Worker.Error (Worker.no_upstream_message "topic")] |})
       /\ fst (Manager.handle_git_error (Worker.no_upstream_message "topic")
                 Samples.repo_selected)
          = Manager.GenericFailure.
Proof.
  destruct classification_precedence as (Hkinds & _ & Hpush).
  assert (Hphrase : PyStr.has_substring "has no upstream branch"
                      "fatal: The current branch topic has no upstream branch.")
    by (exists "fatal: The current branch topic ", "."; reflexivity).
  split.
  - apply (Hkinds Samples.repo_selected). split; [|exact Hphrase].
    intros [H _]. apply contains_iff in H. discriminate H.
  - destruct (Hpush Samples.Journal Samples.scripted Progress.format_1f_exact
                (Some "/work/repo") [] [] _ _ _ _ _ _ _ _ _ "topic" _
                eq_refl eq_refl eq_refl eq_refl eq_refl Hphrase eq_refl)
      as (hint & Hrun & Hhint & Hgeneric).
    eexists. split.
    + rewrite Hhint in Hrun. exact Hrun.
    + rewrite Hhint in Hgeneric. apply Hgeneric. reflexivity.
Defined.

(** C4 as stated fails on the conflict sentence.  A message that says
    local changes would be overwritten by checkout and has the upstream
    phrase is classified as a missing upstream, and the same sentence
    alone gets the generic box: [handle_git_error] wants the advice
    sentence too, which the checkout slot does not. *)
Lemma conflict_sentence_alone :
  let sentence :=
    "error: Your local changes to the following files would be overwritten by checkout: a.txt"
  in
  fst (Manager.handle_git_error
         (sentence +:+ "; fatal: The current branch topic has no upstream branch.")
         Samples.repo_selected)
  = Manager.NoUpstreamBranch
  /\ fst (Manager.handle_git_error sentence Samples.repo_selected)
     = Manager.GenericFailure
  /\ fst (Manager.on_checkout_error sentence Samples.repo_selected) = true.
Proof. cbv zeta. repeat split; vm_compute; reflexivity. Qed.


(** ** The clone dialog *)
Section CloneDialogFacts.
Import Dialogs.

Lemma last_segment (base segment : string) :
  Text.occurs PyStr.SLASH segment = false ->
  Text.last_field (PyStr.split PyStr.SLASH (base +:+ "/" +:+ segment)) = segment.
Proof.
  intros H. change ("/" +:+ segment) with (String PyStr.SLASH segment).
  rewrite split_app, (pysplit_absent _ _ H). apply last_field_app.
Qed.

(** X20 — the directory name derived from a repository URL.  The name is
    the part of the URL after its last slash with [.git] taken out: for a
    last segment [name.git], or [name] alone, where [name] has no [.git] in
    it, it is [name]; a URL that ends with a slash gives the empty name; and
    [.git] is taken out wherever it stands in the segment, not only at its
    end. *)
Theorem repo_name_of_url (base name : string) :
  Text.occurs PyStr.SLASH name = false ->
  PyStr.contains ".git" name = false ->
  repo_name (base +:+ "/" +:+ name +:+ ".git") = name
  /\ repo_name (base +:+ "/" +:+ name) = name
  /\ repo_name (name +:+ ".git") = name
  /\ repo_name (base +:+ "/") = ""
  /\ (forall tail, PyStr.contains ".git" tail = false ->
        Text.occurs PyStr.SLASH tail = false ->
        repo_name (base +:+ "/" +:+ name +:+ ".git" +:+ tail) = name +:+ tail).
Proof.
  intros Hslash Hgit.
  assert (Hsuffix : forall tail,
             Text.occurs PyStr.SLASH tail = false ->
             Text.occurs PyStr.SLASH (name +:+ ".git" +:+ tail) = false).
  { intros tail Ht. rewrite !occurs_app, Hslash, Ht. reflexivity. }
  unfold repo_name. repeat split.
  - rewrite (last_segment base (name +:+ ".git")).
    + rewrite <- (app_nil_r_str ".git") at 2.
      rewrite (replace_appended "." "git" name "" eq_refl Hgit). apply app_nil_r_str.
    + rewrite <- (app_nil_r_str ".git"). apply Hsuffix. reflexivity.
  - rewrite (last_segment base name Hslash). apply replace_absent, Hgit.
  - rewrite pysplit_absent.
    + unfold Text.last_field. simpl List.last.
      rewrite <- (app_nil_r_str ".git") at 2.
      rewrite (replace_appended "." "git" name "" eq_refl Hgit). apply app_nil_r_str.
    + rewrite <- (app_nil_r_str ".git"). apply Hsuffix. reflexivity.
  - rewrite <- (app_nil_r_str "/"), (last_segment base "" eq_refl). reflexivity.
  - intros tail Htail Hts.
    rewrite (last_segment base (name +:+ ".git" +:+ tail) (Hsuffix tail Hts)).
    rewrite (replace_appended "." "git" name tail eq_refl Hgit).
    rewrite (replace_absent _ _ _ Htail). reflexivity.
Qed.

Example repo_name_github_pages :
  repo_name "https://github.com/user/user.github.io.git" = "userhub.io".
Proof. vm_compute. reflexivity. Qed.

Variable path_exists : string -> bool.
Variable path_join : string -> string -> string.

(** X21 — what [CloneDialog.accept] lets through.  The dialog is accepted
    exactly when the URL and the local path are not blank, the local path
    exists and the target directory either does not exist or the user
    agreed to clone into it; the values handed over are the stripped
    texts and the local path joined with the name derived from the URL.  A
    blank URL is reported before anything else is looked at. *)
Theorem accept_conditions (url_input path_input : string) (overwrite : bool) :
  (forall repo_url local_path target,
      accept path_exists path_join url_input path_input overwrite
      = Accepted repo_url local_path target
      <-> repo_url = PyStr.strip url_input /\ repo_url <> ""
          /\ local_path = PyStr.strip path_input /\ local_path <> ""
          /\ path_exists local_path = true
          /\ target = path_join local_path (repo_name repo_url)
          /\ (path_exists target = true -> overwrite = true))
  /\ (PyStr.strip url_input = "" ->
      accept path_exists path_join url_input path_input overwrite
      = Warned "请输入仓库URL").
Proof.
  split.
  - intros repo_url local_path target. unfold accept.
    destruct (PyStr.strip url_input) as [|a u] eqn:Hu; simpl.
    { split; [discriminate | intros (-> & H & _); congruence]. }
    destruct (PyStr.strip path_input) as [|b l] eqn:Hl; simpl.
    { split; [discriminate | intros (_ & _ & -> & H & _); congruence]. }
    destruct (path_exists (String b l)) eqn:He; simpl.
    2:{ split; [discriminate | intros (_ & _ & -> & _ & H & _); congruence]. }
    destruct (path_exists (path_join (String b l) (repo_name (String a u)))) eqn:Ht;
      destruct overwrite; simpl.
    + split.
      * intros H. injection H as <- <- <-. repeat split; auto; discriminate.
      * intros (-> & _ & -> & _ & _ & -> & _). reflexivity.
    + split; [discriminate|].
      intros (-> & _ & -> & _ & _ & -> & H). rewrite Ht in H.
      specialize (H eq_refl). discriminate.
    + split.
      * intros H. injection H as <- <- <-. repeat split; auto; try discriminate.
      * intros (-> & _ & -> & _ & _ & -> & _). reflexivity.
    + split.
      * intros H. injection H as <- <- <-. repeat split; auto; try discriminate.
        rewrite Ht. discriminate.
      * intros (-> & _ & -> & _ & _ & -> & _). reflexivity.
  - intros Hu. unfold accept. rewrite Hu. reflexivity.
Qed.
End CloneDialogFacts.

(** ** The diff dialog *)
Section DiffDialogFacts.
Import Dialogs.

Lemma join_cons (sep p q : string) (rest : list string) :
  PyStr.join sep (p :: q :: rest) = p +:+ sep +:+ PyStr.join sep (q :: rest).
Proof. reflexivity. Qed.

Lemma join_app (sep : string) (l1 l2 : list string) :
  l1 <> [] -> l2 <> [] ->
  PyStr.join sep (l1 ++ l2) = PyStr.join sep l1 +:+ sep +:+ PyStr.join sep l2.
Proof.
  intros H1 H2. induction l1 as [|p l1 IH]; [congruence|].
  destruct l1 as [|q l1].
  - destruct l2 as [|x l2]; [congruence|]. reflexivity.
  - change ((p :: q :: l1) ++ l2) with (p :: q :: (l1 ++ l2)).
    rewrite !join_cons. change (q :: l1 ++ l2) with ((q :: l1) ++ l2).
    rewrite IH by discriminate. rewrite !app_assoc_str. reflexivity.
Qed.

Lemma map_nonempty {A C} (f : A -> C) (l : list A) : l <> [] -> map f l <> [].
Proof. destruct l; [congruence | discriminate]. Qed.

(** X22 — [format_diff_content].  The text is formatted line by line and
    the lines are joined by [<br>]: formatting two texts joined by a
    newline gives the two formatted texts joined by [<br>].  The file
    headers [+++ ...] and [--- ...] and every line that starts with none of
    [+], [-], [@] are passed through unchanged, and so is the empty text. *)
Theorem format_diff_line_by_line :
  (forall a b : string,
      format_diff_content (a +:+ String PyStr.LF b)
      = format_diff_content a +:+ "<br>" +:+ format_diff_content b)
  /\ (forall rest, format_line ("+++" +:+ rest) = "+++" +:+ rest)
  /\ (forall rest, format_line ("---" +:+ rest) = "---" +:+ rest)
  /\ (forall line,
        PyStr.startswith line "+" = false ->
        PyStr.startswith line "-" = false ->
        PyStr.startswith line "@" = false ->
        format_line line = line)
  /\ format_diff_content "" = "".
Proof.
  split; [|split; [|split; [|split]]].
  - intros a b. unfold format_diff_content.
    rewrite split_app, map_app.
    apply join_app; apply map_nonempty, split_nonempty.
  - intros rest. unfold format_line.
    rewrite (prefix_app "+" ("++" +:+ rest) : PyStr.startswith ("+++" +:+ rest) "+" = true).
    rewrite (prefix_app "+++" rest : PyStr.startswith ("+++" +:+ rest) "+++" = true).
    reflexivity.
  - intros rest. unfold format_line.
    rewrite (prefix_app "-" ("--" +:+ rest) : PyStr.startswith ("---" +:+ rest) "-" = true).
    rewrite (prefix_app "---" rest : PyStr.startswith ("---" +:+ rest) "---" = true).
    reflexivity.
  - intros line Hp Hm Ha. unfold format_line. rewrite Hp, Hm, Ha. reflexivity.
  - reflexivity.
Qed.
End DiffDialogFacts.

(** ** Cloning *)
Section CloneFacts.
Import Py Worker.

(** What the worker reports is read back by the slot as the path: the
    text after the last [": "]. *)
Lemma cloned_path_round_trip (clone_target_path : string) :
  PyStr.contains ": " clone_target_path = false ->
  Clone.cloned_path (Clone.CLONED +:+ clone_target_path) = clone_target_path.
Proof.
  intros H. unfold Clone.cloned_path, Clone.CLONED, Text.split.
  rewrite !app_cons. change ("" +:+ clone_target_path) with clone_target_path.
  rewrite !split_from_cons. simpl String.prefix. rewrite prefix_nil. cbv iota.
  change (String.length ": " - 1)%nat with (String.length " ").
  change (String " " clone_target_path) with (" " +:+ clone_target_path).
  rewrite split_from_skip.
  change (Text.split_from ": " 0 clone_target_path) with (Text.split ": " clone_target_path).
  rewrite (split_absent _ _ H). reflexivity.
Qed.
End CloneFacts.

(** ** The registry under [save_config] and [update_repo_list] *)
Section RegistryFacts.
Import Py Manager Repos.

Lemma active_save (written : outcome unit) (r : Registry) :
  active_operations (manager (save_config written r)) = active_operations (manager r).
Proof. destruct written; reflexivity. Qed.

Lemma paths_save (written : outcome unit) (r : Registry) :
  repo_paths (save_config written r) = repo_paths r.
Proof. destruct written; reflexivity. Qed.

Lemma item_save (written : outcome unit) (r : Registry) :
  current_item (save_config written r) = current_item r.
Proof. destruct written; reflexivity. Qed.

Lemma active_update (r : Registry) :
  active_operations (manager (update_repo_list r)) = active_operations (manager r).
Proof. unfold update_repo_list. destruct (current_item r); reflexivity. Qed.

Lemma paths_update (r : Registry) : repo_paths (update_repo_list r) = repo_paths r.
Proof. unfold update_repo_list. destruct (current_item r); reflexivity. Qed.

Lemma threadpool_update (r : Registry) :
  threadpool (manager (update_repo_list r)) = threadpool (manager r).
Proof. unfold update_repo_list. destruct (current_item r); reflexivity. Qed.

Lemma item_update (r : Registry) : current_item (update_repo_list r) = None.
Proof. unfold update_repo_list. destruct (current_item r) eqn:E; [reflexivity | exact E]. Qed.
End RegistryFacts.

Section CloneRun.
Import Py Worker.
Context {W : Type}.
Variable clone_from :
  string -> string -> W -> (list Progress.Callback * outcome unit) * W.
Variable format_1f : Q -> string.

(** X23 — a clone from the worker to the list of repositories.  The run
    emits the throttled progress and then one terminal signal: the error
    text when [clone_from] raises, the success text when it returns.  When
    the target path has no [": "] in it, the slot reads exactly that path
    back from the success text and appends it to the repository paths
    unless it is there already; either way it releases "clone_repo". *)
Theorem clone_reaches_registry (repo_url clone_target_path : string) (w w1 : W)
        (callbacks : list Progress.Callback) (o : outcome unit) :
  clone_from repo_url clone_target_path w = ((callbacks, o), w1) ->
  let progress :=
    map ProgressSignal (omap id (Progress.emissions format_1f Progress.init callbacks)) in
  let ran := Clone.run clone_from format_1f repo_url clone_target_path
               {| world := w; emitted := [] |} in
  (forall e, o = Raise e ->
     ran = (Ok tt, {| world := w1; emitted := progress ++ [Error (str_exn e)] |}))
  /\ (o = Ok tt ->
      PyStr.contains ": " clone_target_path = false ->
      exists result,
        ran = (Ok tt, {| world := w1; emitted := progress ++ [Result (PText result)] |})
        /\ Clone.cloned_path result = clone_target_path
        /\ forall written r,
             let after := Repos.on_clone_success result written r in
             (clone_target_path ∉ Repos.repo_paths r ->
              Repos.repo_paths after = Repos.repo_paths r ++ [clone_target_path])
             /\ (clone_target_path ∈ Repos.repo_paths r ->
                 Repos.repo_paths after = Repos.repo_paths r)
             /\ "clone_repo" ∉ Manager.active_operations (Repos.manager after)).
Proof.
  intros Hclone progress ran.
  pose proof (with_progress_run format_1f _ {| world := w; emitted := [] |} _ _ _ Hclone)
    as Hwp. simpl in Hwp. fold progress in Hwp.
  split.
  - intros e ->. subst ran. unfold Clone.run, try_except.
    rewrite (bind_raise _ _ _ _ e Hwp). reflexivity.
  - intros -> Hpath. exists (Clone.CLONED +:+ clone_target_path).
    split; [|split].
    + subst ran. unfold Clone.run, try_except.
      rewrite (bind_ok _ _ _ _ tt Hwp). reflexivity.
    + apply cloned_path_round_trip, Hpath.
    + intros written r after. subst after. unfold Repos.on_clone_success.
      rewrite (cloned_path_round_trip _ Hpath). cbv zeta.
      change (Repos.repo_paths (Repos.on_manager (Manager.log_message _) r))
        with (Repos.repo_paths r).
      repeat split.
      * intros Hnew. rewrite bool_decide_false by exact Hnew.
        cbn [Repos.repo_paths Repos.on_manager].
        rewrite paths_update, paths_save. reflexivity.
      * intros Hold. rewrite bool_decide_true by exact Hold. reflexivity.
      * destruct (bool_decide _); [simpl; set_solver|].
        cbn [Repos.manager Repos.on_manager].
        unfold Manager.discard_operation. simpl. set_solver.
Qed.
End CloneRun.

Example cloned_path_with_colon :
  Clone.cloned_path (Clone.CLONED +:+ "/data/notes: draft/repo") = "draft/repo".
Proof. vm_compute. reflexivity. Qed.

(** ** Buttons *)
Section ButtonFacts.
Import Buttons.

(** X24 — the loading marker of a button.  For a button whose text has no
    marker in it, switching loading on and off again gives the text back,
    also after loading was switched on twice; switching it off on a button
    that is not loading leaves the text as it is.  In each case the button
    ends up enabled, whatever it was before. *)
Theorem button_loading_round_trip (was_enabled : bool) (label : string) :
  PyStr.contains LOADING label = false ->
  let button := {| enabled := was_enabled; text := label |} in
  let restored := {| enabled := true; text := label |} in
  set_button_loading false (set_button_loading true button) = restored
  /\ set_button_loading false
       (set_button_loading true (set_button_loading true button)) = restored
  /\ set_button_loading false button = restored.
Proof.
  intros Hno button restored. subst button restored.
  assert (Hfree : Text.occurs " " "中..." = false) by reflexivity.
  assert (Hend : Text.replace LOADING "" LOADING = "").
  { exact (replace_appended " " "中..." "" "" Hfree eq_refl). }
  assert (Hone : Text.replace LOADING "" (label +:+ LOADING) = label).
  { pose proof (replace_appended " " "中..." label "" Hfree Hno) as H.
    rewrite app_nil_r_str in H. unfold LOADING. rewrite H.
    apply app_nil_r_str. }
  assert (Htwo : Text.replace LOADING "" ((label +:+ LOADING) +:+ LOADING) = label).
  { rewrite app_assoc_str.
    pose proof (replace_appended " " "中..." label LOADING Hfree Hno) as H.
    unfold LOADING in *. rewrite H, Hend. apply app_nil_r_str. }
  unfold set_button_loading. simpl.
  rewrite Hone, Htwo, (replace_absent _ _ _ Hno). repeat split.
Qed.
End ButtonFacts.

(** ** The choice of the current repository *)
Section RepoSelection.
Import Py Manager Pool Repos.

Lemma refresh_pool (st : State) :
  "refresh" ∉ active_operations st ->
  current_repo st = true ->
  has_repo_path st = true ->
  let worker operation :=
    {| repo_path := current_repo_path st; operation := operation; args := [];
       error_slot := to_handle_git_error |} in
  threadpool (refresh_current_repo st)
  = threadpool st
    ++ [worker "branches"]
    ++ (if bool_decide ("refresh_status" ∈ active_operations st)
        then [] else [worker "status"])
    ++ [worker "log"].
Proof.
  intros Hfree Hcur Hpath worker. subst worker.
  unfold refresh_current_repo. rewrite decide_False by exact Hfree.
  rewrite Hcur, Hpath. simpl.
  unfold refresh_history, refresh_status, refresh_branches.
  rewrite (execute_with_path "branches") by exact Hpath.
  destruct (decide ("refresh_status" ∈ active_operations st)) as [Hin|Hout].
  - rewrite decide_True by (simpl; set_solver).
    rewrite (execute_with_path "log") by exact Hpath.
    rewrite bool_decide_true by exact Hin.
    simpl. rewrite <- !app_assoc. reflexivity.
  - rewrite decide_False by (simpl; set_solver).
    rewrite (execute_with_path "status") by exact Hpath.
    rewrite (execute_with_path "log") by exact Hpath.
    rewrite bool_decide_false by exact Hout.
    simpl. rewrite <- !app_assoc. reflexivity.
Qed.

(** X25 — [on_repo_selected].  An item whose path exists and opens becomes
    the current repository, and the workers started for it (branches,
    status unless a status refresh is recorded, log) all carry its path;
    with a refresh under way the repository is switched but no worker
    starts.  An item whose path is gone or does not open only adds a log
    line: the repository chosen before stays the current one.  Without an
    item the current repository is cleared, and from then on no task
    starts a worker. *)
Theorem repo_selection (st : State) :
  (forall path,
     PyStr.truthy path = true ->
     let after := on_repo_selected (Some path) true (Ok tt) st in
     current_repo after = true
     /\ current_repo_path after = Some path
     /\ ("refresh" ∈ active_operations st -> threadpool after = threadpool st)
     /\ ("refresh" ∉ active_operations st ->
         exists started,
           threadpool after = threadpool st ++ started
           /\ Forall (fun w => repo_path w = Some path) started
           /\ map operation started
              = ["branches"]
                ++ (if bool_decide ("refresh_status" ∈ active_operations st)
                    then [] else ["status"])
                ++ ["log"]))
  /\ (forall path path_exists opened,
        path_exists = false \/ (exists e, opened = Raise e) ->
        let after := on_repo_selected (Some path) path_exists opened st in
        current_repo after = current_repo st
        /\ current_repo_path after = current_repo_path st
        /\ threadpool after = threadpool st
        /\ branch_combo after = branch_combo st
        /\ exists line, log after = log st ++ [line])
  /\ (forall path_exists opened,
        let after := on_repo_selected None path_exists opened st in
        current_repo after = false
        /\ current_repo_path after = None
        /\ branch_combo after = []
        /\ forall operation args,
             threadpool (execute_git_task operation args after) = threadpool st).
Proof.
  split; [|split].
  - intros path Htruthy after. subst after. unfold on_repo_selected.
    set (chosen := set_current true (Some path) st).
    assert (Hpath : has_repo_path chosen = true) by exact Htruthy.
    destruct (decide ("refresh" ∈ active_operations st)) as [Hbusy|Hfree].
    + assert (Hsame : refresh_current_repo chosen = chosen).
      { unfold refresh_current_repo. rewrite decide_True by exact Hbusy. reflexivity. }
      rewrite Hsame. simpl.
      split; [reflexivity|]. split; [reflexivity|]. split; [reflexivity|].
      intros Hfree. contradiction.
    + pose proof (refresh_pool chosen Hfree eq_refl Hpath) as Hpool.
      cbv zeta in Hpool.
      assert (Hkeep : current_repo (refresh_current_repo chosen) = true
                      /\ current_repo_path (refresh_current_repo chosen) = Some path).
      { unfold refresh_current_repo. rewrite decide_False by exact Hfree.
        change (current_repo chosen) with true. rewrite Hpath. simpl.
        unfold refresh_history, refresh_status, refresh_branches.
        rewrite (execute_with_path "branches") by exact Hpath.
        destruct (decide _).
        - rewrite (execute_with_path "log") by exact Hpath. split; reflexivity.
        - rewrite (execute_with_path "status") by exact Hpath.
          rewrite (execute_with_path "log") by exact Hpath. split; reflexivity. }
      destruct Hkeep as [Hrepo Hcurrent].
      split; [exact Hrepo|]. split; [exact Hcurrent|].
      split; [tauto|]. intros _.
      eexists. split; [exact Hpool|].
      change (active_operations chosen) with (active_operations st).
      change (current_repo_path chosen) with (Some path).
      destruct (bool_decide _); simpl; split; try reflexivity;
        repeat constructor.
  - intros path path_exists opened Hwhy after. subst after.
    unfold on_repo_selected.
    destruct path_exists.
    + destruct Hwhy as [Hgone|[e ->]]; [discriminate|].
      simpl. do 4 (split; [reflexivity|]). eexists. reflexivity.
    + simpl. do 4 (split; [reflexivity|]). eexists. reflexivity.
  - intros path_exists opened after. subst after.
    do 3 (split; [reflexivity|]). intros operation args.
    rewrite execute_without_path by reflexivity. reflexivity.
Qed.
End RepoSelection.

(** ** The list of repositories *)
Section RepoList.
Import Py Manager Repos.
Variable basename : string -> string.

Lemma NoDup_snoc (p : string) (l : list string) :
  NoDup l -> p ∉ l -> NoDup (l ++ [p]).
Proof.
  intros Hl Hp. apply NoDup_app. split; [exact Hl|]. split.
  - intros x Hx Hin. apply list_elem_of_singleton in Hin. subst x. exact (Hp Hx).
  - apply NoDup_singleton.
Qed.

(** X26 — the repository paths stay free of duplicates.  [add_repo] and
    [on_clone_success] each leave the list as it is or append one path
    that was not in it, so a list without duplicates stays so and no path
    is lost; both give back the set of running operations they found
    (the clone slot with "clone_repo" taken out). *)
Theorem repo_paths_stay_distinct (r : Registry) :
  NoDup (repo_paths r) ->
  (forall directory opened written,
     let after := add_repo basename directory opened written r in
     NoDup (repo_paths after)
     /\ (repo_paths after = repo_paths r
         \/ exists p, opened = WorkingDir p /\ (p ∉ repo_paths r)
                      /\ repo_paths after = repo_paths r ++ [p])
     /\ active_operations (manager after) = active_operations (manager r))
  /\ (forall result written,
        let after := on_clone_success result written r in
        NoDup (repo_paths after)
        /\ (repo_paths after = repo_paths r
            \/ ((Clone.cloned_path result ∉ repo_paths r)
                /\ repo_paths after = repo_paths r ++ [Clone.cloned_path result]))
        /\ active_operations (manager after)
           = active_operations (manager r) ∖ {["clone_repo"]}).
Proof.
  intros Hdistinct. split.
  - intros directory opened written after. subst after. unfold add_repo.
    destruct (decide _) as [Hbusy|Hfree]; [split; [exact Hdistinct|split; [left|]; reflexivity]|].
    destruct (PyStr.truthy directory);
      [|simpl; split; [exact Hdistinct|split; [left; reflexivity|set_solver]]].
    destruct opened as [p| |text];
      try (simpl; split; [exact Hdistinct|split; [left; reflexivity|set_solver]]).
    change (repo_paths (on_manager (add_operation "add_repo") r)) with (repo_paths r).
    destruct (bool_decide_reflect (p ∈ repo_paths r)) as [Hin|Hout].
    + simpl. split; [exact Hdistinct|split; [left; reflexivity|set_solver]].
    + cbn [repo_paths manager on_manager].
      unfold discard_operation, log_message, set_active.
      cbn [active_operations].
      rewrite paths_update, active_update, paths_save, active_save. simpl.
      split; [apply NoDup_snoc; assumption|].
      split; [right; exists p; repeat split; assumption|set_solver].
  - intros result written after. subst after. unfold on_clone_success.
    cbv zeta.
    change (repo_paths (on_manager (log_message result) r)) with (repo_paths r).
    destruct (bool_decide_reflect (Clone.cloned_path result ∈ repo_paths r)) as [Hin|Hout].
    + simpl. split; [exact Hdistinct|split; [left; reflexivity|reflexivity]].
    + cbn [repo_paths manager on_manager].
      unfold discard_operation, set_active.
      cbn [active_operations].
      rewrite paths_update, active_update, paths_save, active_save. simpl.
      split; [apply NoDup_snoc; assumption|].
      split; [right; split; [assumption|reflexivity]|reflexivity].
Qed.

Lemma remove_first_other (x p : string) (l : list string) :
  p ∈ l -> p <> x -> p ∈ remove_first x l.
Proof.
  induction l as [|y l IH]; intros Hin Hne; [inversion Hin|].
  simpl. destruct (String.eqb_spec y x) as [->|Hyx].
  - apply elem_of_cons in Hin as [->|Hin]; [congruence|exact Hin].
  - apply elem_of_cons in Hin as [->|Hin]; [left|right; auto].
Qed.

Lemma remove_first_subset (x p : string) (l : list string) :
  p ∈ remove_first x l -> p ∈ l.
Proof.
  induction l as [|y l IH]; intros Hin; [inversion Hin|].
  simpl in Hin. destruct (String.eqb_spec y x) as [->|Hyx].
  - right. exact Hin.
  - apply elem_of_cons in Hin as [->|Hin]; [left|right; auto].
Qed.

Lemma filter_all (f : string -> bool) (l : list string) :
  (forall y, y ∈ l -> f y = true) -> List.filter f l = l.
Proof.
  induction l as [|y l IH]; intros H; [reflexivity|].
  simpl. rewrite (H y) by left. f_equal. apply IH. intros z Hz. apply H. right. exact Hz.
Qed.

Lemma remove_first_distinct (x : string) (l : list string) :
  NoDup l ->
  remove_first x l = List.filter (fun y => negb (String.eqb y x)) l.
Proof.
  induction l as [|y l IH]; intros Hl; [reflexivity|].
  apply NoDup_cons in Hl as [Hy Hl]. simpl.
  destruct (String.eqb_spec y x) as [->|Hyx]; simpl.
  - symmetry. apply filter_all. intros z Hz.
    destruct (String.eqb_spec z x) as [->|]; [contradiction|reflexivity].
  - f_equal. apply IH, Hl.
Qed.

Lemma remove_first_NoDup (x : string) (l : list string) :
  NoDup l -> NoDup (remove_first x l).
Proof.
  induction l as [|y l IH]; intros Hl; [constructor|].
  apply NoDup_cons in Hl as [Hy Hl]. simpl.
  destruct (String.eqb y x); [exact Hl|].
  apply NoDup_cons. split; [|apply IH, Hl].
  intros Hin. apply Hy. eapply remove_first_subset, Hin.
Qed.

Lemma filter_twice (f g : string -> bool) (l : list string) :
  List.filter f (List.filter g l) = List.filter (fun y => g y && f y) l.
Proof.
  induction l as [|y l IH]; [reflexivity|].
  simpl. destruct (g y); simpl; [destruct (f y)|]; rewrite IH; reflexivity.
Qed.

Lemma remove_paths_left (selected paths removed : list string) (st : State) :
  NoDup paths ->
  (remove_paths selected paths removed st).1.1
  = List.filter (fun p => negb (bool_decide (p ∈ selected))) paths.
Proof.
  revert paths removed st.
  induction selected as [|x rest IH]; intros paths removed st Hpaths.
  - simpl. symmetry. apply filter_all. intros y _. reflexivity.
  - simpl. destruct (bool_decide_reflect (x ∈ paths)) as [Hin|Hout].
    + rewrite IH by (apply remove_first_NoDup, Hpaths).
      rewrite remove_first_distinct by exact Hpaths.
      rewrite filter_twice. apply List.filter_ext. intros y.
      destruct (String.eqb_spec y x) as [->|Hyx]; simpl.
      * rewrite bool_decide_true by left. reflexivity.
      * destruct (bool_decide_reflect (y ∈ rest)) as [Hy|Hy].
        -- rewrite bool_decide_true by (right; exact Hy). reflexivity.
        -- rewrite bool_decide_false; [reflexivity|].
           intros H. apply elem_of_cons in H as [?|?]; contradiction.
    + rewrite IH by exact Hpaths. apply List.filter_ext_in. intros y Hy.
      apply list_elem_of_In in Hy.
      destruct (bool_decide_reflect (y ∈ rest)) as [Hr|Hr].
      * rewrite bool_decide_true by (right; exact Hr). reflexivity.
      * rewrite bool_decide_false; [reflexivity|].
        intros H. apply elem_of_cons in H as [->|?]; contradiction.
Qed.

Lemma remove_paths_keeps (selected paths removed : list string) (st : State) :
  let st' := (remove_paths selected paths removed st).2 in
  active_operations st' = active_operations st
  /\ threadpool st' = threadpool st
  /\ log st' = log st.
Proof.
  revert paths removed st.
  induction selected as [|x rest IH]; intros paths removed st; simpl.
  - repeat split.
  - destruct (bool_decide (x ∈ paths)); [|apply IH].
    destruct (bool_decide (current_repo_path st = Some x)); [|apply IH].
    destruct (IH (remove_first x paths) (removed ++ [x])
                 (clear_repo_info (set_current false None st))) as (Ha & Ht & Hl).
    simpl in *. repeat split; assumption.
Qed.

Lemma remove_paths_spares (selected paths removed : list string) (st : State) :
  (forall p, current_repo_path st = Some p -> ~ (p ∈ selected /\ p ∈ paths)) ->
  (remove_paths selected paths removed st).2 = st.
Proof.
  revert paths removed.
  induction selected as [|x rest IH]; intros paths removed Hspared; [reflexivity|].
  simpl. destruct (bool_decide_reflect (x ∈ paths)) as [Hin|Hout].
  - rewrite bool_decide_false.
    + apply IH. intros p Hp [Hsel Hleft]. apply (Hspared p Hp).
      split; [right; exact Hsel|]. eapply remove_first_subset, Hleft.
    + intros Hcur. apply (Hspared x Hcur). split; [left|exact Hin].
  - apply IH. intros p Hp [Hsel Hleft]. apply (Hspared p Hp).
    split; [right; exact Hsel|exact Hleft].
Qed.

Lemma remove_paths_clears (selected paths removed : list string) (st : State) (p : string) :
  current_repo_path st = Some p -> p ∈ selected -> p ∈ paths ->
  let st' := (remove_paths selected paths removed st).2 in
  current_repo_path st' = None /\ current_repo st' = false /\ branch_combo st' = [].
Proof.
  revert paths removed.
  induction selected as [|x rest IH]; intros paths removed Hcur Hsel Hin;
    [inversion Hsel|].
  simpl. destruct (bool_decide_reflect (x ∈ paths)) as [Hx|Hx].
  - destruct (bool_decide_reflect (current_repo_path st = Some x)) as [Heq|Hne].
    + rewrite remove_paths_spares by (intros q Hq; discriminate).
      repeat split.
    + assert (Hpx : p <> x) by (intros ->; contradiction).
      apply IH; [exact Hcur| |apply remove_first_other; assumption].
      apply elem_of_cons in Hsel as [?|?]; [contradiction|assumption].
  - assert (Hpx : p <> x) by (intros ->; contradiction).
    apply IH; [exact Hcur| |exact Hin].
    apply elem_of_cons in Hsel as [?|?]; [contradiction|assumption].
Qed.

(** X27 — [remove_repo] on a list without duplicates.  Once confirmed it
    leaves exactly the paths that were not selected, in their order, and
    the list comes back without a current item.  The current repository
    is cleared when its path was among those removed, and also whenever
    the list had a current item, since rebuilding the list reports the
    loss of that item to [on_repo_selected]; it is kept only when the list
    had no current item and its path was not removed.  No worker starts
    and the running operations are as before.  When the question is
    declined, paths, current item and current repository are as they
    were. *)
Theorem remove_repo_effect (selected : list string) (written : outcome unit)
        (r : Registry) :
  NoDup (repo_paths r) ->
  selected <> [] ->
  "remove_repo" ∉ active_operations (manager r) ->
  let after := remove_repo basename selected true written r in
  let cleared :=
    current_repo_path (manager after) = None
    /\ current_repo (manager after) = false
    /\ branch_combo (manager after) = [] in
  let declined := remove_repo basename selected false written r in
  repo_paths after
  = List.filter (fun p => negb (bool_decide (p ∈ selected))) (repo_paths r)
  /\ current_item after = None
  /\ (current_item r <> None -> cleared)
  /\ (forall p, current_repo_path (manager r) = Some p ->
                p ∈ selected -> p ∈ repo_paths r -> cleared)
  /\ (current_item r = None ->
      (forall p, current_repo_path (manager r) = Some p ->
                 ~ (p ∈ selected /\ p ∈ repo_paths r)) ->
      current_repo_path (manager after) = current_repo_path (manager r)
      /\ current_repo (manager after) = current_repo (manager r))
  /\ active_operations (manager after) = active_operations (manager r)
  /\ threadpool (manager after) = threadpool (manager r)
  /\ (repo_paths declined = repo_paths r
      /\ current_item declined = current_item r
      /\ current_repo_path (manager declined) = current_repo_path (manager r)
      /\ current_repo (manager declined) = current_repo (manager r)).
Proof.
  intros Hdistinct Hsome Hfree after cleared declined.
  subst after cleared declined. unfold remove_repo.
  rewrite !decide_False by exact Hfree.
  destruct selected as [|x rest]; [congruence|].
  set (selected := x :: rest) in *.
  set (r1 := on_manager (add_operation "remove_repo") r).
  pose proof (remove_paths_left selected (repo_paths r1) [] (manager r1) Hdistinct) as Hleft.
  pose proof (remove_paths_keeps selected (repo_paths r1) [] (manager r1)) as Hkeeps.
  pose proof (remove_paths_clears selected (repo_paths r1) [] (manager r1)) as Hclears.
  pose proof (remove_paths_spares selected (repo_paths r1) [] (manager r1)) as Hspares.
  cbv zeta in Hkeeps, Hclears.
  destruct (remove_paths selected (repo_paths r1) [] (manager r1))
    as [[paths removed] st].
  simpl in Hleft, Hkeeps, Hclears, Hspares.
  destruct Hkeeps as (Hactive & Hpool & _).
  set (saved := match written with
                | Ok _ => st
                | Raise e => log_message ("保存配置失败: " +:+ str_exn e) st
                end).
  assert (Hsaved : save_config written
                     {| manager := st; repo_paths := paths;
                        current_item := current_item r1 |}
                   = {| manager := saved; repo_paths := paths;
                        current_item := current_item r |}).
  { subst saved. destruct written; reflexivity. }
  rewrite Hsaved.
  assert (Hmanager : forall line,
            manager (on_manager (discard_operation "remove_repo")
                       (on_manager (log_message line)
                          (update_repo_list
                             {| manager := saved; repo_paths := paths;
                                current_item := current_item r |})))
            = discard_operation "remove_repo"
                (log_message line
                   (match current_item r with
                    | Some _ => clear_repo_info (set_current false None saved)
                    | None => saved
                    end))).
  { intros line. unfold update_repo_list. simpl.
    destruct (current_item r); reflexivity. }
  split; [|split; [|split; [|split; [|split; [|split; [|split]]]]]].
  - cbn [repo_paths on_manager]. rewrite paths_update. exact Hleft.
  - cbn [current_item on_manager]. apply item_update.
  - intros Hitem. rewrite Hmanager.
    destruct (current_item r); [|congruence]. repeat split.
  - intros p Hcur Hsel Hin. rewrite Hmanager.
    destruct (Hclears p Hcur Hsel Hin) as (H1 & H2 & H3).
    destruct (current_item r); [repeat split|].
    subst saved. destruct written; simpl; repeat split; assumption.
  - intros Hitem Hspared. rewrite Hmanager, Hitem.
    subst saved. rewrite (Hspares Hspared).
    destruct written; simpl; split; reflexivity.
  - rewrite Hmanager.
    assert (Hs : active_operations saved = active_operations st)
      by (subst saved; destruct written; reflexivity).
    destruct (current_item r); simpl; rewrite Hs, Hactive; simpl; set_solver.
  - rewrite Hmanager.
    assert (Hs : threadpool saved = threadpool st)
      by (subst saved; destruct written; reflexivity).
    destruct (current_item r); simpl; rewrite Hs; exact Hpool.
  - repeat split.
Qed.
End RepoList.

(** ** The history list and a cherry-pick from it *)
Section WorkerHistory.
Import Py Git Worker.
Context {W : Type}.
Variable B : Backend W.
Variable format_1f : Q -> string.

Lemma len_app (a b : string) : PyStr.len (a +:+ b) = (PyStr.len a + PyStr.len b)%nat.
Proof.
  induction a as [|c a IH]; [reflexivity|].
  rewrite app_cons. simpl. rewrite IH. destruct (PyStr.continuation c); reflexivity.
Qed.

Lemma len_head_continuation (s : string) : PyStr.len (PyStr.head_continuation s) = 0%nat.
Proof.
  induction s as [|c s IH]; [reflexivity|]. simpl.
  destruct (PyStr.continuation c) eqn:Hc; [|reflexivity]. simpl. rewrite Hc. exact IH.
Qed.

(** A slice [s[:n]] has at most [n] characters. *)
Lemma len_take (n : nat) (s : string) :
  (PyStr.len (PyStr.take n s) <= n)%nat.
Proof.
  revert s. induction n as [|n IH]; intros s; [simpl; lia|].
  destruct s as [|c s]; [simpl; lia|].
  cbn [PyStr.take PyStr.len]. rewrite len_app, len_head_continuation.
  specialize (IH (PyStr.skip_continuation s)).
  destruct (PyStr.continuation c); lia.
Qed.

(** X28 — the "log" operation and a cherry-pick of one of its entries.
    The result has one entry per commit the backend lists, in that order;
    an entry's short hash is the first seven characters of its full hash,
    so it has at most seven.
    When the full hash of an entry is then handed to "cherry_pick" and git
    accepts it, the success text names that entry's short hash. *)
Theorem log_entry_cherry_pick (repo_path : option string) (args : list value)
        (w w1 w2 : W) (commits : list Commit) :
  Repo B repo_path w = (Ok tt, w1) ->
  iter_commits B 20 w1 = (Ok commits, w2) ->
  exists entries,
    run B format_1f repo_path "log" args {| world := w; emitted := [] |}
    = (Ok tt, {| world := w2; emitted := [Result (PLog entries)] |})
    /\ map ci_full_hash entries = map hexsha commits
    /\ map ci_message entries = map summary commits
    /\ forall i entry,
         entries !! i = Some entry ->
         ci_hash entry = PyStr.take 7 (ci_full_hash entry)
         /\ (PyStr.len (ci_hash entry) <= 7)%nat
         /\ forall (v v1 v2 : W) (out : string) (rest : list value),
              Repo B repo_path v = (Ok tt, v1) ->
              git B "cherry_pick" [VStr (ci_full_hash entry)] v1 = (Ok out, v2) ->
              run B format_1f repo_path "cherry_pick" (VStr (ci_full_hash entry) :: rest)
                  {| world := v; emitted := [] |}
              = (Ok tt,
                 {| world := v2;
                    emitted := [Result (PText ("成功cherry-pick提交: " +:+
                                               ci_hash entry))] |}).
Proof.
  intros Hrepo Hlist. exists (map commit_info commits).
  split; [|split; [|split]].
  - unfold run, try_except, operation_body. simpl String.eqb. cbv iota.
    rewrite (bind_ok _ _ _ {| world := w1; emitted := [] |} tt);
      [|apply (call_run (Repo B repo_path) {| world := w; emitted := [] |}), Hrepo].
    rewrite (bind_ok _ _ _ {| world := w2; emitted := [] |} commits);
      [reflexivity|].
    apply (call_run (iter_commits B 20) {| world := w1; emitted := [] |}), Hlist.
  - rewrite List.map_map. reflexivity.
  - rewrite List.map_map. reflexivity.
  - intros i entry Hentry.
    change (map commit_info commits) with (commit_info <$> commits) in Hentry.
    rewrite list_lookup_fmap in Hentry.
    destruct (commits !! i) as [c|]; [|discriminate].
    injection Hentry as <-.
    change (ci_full_hash (commit_info c)) with (hexsha c).
    change (ci_hash (commit_info c)) with (PyStr.take 7 (hexsha c)).
    split; [reflexivity|]. split; [apply len_take|].
    intros v v1 v2 out rest Hopen Hgit.
    {
      unfold run, try_except, operation_body. simpl String.eqb. cbv iota.
      rewrite (bind_ok _ _ _ {| world := v1; emitted := [] |} tt);
        [|apply (call_run (Repo B repo_path) {| world := v; emitted := [] |}), Hopen].
      rewrite (bind_ok (lift (index (VStr (hexsha c) :: rest) 0)) _ _
                 {| world := v1; emitted := [] |} (VStr (hexsha c))); [|reflexivity].
      rewrite (bind_ok _ _ _ {| world := v2; emitted := [] |} out);
        [reflexivity|].
      apply (call_run (git B "cherry_pick" _) {| world := v1; emitted := [] |}), Hgit.
    }
Qed.
End WorkerHistory.

(** ** "push_with_upstream" *)
Section WorkerPushUpstream.
Import Py Git Worker.
Context {W : Type}.
Variable B : Backend W.
Variable format_1f : Q -> string.

(** X29 — "push_with_upstream".  After the two transport settings and the
    lookup of origin, the name of the active branch is read first: when
    that fails, its text is the one error signal and no push is made.
    Otherwise the push carries the refspec [branch:branch] with
    [set_upstream]; the progress it reports is followed by the success
    text naming [origin/branch], or by the text of whatever the push
    raised — here without the hint that the plain push gives. *)
Theorem push_with_upstream_outcomes (repo_path : option string) (args : list value)
        (w w1 w2 w3 w4 : W) (out1 out2 : string) :
  Repo B repo_path w = (Ok tt, w1) ->
  git B "config" [VStr "http.lowSpeedLimit"; VStr "1000"] w1 = (Ok out1, w2) ->
  git B "config" [VStr "http.lowSpeedTime"; VStr "30"] w2 = (Ok out2, w3) ->
  remote B "origin" w3 = (Ok tt, w4) ->
  let ran := run B format_1f repo_path "push_with_upstream" args
               {| world := w; emitted := [] |} in
  (forall w5 e,
      active_branch_name B w4 = (Raise e, w5) ->
      ran = (Ok tt, {| world := w5; emitted := [Error (str_exn e)] |}))
  /\ (forall w5 w6 current_branch callbacks o,
        active_branch_name B w4 = (Ok current_branch, w5) ->
        push B {| refspec := Some (current_branch +:+ ":" +:+ current_branch);
                  set_upstream := true |} w5 = ((callbacks, o), w6) ->
        let progress :=
          map ProgressSignal
              (omap id (Progress.emissions format_1f Progress.init callbacks)) in
        ran = (Ok tt,
               {| world := w6;
                  emitted :=
                    progress ++
                    [match o with
                     | Ok _ => Result (PText ("推送成功，并已设置上游分支为 origin/" +:+
                                              current_branch))
                     | Raise e => Error (str_exn e)
                     end] |})).
Proof.
  intros Hrepo Hc1 Hc2 Hremote ran. subst ran.
  assert (Hstart :
    run B format_1f repo_path "push_with_upstream" args {| world := w; emitted := [] |}
    = match
        (current_branch ← call (active_branch_name B);
         try_except is_GitCommandError
           (with_progress format_1f
              (push B {| refspec := Some (current_branch +:+ ":" +:+ current_branch);
                         set_upstream := true |});;
            emit (Result (PText
              ("推送成功，并已设置上游分支为 origin/" +:+ current_branch))))
           (fun e => emit (Error (str_exn e))))
          {| world := w4; emitted := [] |}
      with
      | (Ok a, st1) => (Ok a, st1)
      | (Raise e, st1) => emit (Error (str_exn e)) st1
      end).
  { unfold run, operation_body. simpl String.eqb. cbv iota.
    unfold try_except at 1.
    rewrite (transport_preamble B repo_path _ w w1 w2 w3 w4 out1 out2 Hrepo Hc1 Hc2 Hremote).
    match goal with |- match ?x with _ => _ end = _ => destruct x as [[[]|e] st1] end;
      reflexivity. }
  split.
  - intros w5 e Hactive. rewrite Hstart.
    rewrite (bind_raise _ _ _ {| world := w5; emitted := [] |} e);
      [reflexivity|].
    apply (call_run (active_branch_name B) {| world := w4; emitted := [] |}), Hactive.
  - intros w5 w6 current_branch callbacks o Hactive Hpush progress.
    rewrite Hstart.
    rewrite (bind_ok _ _ _ {| world := w5; emitted := [] |} current_branch);
      [|apply (call_run (active_branch_name B) {| world := w4; emitted := [] |}), Hactive].
    pose proof (with_progress_run format_1f _ {| world := w5; emitted := [] |} _ _ _ Hpush)
      as Hwp. simpl in Hwp. fold progress in Hwp.
    unfold try_except. destruct o as [[]|e].
    + rewrite (bind_ok _ _ _ _ tt Hwp). reflexivity.
    + rewrite (bind_raise _ _ _ _ e Hwp).
      destruct (is_GitCommandError e); reflexivity.
Qed.
End WorkerPushUpstream.

(** ** Stripping by characters *)

(** A message of ideographic spaces is empty for [commit]; a message that
    ends in a Chinese character keeps it. *)
Example commit_message_unicode :
  Manager.commit "　　" Samples.repo_selected
  = Manager.log_message "请输入提交信息" Samples.repo_selected
  /\ map Manager.args
         (Manager.threadpool (Manager.commit " 修复：加 " Samples.repo_selected))
     = [[Py.VStr "修复：加"]].
Proof. split; vm_compute; reflexivity. Qed.

(** The clone dialog takes a path of ideographic spaces for no path, and a
    URL that ends in a Chinese character as it is. *)
Example accept_unicode :
  Dialogs.accept Cases.path_exists Cases.path_join "https://example.org/team/加" "　" false
  = Dialogs.Warned "请选择本地路径"
  /\ Dialogs.accept Cases.path_exists Cases.path_join
       "https://example.org/team/加" "/home/dev" false
     = Dialogs.Accepted "https://example.org/team/加" "/home/dev" "/home/dev/加".
Proof. split; vm_compute; reflexivity. Qed.

(** With no current item in the list, removing another repository keeps
    the current one. *)
Example remove_repo_without_current_item :
  let after := Repos.remove_repo Cases.basename ["/work/site"] true (Py.Ok tt)
                 Cases.registry_unselected in
  Repos.repo_paths after = ["/work/repo"]
  /\ Manager.current_repo_path (Repos.manager after) = Some "/work/repo".
Proof. cbv zeta. split; vm_compute; reflexivity. Qed.

(** Choosing a repository in the list and then removing another one
    leaves no current repository: the list is rebuilt, and its current
    item is lost with it. *)
Example remove_repo_after_selection :
  let chosen := Repos.select_item "/work/repo" true (Py.Ok tt) Cases.registry_unselected in
  let after := Repos.remove_repo Cases.basename ["/work/site"] true (Py.Ok tt) chosen in
  Manager.current_repo_path (Repos.manager chosen) = Some "/work/repo"
  /\ Repos.repo_paths after = ["/work/repo"]
  /\ Repos.listed (fun _ => true) after = ["/work/repo"]
  /\ Repos.current_item after = None
  /\ Manager.current_repo_path (Repos.manager after) = None.
Proof. cbv zeta. repeat split; vm_compute; reflexivity. Qed.

(** ** The properties above on the sample situations *)

Lemma repository_unavailable_witness :
  Worker.run Cases.unreachable Progress.format_1f_exact (Some "/work/repo") "status" []
    {| Worker.world := []; Worker.emitted := [] |}
  = (Py.Ok tt,
     {| Worker.world := ["Repo"]; Worker.emitted := [Worker.Error "/work/repo"] |}).
Proof.
  exact (repository_unavailable Cases.unreachable Progress.format_1f_exact
           (Some "/work/repo") "status" [] [] ["Repo"]
           (Py.OtherException "/work/repo") eq_refl).
Defined.

Lemma unknown_operation_silent_witness :
  ~ In "stash" Worker.supported
  /\ Samples.run_scripted "stash" []
     = (Py.Ok tt, {| Worker.world := ["Repo"]; Worker.emitted := [] |}).
Proof.
  assert (H : ~ In "stash" Worker.supported).
  { simpl. intros H. repeat destruct H as [H|H]; try discriminate H. exact H. }
  split; [exact H|].
  exact (unknown_operation_silent Samples.scripted Progress.format_1f_exact
           (Some "/work/repo") "stash" [] [] ["Repo"] H eq_refl).
Defined.

Lemma missing_argument_reported_witness :
  Samples.run_scripted "checkout" []
  = (Py.Ok tt,
     {| Worker.world := ["Repo"];
        Worker.emitted := [Worker.Error "tuple index out of range"] |}).
Proof.
  apply (missing_argument_reported Samples.scripted Progress.format_1f_exact
           (Some "/work/repo") "checkout" [] ["Repo"]).
  - simpl. tauto.
  - reflexivity.
Defined.

Lemma branches_result_witness :
  exists remotes journal,
    Samples.run_scripted "branches" []
    = (Py.Ok tt,
       {| Worker.world := journal;
          Worker.emitted :=
            [Worker.Result
               (Worker.PBranches {| Worker.local_branches := ["main"; "topic"];
                                    Worker.remote_branches := remotes;
                                    Worker.active_branch := "topic" |})] |})
    /\ (In "origin/feature/x" remotes /\ ~ In "origin/HEAD" remotes).
Proof.
  destruct (branches_result Samples.scripted Progress.format_1f_exact
              (Some "/work/repo") [] [] ["Repo"] ["Repo"; "branches"]
              ["main"; "topic"] eq_refl eq_refl) as [Hok _].
  destruct (Hok ["Repo"; "branches"; "active_branch"]
                ["Repo"; "branches"; "active_branch"; "refs"]
                "topic" ["origin/HEAD"; "origin/main"; "origin/feature/x"]
                eq_refl eq_refl) as (remotes & Hrun & _ & Hkept).
  exists remotes, ["Repo"; "branches"; "active_branch"; "refs"].
  split; [exact Hrun|]. split.
  - apply Hkept. split; [simpl; tauto|].
    split; [exists "origin", "feature/x"; reflexivity|].
    split; intros [p Hp].
    + assert (Hlen : String.length "origin/feature/x"
                     = String.length (p +:+ "/HEAD")) by (rewrite <- Hp; reflexivity).
      assert (Hend : Worker.endswith "origin/feature/x" "/HEAD" = true)
        by (apply endswith_iff; exists p; exact Hp).
      discriminate Hend.
    + assert (Hstart : PyStr.startswith "origin/feature/x" "origin/HEAD" = true)
        by (apply startswith_iff; exists p; exact Hp).
      discriminate Hstart.
  - intros Hin. apply Hkept in Hin as (_ & _ & _ & Hhead).
    apply Hhead. exists "". reflexivity.
Defined.

Lemma push_outcomes_witness :
  exists journal,
    Samples.run_scripted "push" []
    = (Py.Ok tt,
       {| Worker.world := journal;
          Worker.emitted := [Worker.Error (Worker.no_upstream_message "topic")] |}).
Proof.
  pose proof (push_outcomes Samples.scripted Progress.format_1f_exact
                (Some "/work/repo") [] [] _ _ _ _ _ _ _ _ _
                eq_refl eq_refl eq_refl eq_refl eq_refl) as H.
  cbv zeta in H. destruct H as (_ & _ & Hupstream).
  assert (Hphrase : PyStr.has_substring "has no upstream branch"
                      "fatal: The current branch topic has no upstream branch.")
    by (exists "fatal: The current branch topic ", "."; reflexivity).
  destruct (Hupstream _ eq_refl Hphrase) as [Hnamed _].
  eexists. exact (Hnamed _ "topic" eq_refl).
Defined.

Lemma delete_branch_force_witness :
  exists journal,
    Samples.run_scripted "delete_branch" [Py.VStr "topic"; Py.VBool true]
    = (Py.Ok tt,
       {| Worker.world := journal;
          Worker.emitted := [Worker.Result (Worker.PText "分支 'topic' 已强制删除")] |}).
Proof.
  destruct (delete_branch_force Samples.scripted Progress.format_1f_exact
              (Some "/work/repo")) as (_ & _ & Hrun).
  eexists.
  exact (Hrun (Py.VStr "topic") true [] _ _ _ eq_refl eq_refl).
Defined.

Lemma emission_rate_bound_witness :
  ((Rate.natQ (Rate.emitted_count Progress.format_1f_exact Progress.init Cases.counts_only)
    - 1) * (1#2) <= 1001 - 1000)%Q.
Proof.
  apply (emission_rate_bound Progress.format_1f_exact Progress.init
           (Samples.counted 1000 10 40)
           [Samples.counted (10001#10) 20 40; Samples.counted (10007#10) 30 40;
            Samples.counted 1001 40 40] 1001%Q).
  intros c Hc. simpl in Hc.
  repeat destruct Hc as [Hc|Hc]; try contradiction; subst c;
    (split; [reflexivity | vm_compute; discriminate]).
Defined.

Lemma pool_only_supported_witness :
  Pool.only_supported Samples.repo_selected
  /\ Pool.only_supported (Manager.refresh_current_repo Samples.repo_selected).
Proof.
  assert (H : Pool.only_supported Samples.repo_selected) by constructor.
  split; [exact H|].
  exact (proj1 (proj2 (proj2 (proj2 (pool_only_supported Samples.repo_selected H))))).
Defined.

Lemma no_repository_no_worker_witness :
  Manager.threadpool (Manager.stage_all Manager.initial) = []
  /\ "stage_all" ∈ Manager.active_operations (Manager.stage_all Manager.initial).
Proof.
  destruct (no_repository_no_worker Manager.initial eq_refl)
    as ((_ & _ & _ & _ & Hpool & _) & _ & _ & _ & Hheld & _).
  split; [exact Hpool | exact Hheld].
Defined.

Lemma error_reopens_guards_witness :
  let in_flight := Manager.push false Samples.repo_selected in
  Manager.push false in_flight = in_flight
  /\ Pool.started_since in_flight
       (Manager.push false (snd (Manager.handle_git_error "timeout" in_flight)))
       ["push"].
Proof.
  split; [vm_compute; reflexivity|].
  destruct (error_reopens_guards "timeout" (Manager.push false Samples.repo_selected))
    as (Hpush & _); [vm_compute; reflexivity|].
  exact (Hpush false).
Defined.

Lemma refresh_current_repo_effect_witness :
  Pool.started_since Samples.repo_selected
    (Manager.refresh_current_repo Samples.repo_selected)
    ["branches"; "status"; "log"].
Proof.
  destruct (refresh_current_repo_effect Samples.repo_selected) as (Hstarted & _);
    [vm_compute; set_solver | reflexivity | reflexivity |].
  exact Hstarted.
Defined.

Lemma merge_declined_unchanged_witness :
  Manager.merge_branch "topic" "main" false Samples.repo_selected
  = Samples.repo_selected.
Proof.
  apply merge_declined_unchanged; [vm_compute; set_solver | discriminate | discriminate].
Defined.

Lemma activation_without_branch_witness :
  Manager.on_branch_activated (-1) (Py.Ok ["main"]) Samples.repo_selected
  = Samples.repo_selected.
Proof. apply activation_without_branch. left. lia. Defined.

Lemma activation_of_listed_branch_witness :
  let st := Samples.with_branches ["main"; "topic"] ["origin/main"; "origin/feature/x"] in
  Manager.threadpool
    (Manager.on_branch_activated 4 (Py.Ok ["main"; "topic"]) st)
  = [{| Manager.repo_path := Some "/work/repo"; Manager.operation := "checkout";
        Manager.args := [Py.VStr "-b"; Py.VStr "feature/x"; Py.VStr "origin/feature/x"];
        Manager.error_slot := Manager.to_switch_error |}].
Proof.
  intros st.
  destruct (activation_of_listed_branch
              ["main"; "topic"] ["origin/main"; "origin/feature/x"]
              (Py.Ok ["main"; "topic"]) st) as [_ Hremote];
    [reflexivity | vm_compute; set_solver |].
  destruct (Hremote 1%nat "origin/feature/x") as [Hpool _];
    [reflexivity | discriminate | |exact Hpool].
  simpl. intros [H|[H|[]]]; discriminate H.
Defined.

Lemma delete_branch_submission_witness :
  Manager.delete_branch ["main"; "topic"] "main" (Some "topic") Manager.AnswerNo
    Samples.repo_selected
  = Manager.start
      {| Manager.repo_path := Some "/work/repo"; Manager.operation := "delete_branch";
         Manager.args := [Py.VStr "topic"; Py.VBool true];
         Manager.error_slot := Manager.to_delete_branch_error |}
      Samples.repo_selected.
Proof.
  destruct (delete_branch_submission ["main"; "topic"] "main" "topic" Manager.AnswerNo
              Samples.repo_selected) as [_ H];
    [reflexivity | reflexivity | simpl; tauto | discriminate | exact H].
Defined.

Lemma cherry_pick_ignores_target_witness :
  Manager.threadpool
    (Manager.cherry_pick_commit "9a8b7c6" "9a8b7c6d5e4f" ["main"; "topic"] "main"
       (Some "topic") true Samples.repo_selected)
  = [{| Manager.repo_path := Some "/work/repo"; Manager.operation := "cherry_pick";
        Manager.args := [Py.VStr "9a8b7c6d5e4f"];
        Manager.error_slot := Manager.to_handle_git_error |}].
Proof.
  destruct (cherry_pick_ignores_target "9a8b7c6" "9a8b7c6d5e4f" ["main"; "topic"] "main"
              "topic" Samples.repo_selected) as [H _];
    [vm_compute; set_solver | reflexivity | reflexivity | discriminate | discriminate
    | exact H].
Defined.

Lemma status_row_diff_witness :
  Manager.show_file_diff
    (fst (fst (Worker.status_row "?? notes/new.txt")))
    (snd (fst (Worker.status_row "?? notes/new.txt")))
    Samples.repo_selected
  = Manager.start
      {| Manager.repo_path := Some "/work/repo"; Manager.operation := "diff";
         Manager.args := [Py.VStr "notes/new.txt"];
         Manager.error_slot := Manager.to_diff_error |}
      Samples.repo_selected.
Proof.
  destruct (status_row_diff "?? notes/new.txt" Samples.repo_selected) as [H _];
    [discriminate|].
  apply H. left. reflexivity.
Defined.

Lemma repo_name_of_url_witness :
  Dialogs.repo_name "https://example.org/team/tool.git" = "tool".
Proof.
  destruct (repo_name_of_url "https://example.org/team" "tool") as [H _];
    [reflexivity | reflexivity | exact H].
Defined.

Lemma accept_conditions_witness :
  Dialogs.accept Cases.path_exists Cases.path_join
    " https://example.org/team/tool.git " "/home/dev" false
  = Dialogs.Accepted "https://example.org/team/tool.git" "/home/dev" "/home/dev/tool".
Proof.
  destruct (accept_conditions Cases.path_exists Cases.path_join
              " https://example.org/team/tool.git " "/home/dev" false) as [H _].
  apply H. repeat split; try reflexivity; try discriminate.
Defined.

Lemma format_diff_line_by_line_witness :
  Dialogs.format_line " unchanged line" = " unchanged line".
Proof.
  destruct format_diff_line_by_line as (_ & _ & _ & H & _).
  apply H; reflexivity.
Defined.

Lemma clone_reaches_registry_witness :
  exists result signals,
    Clone.run Cases.scripted_clone Progress.format_1f_exact
      "https://example.org/team/tool.git" "/home/dev/tool"
      {| Worker.world := []; Worker.emitted := [] |}
    = (Py.Ok tt,
       {| Worker.world := ["clone https://example.org/team/tool.git /home/dev/tool"];
          Worker.emitted := signals ++ [Worker.Result (Worker.PText result)] |})
    /\ Repos.repo_paths (Repos.on_clone_success result (Py.Ok tt) Cases.registry)
       = ["/work/repo"; "/work/site"; "/home/dev/tool"].
Proof.
  pose proof (clone_reaches_registry Cases.scripted_clone Progress.format_1f_exact
                "https://example.org/team/tool.git" "/home/dev/tool"
                [] _ _ _ eq_refl) as H.
  cbv zeta in H. destruct H as [_ H].
  destruct (H eq_refl eq_refl) as (result & Hrun & _ & Hslot).
  exists result. eexists. split; [exact Hrun|].
  destruct (Hslot (Py.Ok tt) Cases.registry) as (Hnew & _).
  apply Hnew. vm_compute. set_solver.
Defined.

Lemma button_loading_round_trip_witness :
  Buttons.set_button_loading false
    (Buttons.set_button_loading true
       {| Buttons.enabled := true; Buttons.text := "推送" |})
  = {| Buttons.enabled := true; Buttons.text := "推送" |}.
Proof.
  destruct (button_loading_round_trip true "推送") as [H _]; [reflexivity | exact H].
Defined.

Lemma repo_selection_witness :
  Manager.current_repo_path
    (Repos.on_repo_selected (Some "/work/gone") false (Py.Ok tt) Samples.repo_selected)
  = Some "/work/repo".
Proof.
  destruct (repo_selection Samples.repo_selected) as (_ & Hstale & _).
  destruct (Hstale "/work/gone" false (Py.Ok tt)) as (_ & H & _);
    [left; reflexivity | exact H].
Defined.

Lemma repo_paths_stay_distinct_witness :
  NoDup (Repos.repo_paths Cases.registry)
  /\ NoDup (Repos.repo_paths
              (Repos.add_repo Cases.basename "/work/site/" (Repos.WorkingDir "/work/site")
                 (Py.Ok tt) Cases.registry)).
Proof.
  assert (H : NoDup (Repos.repo_paths Cases.registry)).
  { apply (bool_decide_unpack _). vm_compute. exact I. }
  split; [exact H|].
  destruct (repo_paths_stay_distinct Cases.basename Cases.registry H) as [Hadd _].
  destruct (Hadd "/work/site/" (Repos.WorkingDir "/work/site") (Py.Ok tt)) as [Hdistinct _].
  exact Hdistinct.
Defined.

Lemma remove_repo_effect_witness :
  let after := Repos.remove_repo Cases.basename ["/work/site"] true (Py.Ok tt)
                 Cases.registry in
  Repos.repo_paths after = ["/work/repo"]
  /\ Manager.current_repo_path (Repos.manager after) = None.
Proof.
  intros after.
  destruct (remove_repo_effect Cases.basename ["/work/site"] (Py.Ok tt) Cases.registry)
    as (Hleft & _ & Hcleared & _).
  - apply (bool_decide_unpack _). vm_compute. exact I.
  - discriminate.
  - vm_compute. set_solver.
  - split; [exact Hleft|].
    destruct Hcleared as [H _]; [discriminate | exact H].
Defined.

Lemma log_entry_cherry_pick_witness :
  exists journal,
    Samples.run_scripted "cherry_pick" [Py.VStr "9a8b7c6d5e4f"]
    = (Py.Ok tt,
       {| Worker.world := journal;
          Worker.emitted := [Worker.Result (Worker.PText "成功cherry-pick提交: 9a8b7c6")] |}).
Proof.
  destruct (log_entry_cherry_pick Samples.scripted Progress.format_1f_exact
              (Some "/work/repo") [] [] ["Repo"] ["Repo"; "iter_commits"]
              [Samples.child_commit; Samples.root_commit] eq_refl eq_refl)
    as (entries & _ & Hfull & _ & Hentries).
  destruct entries as [|entry others]; [discriminate Hfull|].
  injection Hfull as Hfirst _.
  destruct (Hentries 0%nat entry eq_refl) as (Hshort & _ & Hpick).
  rewrite Hshort, Hfirst in Hpick.
  eexists. exact (Hpick [] _ _ _ [] eq_refl eq_refl).
Defined.

Lemma push_with_upstream_outcomes_witness :
  exists journal signals,
    Samples.run_scripted "push_with_upstream" []
    = (Py.Ok tt,
       {| Worker.world := journal;
          Worker.emitted :=
            signals ++
            [Worker.Result (Worker.PText "推送成功，并已设置上游分支为 origin/topic")] |}).
Proof.
  pose proof (push_with_upstream_outcomes Samples.scripted Progress.format_1f_exact
                (Some "/work/repo") [] [] _ _ _ _ _ _
                eq_refl eq_refl eq_refl eq_refl) as H.
  cbv zeta in H. destruct H as [_ H].
  eexists. eexists. exact (H _ _ "topic" _ (Py.Ok tt) eq_refl eq_refl).
Defined.
